(** * Vectra Guard: exec pipeline, session ledger and daemon approval queue

    A shallow embedding of the Go sources

    - [internal/session] (the session ledger: [Manager.AddCommand],
      [Manager.AddFileOperation], [Manager.End], [Manager.save],
      [generateSessionID]),
    - [cmd/exec.go] and [cmd/root.go] (the exec pipeline [runExec],
      [promptForApproval] and the exit-code mapping of [Execute]),
    - [internal/daemon/daemon.go] ([Daemon.InterceptCommand] and
      [Daemon.processCommands]),

    followed by the properties established about them.

    Conventions.  Go's [int] is taken at its 64-bit width (amd64, arm64);
    it is carried in [Z] with the wrap-around of [+=] written out
    ([GoInt.add]).
    Go strings are [string]s.  Everything the code obtains from its
    environment (standard input, the outcome of the child process, the
    clock, failures of the file system) is an explicit argument, and
    everything it does to its environment (log lines, files written,
    processes spawned) is an explicit result. *)

From Stdlib Require Import ZArith List String Ascii Bool Lia.
From stdpp Require Import base option list gmap strings.

Local Open Scope string_scope.
Local Open Scope Z_scope.

(* ===================================================================== *)
(** ** Go's [int] *)
(* ===================================================================== *)

Module GoInt.

Definition bits : Z := 64.
Definition min_int : Z := - 2 ^ (bits - 1).
Definition max_int : Z := 2 ^ (bits - 1) - 1.

(** The value an [int] variable holds after an arithmetic result [z]
    has been stored in it. *)
Definition wrap (z : Z) : Z :=
  (z - min_int) mod 2 ^ bits + min_int.

(** [a + b], [a += b] on [int]. *)
Definition add (a b : Z) : Z := wrap (a + b).

Definition in_range (z : Z) : Prop := min_int <= z <= max_int.

End GoInt.

(* ===================================================================== *)
(** ** The file system as the ledger sees it *)
(* ===================================================================== *)

Module OS.

(** The calls of package [os] the ledger issues.  [oplog] records them in
    program order, so that what a function did to the disk can be read
    back. *)
Inductive FsOp : Type :=
| OpMkdirAll (path : string) (perm : Z)
| OpReadFile (path : string)
| OpWriteFile (path data : string) (perm : Z)
| OpRename (oldpath newpath : string).

Record Disk : Type := mkDisk {
  files : gmap string string;
  oplog : list FsOp
}.

(** How a call of [os.WriteFile] can end.  [os.WriteFile] opens the file
    with [O_WRONLY|O_CREATE|O_TRUNC], writes, and closes: when the open
    fails the file is untouched; when the write fails the file has been
    truncated and holds the [n] bytes that went through. *)
Inductive WriteFault : Type :=
| WriteOK
| OpenFails
| WriteFailsAfter (n : nat).

Definition WriteFile (d : Disk) (path data : string) (perm : Z)
    (fault : WriteFault) : Disk * option string :=
  let log := (oplog d ++ [OpWriteFile path data perm])%list in
  match fault with
  | WriteOK => (mkDisk (<[path := data]> (files d)) log, None)
  | OpenFails => (mkDisk (files d) log, Some "open failed")
  | WriteFailsAfter n =>
      (mkDisk (<[path := String.substring 0 n data]> (files d)) log,
       Some "write failed")
  end.

Definition ReadFile (d : Disk) (path : string) : Disk * (string + string) :=
  let log := (oplog d ++ [OpReadFile path])%list in
  match files d !! path with
  | Some data => (mkDisk (files d) log, inl data)
  | None => (mkDisk (files d) log, inr "no such file")
  end.

Definition MkdirAll (d : Disk) (path : string) (perm : Z) (ok : bool)
    : Disk * option string :=
  let log := (oplog d ++ [OpMkdirAll path perm])%list in
  (mkDisk (files d) log, if ok then None else Some "mkdir failed").

(** [filepath.Join] of a directory and one element: an empty element is
    left out, the others are joined by a slash.  (The cleaning of the
    result leaves a path without [.], [..] and doubled slashes as it is;
    the paths below are of that kind.) *)
Definition Join (dir name : string) : string :=
  if String.eqb dir "" then name
  else if String.eqb name "" then dir
  else dir ++ "/" ++ name.

End OS.

(* ===================================================================== *)
(** ** Decimal formatting ([%d]) *)
(* ===================================================================== *)

Module Strconv.

Definition digitChar (d : Z) : ascii := ascii_of_nat (48 + Z.to_nat d).

(** The decimal digits of [n], most significant first, pushed in front of
    [acc]; [fuel] bounds the number of digits. *)
Fixpoint digitsFrom (fuel : nat) (n : Z) (acc : list Z) : list Z :=
  match fuel with
  | O => acc
  | S fuel' =>
      let acc' := (n mod 10) :: acc in
      if n / 10 =? 0 then acc' else digitsFrom fuel' (n / 10) acc'
  end.

Definition digits (n : Z) : list Z :=
  digitsFrom (S (Z.to_nat (Z.log2 n))) n [].

Definition string_of_digits (ds : list Z) : string :=
  fold_right (fun d s => String (digitChar d) s) EmptyString ds.

(** The number a sequence of decimal digits denotes, and what makes a
    sequence one of decimal digits. *)
Fixpoint valueOf (ds : list Z) : Z :=
  match ds with
  | [] => 0
  | d :: rest => d * 10 ^ Z.of_nat (length rest) + valueOf rest
  end.

Definition validDigits (ds : list Z) : Prop :=
  Forall (fun d => 0 <= d < 10) ds.

(** [strconv.FormatInt(n, 10)], which is what [%d] prints. *)
Definition FormatInt (n : Z) : string :=
  if n <? 0 then String "-"%char (string_of_digits (digits (- n)))
  else string_of_digits (digits n).

End Strconv.

(* ===================================================================== *)
(** ** Package [session] *)
(* ===================================================================== *)

Module Session.

Import OS.

(** [Metadata map[string]interface{}]: no ledger operation looks inside
    the values, they are carried as their JSON text. *)
Definition Metadata : Type := gmap string string.

Record Command : Type := mkCommand {
  cmd_Timestamp : Z;
  cmd_Command : string;
  cmd_Args : list string;
  cmd_ExitCode : Z;
  cmd_Output : string;
  cmd_Error : string;
  cmd_Duration : Z;
  cmd_RiskLevel : string;
  cmd_Approved : bool;
  cmd_ApprovedBy : string;
  cmd_Findings : list string;
  cmd_Metadata : Metadata
}.

Record FileOperation : Type := mkFileOperation {
  op_Timestamp : Z;
  op_Operation : string;
  op_Path : string;
  op_Size : Z;
  op_RiskLevel : string;
  op_Allowed : bool;
  op_Reason : string
}.

Record Session : Type := mkSession {
  ID : string;
  AgentName : string;
  Workspace : string;
  StartTime : Z;
  EndTime : option Z;
  Commands : list Command;
  FileOps : list FileOperation;
  RiskScore : Z;
  Violations : Z;
  SessMetadata : Metadata
}.

Record Manager : Type := mkManager {
  sessionDir : string
}.

(** [generateSessionID]: ["session-%d"] of [time.Now().UnixNano()]. *)
Definition generateSessionID (nowUnixNano : Z) : string :=
  "session-" ++ Strconv.FormatInt nowUnixNano.

Definition set_EndTime (s : Session) (t : option Z) : Session :=
  mkSession (ID s) (AgentName s) (Workspace s) (StartTime s) t
            (Commands s) (FileOps s) (RiskScore s) (Violations s)
            (SessMetadata s).

Definition set_Commands (s : Session) (l : list Command) : Session :=
  mkSession (ID s) (AgentName s) (Workspace s) (StartTime s) (EndTime s)
            l (FileOps s) (RiskScore s) (Violations s) (SessMetadata s).

Definition set_FileOps (s : Session) (l : list FileOperation) : Session :=
  mkSession (ID s) (AgentName s) (Workspace s) (StartTime s) (EndTime s)
            (Commands s) l (RiskScore s) (Violations s) (SessMetadata s).

Definition set_RiskScore (s : Session) (r : Z) : Session :=
  mkSession (ID s) (AgentName s) (Workspace s) (StartTime s) (EndTime s)
            (Commands s) (FileOps s) r (Violations s) (SessMetadata s).

Definition set_Violations (s : Session) (v : Z) : Session :=
  mkSession (ID s) (AgentName s) (Workspace s) (StartTime s) (EndTime s)
            (Commands s) (FileOps s) (RiskScore s) v (SessMetadata s).

Section WithJSON.

(** [json.MarshalIndent] and [json.Unmarshal] at type [Session]. *)
Variable marshal : Session -> string + string.
Variable unmarshal : string -> Session + string.

Definition sessionPath (m : Manager) (id : string) : string :=
  Join (sessionDir m) (id ++ ".json").

(** [Manager.save]. *)
Definition save (m : Manager) (s : Session) (d : Disk)
    (fault : WriteFault) : Disk * option string :=
  let path := sessionPath m (ID s) in
  match marshal s with
  | inr err => (d, Some ("marshal session: " ++ err))
  | inl data =>
      match WriteFile d path data 420 fault with
      | (d', Some err) => (d', Some ("write session: " ++ err))
      | (d', None) => (d', None)
      end
  end.

(** [NewManager]. *)
Definition NewManager (workspace : string) (d : Disk) (mkdir_ok : bool)
    : Disk * (Manager + string) :=
  let dir := Join (Join workspace ".vectra-guard") "sessions" in
  match MkdirAll d dir 493 mkdir_ok with
  | (d', Some err) => (d', inr ("create session directory: " ++ err))
  | (d', None) => (d', inl (mkManager dir))
  end.

(** [Manager.Start]; the log line it writes on success is left to the
    caller's trace.  The clock is read twice: [idNow] is the reading
    inside [generateSessionID()], [now] the later one that becomes
    [StartTime]. *)
Definition Start (m : Manager) (agentName workspace : string)
    (idNow now : Z) (d : Disk) (fault : WriteFault)
    : Disk * (Session + string) :=
  let session :=
    mkSession (generateSessionID idNow) agentName workspace now None
              [] [] 0 0 ∅ in
  match save m session d fault with
  | (d', Some err) => (d', inr err)
  | (d', None) => (d', inl session)
  end.

(** [Manager.Load]. *)
Definition Load (m : Manager) (sessionID : string) (d : Disk)
    : Disk * (Session + string) :=
  match ReadFile d (sessionPath m sessionID) with
  | (d', inr err) => (d', inr ("read session: " ++ err))
  | (d', inl data) =>
      match unmarshal data with
      | inr err => (d', inr ("parse session: " ++ err))
      | inl s => (d', inl s)
      end
  end.

(** [Manager.End].  The session is updated in place before it is
    saved, so the updated session is returned also when saving fails. *)
Definition End (m : Manager) (s : Session) (now : Z) (d : Disk)
    (fault : WriteFault) : Session * Disk * option string :=
  let s1 := set_EndTime s (Some now) in
  let '(d', err) := save m s1 d fault in
  (s1, d', err).

(** [Manager.AddCommand]. *)
Definition AddCommand (m : Manager) (s : Session) (cmd : Command)
    (d : Disk) (fault : WriteFault) : Session * Disk * option string :=
  let s1 := set_Commands s (Commands s ++ [cmd])%list in
  let s2 :=
    if String.eqb (cmd_RiskLevel cmd) "critical" then
      let s' := set_RiskScore s1 (GoInt.add (RiskScore s1) 100) in
      set_Violations s' (GoInt.add (Violations s') 1)
    else if String.eqb (cmd_RiskLevel cmd) "high" then
      let s' := set_RiskScore s1 (GoInt.add (RiskScore s1) 50) in
      set_Violations s' (GoInt.add (Violations s') 1)
    else if String.eqb (cmd_RiskLevel cmd) "medium" then
      set_RiskScore s1 (GoInt.add (RiskScore s1) 10)
    else s1 in
  let '(d', err) := save m s2 d fault in
  (s2, d', err).

(** [Manager.AddFileOperation]. *)
Definition AddFileOperation (m : Manager) (s : Session)
    (op : FileOperation) (d : Disk) (fault : WriteFault)
    : Session * Disk * option string :=
  let s1 := set_FileOps s (FileOps s ++ [op])%list in
  let s2 :=
    if negb (op_Allowed op) then
      let s' := set_Violations s1 (GoInt.add (Violations s1) 1) in
      set_RiskScore s' (GoInt.add (RiskScore s') 25)
    else s1 in
  let '(d', err) := save m s2 d fault in
  (s2, d', err).

(** The three updates of a session the ledger offers. *)
Inductive Update : Type :=
| UAddCommand (cmd : Command)
| UAddFileOperation (op : FileOperation)
| UEnd (now : Z).

Definition apply_update (m : Manager) (s : Session) (u : Update)
    (d : Disk) (fault : WriteFault) : Session * Disk * option string :=
  match u with
  | UAddCommand cmd => AddCommand m s cmd d fault
  | UAddFileOperation op => AddFileOperation m s op d fault
  | UEnd now => End m s now d fault
  end.

End WithJSON.

End Session.

(* ===================================================================== *)
(** ** Package [strings], as far as the pipeline uses it *)
(* ===================================================================== *)

Module Strings.

(** [strings.Join]. *)
Definition Join (elems : list string) (sep : string) : string :=
  String.concat sep elems.

Definition isUpperAscii (c : ascii) : bool :=
  let n := Z.of_nat (nat_of_ascii c) in (65 <=? n) && (n <=? 90).

Definition isLowerAscii (c : ascii) : bool :=
  let n := Z.of_nat (nat_of_ascii c) in (97 <=? n) && (n <=? 122).

Definition lowerChar (c : ascii) : ascii :=
  if isUpperAscii c then ascii_of_nat (nat_of_ascii c + 32) else c.

Definition upperChar (c : ascii) : ascii :=
  if isLowerAscii c then ascii_of_nat (nat_of_ascii c - 32) else c.

Fixpoint mapChars (f : ascii -> ascii) (s : string) : string :=
  match s with
  | EmptyString => EmptyString
  | String c s' => String (f c) (mapChars f s')
  end.

(** [strings.ToLower] and [strings.ToUpper] on the bytes of the ASCII
    range; other bytes are kept.  The pipeline compares the lowered
    answer with ["y"] and ["yes"] and upper-cases one of the literals
    ["low"], ["medium"], ["high"], ["critical"] only. *)
Definition ToLower (s : string) : string := mapChars lowerChar s.
Definition ToUpper (s : string) : string := mapChars upperChar s.

(** The ASCII white space [strings.TrimSpace] removes: tab, line feed,
    vertical tab, form feed, carriage return, space. *)
Definition isSpace (c : ascii) : bool :=
  let n := Z.of_nat (nat_of_ascii c) in
  ((9 <=? n) && (n <=? 13)) || (n =? 32).

Fixpoint trimLeft (s : string) : string :=
  match s with
  | EmptyString => EmptyString
  | String c s' => if isSpace c then trimLeft s' else s
  end.

Definition reverse (s : string) : string :=
  string_of_list_ascii (List.rev (list_ascii_of_string s)).

(** [strings.TrimSpace]. *)
Definition TrimSpace (s : string) : string :=
  reverse (trimLeft (reverse (trimLeft s))).

End Strings.

(* ===================================================================== *)
(** ** Packages [analyzer], [config] and [logging]: what [cmd] sees *)
(* ===================================================================== *)

Module Analyzer.

(** Modelled from the spec: the declaration of [analyzer.Finding] is not
    among the sources; the fields are the ones [runExec] and
    [promptForApproval] read, with the types the spec's data model gives
    them ([code] and [severity] are strings, [severity] one of [low],
    [medium], [high], [critical]). *)
Record Finding : Type := mkFinding {
  Code : string;
  Severity : string;
  Description : string;
  Recommendation : string
}.

(** The four severities of the data model. *)
Definition validSeverity (s : string) : Prop :=
  s = "low" \/ s = "medium" \/ s = "high" \/ s = "critical".

(** Modelled from the spec: the order of the severities,
    [low < medium < high < critical], as ranks. *)
Definition severityRank (s : string) : Z :=
  if String.eqb s "critical" then 3
  else if String.eqb s "high" then 2
  else if String.eqb s "medium" then 1
  else 0.

(** Modelled from the spec: the set MandatorySandboxCodes. *)
Definition MandatorySandboxCodes : list string :=
  ["DANGEROUS_DELETE_ROOT"; "DANGEROUS_DELETE_HOME"; "FORK_BOMB";
   "DEVICE_WRITE"; "SENSITIVE_ENV_ACCESS"; "DOTENV_FILE_READ";
   "POLICY_DENYLIST"].

Definition hasMandatoryCode (findings : list Finding) : bool :=
  existsb (fun f => existsb (String.eqb (Code f)) MandatorySandboxCodes)
          findings.

End Analyzer.

Module Config.

(** Modelled from the spec: package [config] is not among the sources;
    the names are those [sandbox_test.go] uses ([Config.Sandbox.Enabled],
    [Config.Sandbox.Mode], [Config.Policies.Allowlist]) and the values
    those of the spec ([Mode] is one of [auto], [always], [risky],
    [never]). *)
Inductive SandboxMode : Type :=
| SandboxModeAuto
| SandboxModeAlways
| SandboxModeRisky
| SandboxModeNever.

Record SandboxConfig : Type := mkSandboxConfig {
  Enabled : bool;
  Mode : SandboxMode
}.

Record PolicyConfig : Type := mkPolicyConfig {
  Allowlist : list string;
  Denylist : list string
}.

Record Config : Type := mkConfig {
  Policies : PolicyConfig;
  Sandbox : SandboxConfig
}.

End Config.

Module Logging.

Inductive Level : Type := Debug | Info | Warn | Error.

(** The values the code puts into the attribute map of a log line. *)
Inductive Value : Type :=
| VString (s : string)
| VStrings (l : list string)
| VInt (n : Z)
| VDuration (nanos : Z).

Record Entry : Type := mkEntry {
  level : Level;
  message : string;
  attrs : list (string * Value)
}.

End Logging.

(* ===================================================================== *)
(** ** Package [cmd]: [runExec], [promptForApproval], [Execute] *)
(* ===================================================================== *)

Module Cmd.

Import Analyzer Logging.

(** What the pipeline does to the outside, in program order. *)
Inductive Event : Type :=
| EvLog (e : Entry)
| EvStderr (text : string)
| EvScanln
| EvExecCommand (name : string) (args : list string).

(** The errors [runExec] returns: [&exitError{message, code}] and the
    plain errors of [fmt.Errorf]. *)
Inductive GoError : Type :=
| ExitError (message : string) (code : Z)
| OtherError (message : string).

(** How [cmd.Run()] ends: [nil], an [*exec.ExitError] whose [ExitCode()]
    is [code] (the status 0..255 of a child that exited, -1 for a child
    that a signal terminated), or another error (the command could not be
    started, and no child ran). *)
Inductive RunResult : Type :=
| RunSuccess
| RunExitError (code : Z)
| RunOtherError (err : string).

(** Everything [runExec] reads from its environment. *)
Record World : Type := mkWorld {
  w_stdin : string;        (* the word [fmt.Scanln] stores in [response]:
                              the first word of the line typed, empty
                              when the line has none *)
  w_run : RunResult;       (* the outcome of the child process *)
  w_start : Z;             (* [time.Now()] before the child starts *)
  w_duration : Z;          (* [time.Since(start)] *)
  w_env_session : string;  (* [VECTRAGUARD_SESSION_ID] *)
  w_cwd : string;          (* [os.Getwd()] *)
  w_mkdir_ok : bool;       (* whether [os.MkdirAll] succeeds *)
  w_disk : OS.Disk;        (* the files *)
  w_write : OS.WriteFault  (* how [os.WriteFile] ends *)
}.

Definition NL : string := String (ascii_of_nat 10) EmptyString.

(** The warning sign and its variation selector, in UTF-8. *)
Definition warningSign : string :=
  String (ascii_of_nat 226) (String (ascii_of_nat 154)
 (String (ascii_of_nat 160) (String (ascii_of_nat 239)
 (String (ascii_of_nat 184) (String (ascii_of_nat 143) EmptyString))))).

(** The body of the loop over [findings] that determines the highest
    risk level. *)
Definition raiseRisk (riskLevel : string) (f : Finding) : string :=
  if String.eqb (Severity f) "critical" then "critical"
  else if String.eqb (Severity f) "high" then
    if negb (String.eqb riskLevel "critical") then "high" else riskLevel
  else if String.eqb (Severity f) "medium" then
    if negb (String.eqb riskLevel "critical")
       && negb (String.eqb riskLevel "high")
    then "medium" else riskLevel
  else riskLevel.

(** [riskLevel] after the loop; it starts as ["low"]. *)
Definition riskLevelOf (findings : list Finding) : string :=
  fold_left raiseRisk findings "low".

Definition findingCodesOf (findings : list Finding) : list string :=
  map Code findings.

Fixpoint concernLines (i : Z) (findings : list Finding) : list Event :=
  match findings with
  | [] => []
  | f :: rest =>
      EvStderr (Strconv.FormatInt (i + 1) ++ ". [" ++ Code f ++ "] "
                ++ Description f ++ NL)
      :: EvStderr ("   Recommendation: " ++ Recommendation f ++ NL)
      :: concernLines (i + 1) rest
  end.

(** [promptForApproval]: what it prints, the read of the answer, and
    its verdict. *)
Definition promptForApproval (riskLevel cmdString : string)
    (findings : list Finding) (token : string) : list Event * bool :=
  let header :=
    [EvStderr (NL ++ warningSign ++ "  Command requires approval" ++ NL);
     EvStderr ("Command: " ++ cmdString ++ NL);
     EvStderr ("Risk Level: " ++ Strings.ToUpper riskLevel ++ NL ++ NL)] in
  let concerns :=
    if 0 <? Z.of_nat (length findings) then
      (EvStderr ("Security concerns:" ++ NL)
        :: concernLines 0 findings ++ [EvStderr NL])%list
    else [] in
  let ask := [EvStderr "Do you want to proceed? [y/N]: "; EvScanln] in
  let response := Strings.ToLower (Strings.TrimSpace token) in
  ((header ++ concerns ++ ask)%list,
   String.eqb response "y" || String.eqb response "yes").

(** The answers [promptForApproval] takes as approval. *)
Definition approves (token : string) : bool :=
  let response := Strings.ToLower (Strings.TrimSpace token) in
  String.eqb response "y" || String.eqb response "yes".

(** The two refusals of [runExec]. *)
Definition denied : GoError := ExitError "execution denied" 3.

Definition blocked : GoError :=
  ExitError "critical command blocked (use --interactive to approve)" 3.

Section WithCollaborators.

(** [analyzer.AnalyzeScript(name, content, policies)]: package
    [analyzer] is not among the sources, the pipeline is stated for
    every analyzer. *)
Variable AnalyzeScript :
  string -> string -> Config.PolicyConfig -> list Finding.

(** [config.FromContext(ctx)]. *)
Variable cfg : Config.Config.

Variable marshal : Session.Session -> string + string.
Variable unmarshal : string -> Session.Session + string.

Definition riskLog (cmdString : string) (f : Finding) : Event :=
  EvLog (mkEntry Warn "command risk detected"
           [("command", VString cmdString);
            ("code", VString (Code f));
            ("severity", VString (Severity f));
            ("description", VString (Description f));
            ("recommendation", VString (Recommendation f))]).

(** The block of [runExec] guarded by [len(findings) > 0]: the
    warnings, then the approval prompt or the non-interactive block.
    The second component is the error it returns with, if it does. *)
Definition assess (interactive : bool) (riskLevel cmdString : string)
    (findings : list Finding) (w : World) : list Event * option GoError :=
  if 0 <? Z.of_nat (length findings) then
    let warned := map (riskLog cmdString) findings in
    if interactive then
      let '(shown, approved) :=
        promptForApproval riskLevel cmdString findings (w_stdin w) in
      if negb approved then
        ((warned ++ shown
           ++ [EvLog (mkEntry Info "command execution denied by user"
                        [("command", VString cmdString)])])%list,
         Some (ExitError "execution denied" 3))
      else ((warned ++ shown)%list, None)
    else if String.eqb riskLevel "critical" then
      ((warned
         ++ [EvLog (mkEntry Error "critical command blocked"
                      [("command", VString cmdString)])])%list,
       Some (ExitError
               "critical command blocked (use --interactive to approve)"
               3))
    else (warned, None)
  else ([], None).

(** The block "track in session if available".  The error of
    [mgr.AddCommand] is assigned to [_]; it is returned here so that it
    can be observed, [runExec] drops it. *)
Definition trackInSession (cmdName : string) (args : list string)
    (interactive : bool) (sessionID riskLevel : string)
    (findingCodes : list string) (exitCode : Z) (w : World)
    : OS.Disk * option string :=
  if negb (String.eqb sessionID "")
     || negb (String.eqb (w_env_session w) "") then
    let sessionID :=
      if String.eqb sessionID "" then w_env_session w else sessionID in
    match Session.NewManager (w_cwd w) (w_disk w) (w_mkdir_ok w) with
    | (d1, inr _) => (d1, None)
    | (d1, inl mgr) =>
        match Session.Load unmarshal mgr sessionID d1 with
        | (d2, inr _) => (d2, None)
        | (d2, inl sess) =>
            let cmdRecord :=
              Session.mkCommand (w_start w) cmdName args exitCode "" ""
                (w_duration w) riskLevel
                (interactive || String.eqb riskLevel "low") ""
                findingCodes ∅ in
            let '(_, d3, err) :=
              Session.AddCommand marshal mgr sess cmdRecord d2
                (w_write w) in
            (d3, err)
        end
    end
  else (w_disk w, None).

(** [runExec]: the error it returns ([None] for [nil]), what it did,
    and the disk it leaves. *)
Definition runExec (cmdArgs : list string) (interactive : bool)
    (sessionID : string) (w : World)
    : option GoError * list Event * OS.Disk :=
  match cmdArgs with
  | [] => (Some (OtherError "no command specified"), [], w_disk w)
  | cmdName :: args =>
      let cmdString := Strings.Join cmdArgs " " in
      let findings :=
        AnalyzeScript "inline-command" cmdString (Config.Policies cfg) in
      let riskLevel := riskLevelOf findings in
      let findingCodes := findingCodesOf findings in
      match assess interactive riskLevel cmdString findings w with
      | (before, Some err) => (Some err, before, w_disk w)
      | (before, None) =>
          let spawned := (before ++ [EvExecCommand cmdName args])%list in
          match w_run w with
          | RunOtherError err =>
              (Some (OtherError ("execute command: " ++ err)),
               (spawned
                 ++ [EvLog (mkEntry Error "command execution failed"
                              [("command", VString cmdString);
                               ("error", VString err)])])%list,
               w_disk w)
          | run =>
              let exitCode :=
                match run with RunExitError c => c | _ => 0 end in
              let '(d, _) :=
                trackInSession cmdName args interactive sessionID
                  riskLevel findingCodes exitCode w in
              let done :=
                (spawned
                  ++ [EvLog (mkEntry Info "command executed"
                               [("command", VString cmdString);
                                ("exit_code", VInt exitCode);
                                ("duration", VDuration (w_duration w));
                                ("risk", VString riskLevel)])])%list in
              if negb (exitCode =? 0) then
                (Some (ExitError
                         ("command exited with code "
                          ++ Strconv.FormatInt exitCode) exitCode),
                 done, d)
              else (None, done, d)
          end
      end
  end.

(** The findings [runExec] works with. *)
Definition findingsOf (cmdArgs : list string) : list Finding :=
  AnalyzeScript "inline-command" (Strings.Join cmdArgs " ")
    (Config.Policies cfg).

(** The assessment [runExec] makes of a command. *)
Definition assessed (cmdArgs : list string) (interactive : bool)
    (w : World) : list Event * option GoError :=
  assess interactive (riskLevelOf (findingsOf cmdArgs))
    (Strings.Join cmdArgs " ") (findingsOf cmdArgs) w.

End WithCollaborators.

(** [Execute] of [root.go]: the exit code of the supervisor for what
    [runExec] returned.  A [nil] error lets [main] return, which is
    code 0; an [*exitError] is answered by [os.Exit(exitErr.code)];
    every other error by [os.Exit(1)]. *)
Definition Execute (err : option GoError) : Z :=
  match err with
  | None => 0
  | Some (ExitError _ code) => code
  | Some (OtherError _) => 1
  end.
(** What [os.Exit(code)] leaves for the parent of the supervisor to read
    on Unix: the low eight bits of [code]. *)
Definition exitStatus (code : Z) : Z := code mod 256.

(** The same world with another fate for the ledger's write. *)
Definition with_write (w : World) (fault : OS.WriteFault) : World :=
  mkWorld (w_stdin w) (w_run w) (w_start w) (w_duration w)
          (w_env_session w) (w_cwd w) (w_mkdir_ok w) (w_disk w) fault.

(** The child's exit code as [runExec] reads it off [cmd.Run()]. *)
Definition childExitCode (r : RunResult) : option Z :=
  match r with
  | RunSuccess => Some 0
  | RunExitError c => Some c
  | RunOtherError _ => None
  end.

Definition isErrorLog (e : Event) : bool :=
  match e with
  | EvLog (mkEntry Error _ _) => true
  | _ => false
  end.

Definition isExec (e : Event) : bool :=
  match e with
  | EvExecCommand _ _ => true
  | _ => false
  end.

Definition isScanln (e : Event) : bool :=
  match e with
  | EvScanln => true
  | _ => false
  end.

(** An error-level line was logged. *)
Definition loggedError (trace : list Event) : bool :=
  existsb isErrorLog trace.

(** [runExec] went on to [exec.Command(...).Run()].  The call is in the
    trace before its outcome is known: whether a child then ran is
    [childRan]. *)
Definition spawned (trace : list Event) : bool := existsb isExec trace.

(** A child of the supervisor ran: [cmd.Run()] was called and ended with
    [nil] or an [*exec.ExitError]. *)
Definition childRan (w : World) (trace : list Event) : bool :=
  spawned trace
  && match w_run w with
     | RunOtherError _ => false
     | _ => true
     end.

(** The approval prompt was shown and an answer read. *)
Definition prompted (trace : list Event) : bool := existsb isScanln trace.

(** The child runs directly on the host when the process started is the
    user's command itself, with the user's arguments (and not a
    container runtime that is handed the command). *)
Definition spawnedOnHost (cmdArgs : list string) (trace : list Event)
    : Prop :=
  match cmdArgs with
  | [] => False
  | cmdName :: args => In (EvExecCommand cmdName args) trace
  end.

End Cmd.

(* ===================================================================== *)
(** ** Package [daemon]: the approval queue *)
(* ===================================================================== *)

Module Daemon.

Import Logging.

(** An intercepted command.  [Approved] is the reply channel made by the
    call of [InterceptCommand] that submitted the command; every call
    makes its own, so the channel is named by the call. *)
Record Command : Type := mkCommand {
  Cmd : string;
  Args : list string;
  Timestamp : Z;
  PID : Z;
  PPID : Z;
  UID : Z;
  Approved : nat
}.

(** Where a call of [InterceptCommand] stands. *)
Inductive Call : Type :=
| Called (cmd : string) (args : list string)
| Sending (c : Command)
| Waiting (c : Command)
| Returned (result : bool).

Record Daemon : Type := mkDaemon {
  session : option Session.Session;
  interceptCh : list Command;     (* [make(chan Command, 100)], in order *)
  replies : gmap nat (list bool); (* the [make(chan bool, 1)] channels *)
  processing : bool;              (* [processCommands] has not returned *)
  cancelled : bool;               (* [ctx.Done()] is closed *)
  stopped : bool;                 (* [stopCh] is closed *)
  calls : gmap nat Call;
  logs : list Entry
}.

Definition interceptCap : nat := 100.
Definition replyCap : nat := 1.

(** [select { case ch <- v: default: }] on a buffered channel. *)
Definition trySend (buf : list bool) (v : bool) : list bool :=
  if Nat.ltb (length buf) replyCap then (buf ++ [v])%list else buf.

(** The body of [case cmd := <-d.interceptCh] in [processCommands]. *)
Definition processCommand (c : Command) (d : Daemon) : Daemon :=
  let entry :=
    mkEntry Debug "command intercepted"
      [("command", VString (Cmd c)); ("args", VStrings (Args c));
       ("pid", VInt (PID c))] in
  let replies' :=
    match replies d !! Approved c with
    | Some buf => <[Approved c := trySend buf true]> (replies d)
    | None => replies d
    end in
  mkDaemon (session d) (interceptCh d) replies' (processing d)
           (cancelled d) (stopped d) (calls d) (logs d ++ [entry])%list.

(** The moves of the goroutines.  A [select] with several ready cases
    takes any of them, and the five-second timer of a waiting call may
    fire at any moment: both are choices of the schedule. *)
Inductive Label : Type :=
| LStart (s : Session.Session)           (* [Start] sets [d.session] *)
| LCancel                                (* the context is cancelled *)
| LStop                                  (* [Stop()] closes [stopCh] *)
| LProcReturn                            (* [processCommands] returns *)
| LProcReceive                           (* it dequeues a command *)
| LCall (i : nat) (now pid ppid uid : Z) (* a call up to its send *)
| LSend (i : nat)                        (* [d.interceptCh <- Command] *)
| LReply (i : nat)                       (* [case result := <-approved] *)
| LTimeout (i : nat).                    (* [case <-time.After(5s)] *)

Definition set_call (d : Daemon) (i : nat) (c : Call) : Daemon :=
  mkDaemon (session d) (interceptCh d) (replies d) (processing d)
           (cancelled d) (stopped d) (<[i := c]> (calls d)) (logs d).

Definition step (d : Daemon) (l : Label) : option Daemon :=
  match l with
  | LStart s =>
      Some (mkDaemon (Some s) (interceptCh d) (replies d) (processing d)
                     (cancelled d) (stopped d) (calls d) (logs d))
  | LCancel =>
      Some (mkDaemon (session d) (interceptCh d) (replies d) (processing d)
                     true (stopped d) (calls d) (logs d))
  | LStop =>
      Some (mkDaemon (session d) (interceptCh d) (replies d) (processing d)
                     (cancelled d) true (calls d) (logs d))
  | LProcReturn =>
      if processing d && (cancelled d || stopped d) then
        Some (mkDaemon (session d) (interceptCh d) (replies d) false
                       (cancelled d) (stopped d) (calls d) (logs d))
      else None
  | LProcReceive =>
      if processing d then
        match interceptCh d with
        | [] => None
        | c :: rest =>
            Some (processCommand c
                    (mkDaemon (session d) rest (replies d) (processing d)
                              (cancelled d) (stopped d) (calls d) (logs d)))
        end
      else None
  | LCall i now pid ppid uid =>
      match calls d !! i with
      | Some (Called cmd args) =>
          match session d with
          | None => Some (set_call d i (Returned true))
          | Some _ =>
              let c := mkCommand cmd args now pid ppid uid i in
              Some (mkDaemon (session d) (interceptCh d)
                             (<[i := []]> (replies d)) (processing d)
                             (cancelled d) (stopped d)
                             (<[i := Sending c]> (calls d)) (logs d))
          end
      | _ => None
      end
  | LSend i =>
      match calls d !! i with
      | Some (Sending c) =>
          if Nat.ltb (length (interceptCh d)) interceptCap then
            Some (mkDaemon (session d) (interceptCh d ++ [c])%list
                           (replies d) (processing d) (cancelled d)
                           (stopped d) (<[i := Waiting c]> (calls d))
                           (logs d))
          else None
      | _ => None
      end
  | LReply i =>
      match calls d !! i with
      | Some (Waiting c) =>
          match replies d !! Approved c with
          | Some (result :: rest) =>
              Some (mkDaemon (session d) (interceptCh d)
                             (<[Approved c := rest]> (replies d))
                             (processing d) (cancelled d) (stopped d)
                             (<[i := Returned result]> (calls d)) (logs d))
          | _ => None
          end
      | _ => None
      end
  | LTimeout i =>
      match calls d !! i with
      | Some (Waiting c) =>
          Some (mkDaemon (session d) (interceptCh d) (replies d)
                         (processing d) (cancelled d) (stopped d)
                         (<[i := Returned false]> (calls d))
                         (logs d
                           ++ [mkEntry Warn "command approval timeout"
                                 [("command", VString (Cmd c))]])%list)
      | _ => None
      end
  end.

(** The daemon after [New], with the calls of [InterceptCommand] that
    are going to be made; [Start] may have set the session already. *)
Definition initial (d : Daemon) : Prop :=
  interceptCh d = [] /\ replies d = ∅ /\ logs d = [] /\
  forall i c, calls d !! i = Some c -> exists cmd args, c = Called cmd args.

(** A schedule: the moves one after the other. *)
Fixpoint steps (d : Daemon) (ls : list Label) : option Daemon :=
  match ls with
  | [] => Some d
  | l :: rest =>
      match step d l with
      | Some d' => steps d' rest
      | None => None
      end
  end.

(** The reply channels of the commands that wait in the queue. *)
Definition queued (d : Daemon) : list nat := map Approved (interceptCh d).

Inductive reachable : Daemon -> Prop :=
| reachable_initial d : initial d -> reachable d
| reachable_step d l d' : reachable d -> step d l = Some d' -> reachable d'.

(** What holds of the queue and the reply channels in every state the
    daemon can reach. *)
Record Inv (d : Daemon) : Prop := mkInv {
  inv_replies_true :
    forall i buf, replies d !! i = Some buf -> Forall (eq true) buf;
  inv_queue_nodup : NoDup (queued d);
  inv_queue_empty :
    forall c, In c (interceptCh d) -> replies d !! Approved c = Some [];
  inv_sending :
    forall i c, calls d !! i = Some (Sending c) ->
      Approved c = i /\ replies d !! i = Some [] /\ ~ In i (queued d);
  inv_called :
    forall i cmd args, calls d !! i = Some (Called cmd args) ->
      ~ In i (queued d);
  inv_waiting :
    forall i c, calls d !! i = Some (Waiting c) -> Approved c = i
}.

(** Case analysis on a lookup [<[i := _]> m !! j] in hypothesis [H]. *)
Ltac lookup_cases i j H :=
  destruct (decide (i = j)) as [?|?];
    [subst; rewrite lookup_insert_eq in H
    |rewrite lookup_insert_ne in H by congruence].

End Daemon.

(* ===================================================================== *)
(** ** Package [session], continued: sequences of updates and [List] *)
(* ===================================================================== *)

Module Ledger.

Import OS Session.

(** What the [switch] of [AddCommand] adds to [RiskScore] and to
    [Violations] for a risk level. *)
Definition scoreOf (riskLevel : string) : Z :=
  if String.eqb riskLevel "critical" then 100
  else if String.eqb riskLevel "high" then 50
  else if String.eqb riskLevel "medium" then 10
  else 0.

Definition violationOf (riskLevel : string) : Z :=
  if String.eqb riskLevel "critical" then 1
  else if String.eqb riskLevel "high" then 1
  else 0.

Definition sumZ (l : list Z) : Z := fold_right Z.add 0 l.

(** [filepath.Ext]: the loop runs from the end of the path towards its
    start, stops at a path separator, and returns the rest of the path
    from the first dot it meets. *)
Fixpoint extLoop (before : list ascii) (after : list ascii) : string :=
  match before with
  | [] => ""
  | c :: before' =>
      if Ascii.eqb c "/" then ""
      else if Ascii.eqb c "." then string_of_list_ascii (c :: after)
      else extLoop before' (c :: after)
  end.

Definition Ext (path : string) : string :=
  extLoop (rev (list_ascii_of_string path)) [].

(** An entry of [os.ReadDir]. *)
Record DirEntry : Type := mkDirEntry {
  Name : string;
  IsDir : bool
}.

(** The entries [List] goes on to load. *)
Definition isSessionFile (e : DirEntry) : bool :=
  negb (IsDir e || negb (String.eqb (Ext (Name e)) ".json")).

(** [entry.Name()[:len(entry.Name())-5]]; where [List] computes it the
    name has the extension [.json], so that its length is at least 5. *)
Definition sessionIDOf (e : DirEntry) : string :=
  String.substring 0 (String.length (Name e) - 5) (Name e).

Section WithJSON.

Variable marshal : Session -> string + string.
Variable unmarshal : string -> Session + string.

(** [AddCommand] called for one command after the other on the same
    session, each call with its own fate of the write. *)
Fixpoint AddCommands (m : Manager) (s : Session)
    (cmds : list (Command * WriteFault)) (d : Disk) : Session * Disk :=
  match cmds with
  | [] => (s, d)
  | (cmd, fault) :: rest =>
      let '(s', d', _) := AddCommand marshal m s cmd d fault in
      AddCommands m s' rest d'
  end.

(** The loop of [Manager.List] over the entries: the sessions loaded so
    far, the warnings logged, the disk. *)
Fixpoint listLoop (m : Manager) (entries : list DirEntry) (d : Disk)
    : Disk * list Logging.Entry * list Session :=
  match entries with
  | [] => (d, [], [])
  | entry :: rest =>
      if IsDir entry || negb (String.eqb (Ext (Name entry)) ".json") then
        listLoop m rest d
      else
        let sessionID := sessionIDOf entry in
        match Load unmarshal m sessionID d with
        | (d', inr err) =>
            let '(d'', warns, sessions) := listLoop m rest d' in
            (d'',
             Logging.mkEntry Logging.Warn "failed to load session"
               [("session_id", Logging.VString sessionID);
                ("error", Logging.VString err)] :: warns,
             sessions)
        | (d', inl session) =>
            let '(d'', warns, sessions) := listLoop m rest d' in
            (d'', warns, session :: sessions)
        end
  end.

(** [Manager.List]; [readDir] is what [os.ReadDir(m.sessionDir)]
    returns. *)
Definition List (m : Manager) (readDir : list DirEntry + string) (d : Disk)
    : Disk * list Logging.Entry * (list Session + string) :=
  match readDir with
  | inr err => (d, [], inr ("read session directory: " ++ err))
  | inl entries =>
      let '(d', warns, sessions) := listLoop m entries d in
      (d', warns, inl sessions)
  end.

End WithJSON.

End Ledger.

(* ===================================================================== *)
(** ** Package [cmd], continued *)
(* ===================================================================== *)

Module Pipeline.

Import Analyzer Cmd.

(** The severity [runExec]'s loop can end with, by rank. *)
Definition levelOfRank (r : Z) : string :=
  if r =? 3 then "critical"
  else if r =? 2 then "high"
  else if r =? 1 then "medium"
  else "low".

(** The largest rank among the severities of the findings; a severity
    the loop's [switch] has no case for ranks as [low]. *)
Definition maxRank (findings : list Finding) : Z :=
  fold_right (fun f m => Z.max (severityRank (Severity f)) m) 0 findings.

(** The same world with another value of [VECTRAGUARD_SESSION_ID]. *)
Definition with_env (w : World) (env : string) : World :=
  mkWorld (w_stdin w) (w_run w) (w_start w) (w_duration w) env (w_cwd w)
          (w_mkdir_ok w) (w_disk w) (w_write w).

(** The session identifier [runExec] tracks the run in: the flag if it is
    given, else the environment ([None] when neither is). *)
Definition boundSession (sessionID : string) (w : World) : option string :=
  if negb (String.eqb sessionID "") then Some sessionID
  else if negb (String.eqb (w_env_session w) "") then Some (w_env_session w)
  else None.

(** The record [runExec] hands to [AddCommand]. *)
Definition recordOf (cmdName : string) (args : list string)
    (interactive : bool) (findings : list Finding) (exitCode : Z)
    (w : World) : Session.Command :=
  Session.mkCommand (w_start w) cmdName args exitCode "" "" (w_duration w)
    (riskLevelOf findings)
    (interactive || String.eqb (riskLevelOf findings) "low") ""
    (findingCodesOf findings) ∅.

(** The session manager [runExec] makes for the working directory. *)
Definition managerOf (w : World) : Session.Manager :=
  Session.mkManager
    (OS.Join (OS.Join (w_cwd w) ".vectra-guard") "sessions").

End Pipeline.


(* ===================================================================== *)
(** ** Package [daemon]: states of the queue *)
(* ===================================================================== *)

Module Queue.

Import Daemon.


(** What holds as long as [Start] has not set the session. *)
Definition idle (d : Daemon) : Prop :=
  session d = None /\ interceptCh d = [] /\ logs d = []
  /\ forall i c, calls d !! i = Some c ->
       (exists cmd args, c = Called cmd args) \/ c = Returned true.

End Queue.

(* ===================================================================== *)
(** ** Package [daemon]: the life of the daemon on disk *)
(* ===================================================================== *)

Module Lifecycle.

Import OS Logging.

(** [os.Remove], whose error both callers drop: the file is gone when the
    call succeeds and stays when it fails.  These three operations act on
    [files] alone; [oplog] keeps listing the reads, writes, renames and
    mkdirs. *)
Definition Remove (d : Disk) (path : string) (ok : bool) : Disk :=
  if ok then mkDisk (delete path (files d)) (oplog d) else d.

(** [os.OpenFile(path, O_CREATE|O_EXCL|O_WRONLY, 0o600)] followed by
    [Close]: an existing file is an error, else an empty file is made,
    unless the open fails for another reason. *)
Definition OpenExcl (d : Disk) (path : string) (ok : bool)
    : Disk * option string :=
  match files d !! path with
  | Some _ => (d, Some "file exists")
  | None =>
      if ok then (mkDisk (<[path := ""]> (files d)) (oplog d), None)
      else (d, Some "open failed")
  end.

(** [os.Stat] followed by [os.IsNotExist] on its error. *)
Definition notExist (d : Disk) (path : string) : bool :=
  match files d !! path with
  | None => true
  | Some _ => false
  end.

(** What the daemon's process finds around it. *)
Record Host : Type := mkHost {
  h_pid : Z;                       (* [os.Getpid()] *)
  h_signal_ok : Z -> bool;         (* [FindProcess] and [Signal(0)] succeed *)
  h_id_clock : Z;                  (* the clock in [generateSessionID()] *)
  h_start : Z;                     (* the clock read for [StartTime] *)
  h_end : Z;                       (* the clock when the session ends *)
  h_elapsed : Z;                   (* [now.Sub(session.StartTime)]: the
                                      time between the two readings on
                                      the monotonic clock *)
  h_mkdir_sessions : bool;
  h_mkdir_daemon : bool;
  h_lock_ok : bool;
  h_pid_write : WriteFault;
  h_start_write : WriteFault;
  h_end_write : WriteFault;
  h_remove_ok : string -> bool
}.

(** The fields of [Daemon] that [New] sets and nothing changes; the
    channels and [session] are the state of the transition system
    above. *)
Record Daemon : Type := mkDaemon {
  workspace : string;
  agentName : string;
  sessionMgr : Session.Manager;
  pidFile : string;
  lockFile : string
}.

(** How the [select] at the end of [Start] is left. *)
Inductive StopReason : Type :=
| ContextCancelled
| SignalReceived (sig : string)
| StopRequested.

Definition stoppingLog (reason : StopReason) : Entry :=
  match reason with
  | ContextCancelled =>
      mkEntry Info "daemon stopping (context cancelled)" []
  | SignalReceived sig =>
      mkEntry Info "daemon stopping (signal received)"
        [("signal", VString sig)]
  | StopRequested => mkEntry Info "daemon stopping (stop requested)" []
  end.

(** What [Start] leaves: the disk, the lines logged by [Start] and the
    session manager it calls, [d.session], the value given to
    [VECTRAGUARD_SESSION_ID] if [SetCurrentSession] was called, and the
    error returned. *)
Record Run : Type := mkRun {
  r_disk : Disk;
  r_logs : list Entry;
  r_session : option Session.Session;
  r_env : option string;
  r_err : option string
}.

(** [New]. *)
Definition New (workspace agentName : string) (h : Host) (d : Disk)
    : Disk * (Daemon + string) :=
  match Session.NewManager workspace d (h_mkdir_sessions h) with
  | (d1, inr err) => (d1, inr ("create session manager: " ++ err))
  | (d1, inl mgr) =>
      let daemonDir := Join (Join workspace ".vectra-guard") "daemon" in
      match MkdirAll d1 daemonDir 493 (h_mkdir_daemon h) with
      | (d2, Some err) => (d2, inr ("create daemon directory: " ++ err))
      | (d2, None) =>
          (d2, inl (mkDaemon workspace agentName mgr
                      (Join daemonDir "daemon.pid")
                      (Join daemonDir "daemon.lock")))
      end
  end.

(** [acquireLock], [releaseLock], [writePIDFile] and [removePIDFile]. *)
Definition acquireLock (dm : Daemon) (h : Host) (d : Disk)
    : Disk * option string :=
  match OpenExcl d (lockFile dm) (h_lock_ok h) with
  | (d', Some err) => (d', Some ("failed to acquire lock: " ++ err))
  | (d', None) => (d', None)
  end.

Definition releaseLock (dm : Daemon) (h : Host) (d : Disk) : Disk :=
  Remove d (lockFile dm) (h_remove_ok h (lockFile dm)).

Definition writePIDFile (dm : Daemon) (h : Host) (d : Disk)
    : Disk * option string :=
  WriteFile d (pidFile dm) (Strconv.FormatInt (h_pid h)) 420
    (h_pid_write h).

Definition removePIDFile (dm : Daemon) (h : Host) (d : Disk) : Disk :=
  Remove d (pidFile dm) (h_remove_ok h (pidFile dm)).

Section WithCodecs.

(** [json.MarshalIndent], and [fmt.Sscanf] of one integer in decimal
    ([None] when it returns an error). *)
Variable marshal : Session.Session -> string + string.
Variable Sscanf : string -> option Z.

(** [isRunning]. *)
Definition isRunning (dm : Daemon) (h : Host) (d : Disk) : Disk * bool :=
  match ReadFile d (pidFile dm) with
  | (d', inr _) => (d', false)
  | (d', inl data) =>
      match Sscanf data with
      | None => (d', false)
      | Some pid => (d', h_signal_ok h pid)
      end
  end.

(** [GetRunningDaemon]. *)
Definition GetRunningDaemon (workspace : string) (h : Host) (d : Disk)
    : Disk * Z :=
  let pidFile :=
    Join (Join (Join workspace ".vectra-guard") "daemon") "daemon.pid" in
  match ReadFile d pidFile with
  | (d', inr _) => (d', 0)
  | (d', inl data) =>
      match Sscanf data with
      | None => (d', 0)
      | Some pid => (d', if h_signal_ok h pid then pid else 0)
      end
  end.

(** [checkIntegrity], with [d.session] as [sess]. *)
Definition checkIntegrity (dm : Daemon) (h : Host) (sess : Session.Session)
    (d : Disk) : Disk * option string :=
  let sessionPath :=
    Join (Join (Join (workspace dm) ".vectra-guard") "sessions")
         (Session.ID sess ++ ".json") in
  if notExist d sessionPath then
    (d, Some "session file deleted: possible tampering")
  else
    match ReadFile d (pidFile dm) with
    | (d', inr err) => (d', Some ("pid file read failed: " ++ err))
    | (d', inl pidData) =>
        let expectedPID := Strconv.FormatInt (h_pid h) in
        if negb (String.eqb pidData expectedPID) then
          (d', Some ("pid file tampered: expected " ++ expectedPID))
        else (d', None)
    end.

(** One tick of [monitorFileSystem]. *)
Definition tick (dm : Daemon) (h : Host) (sess : Session.Session)
    (d : Disk) : Disk * list Entry :=
  match checkIntegrity dm h sess d with
  | (d', Some err) =>
      (d', [mkEntry Warn "integrity check failed" [("error", VString err)]])
  | (d', None) => (d', [])
  end.

(** [Start] up to the launch of the goroutines.  When it fails, the
    deferred calls registered so far have run, the last one first. *)
Definition startup (dm : Daemon) (h : Host) (d : Disk)
    : Disk * list Entry * (Session.Session + string) :=
  match isRunning dm h d with
  | (d0, true) =>
      (d0, [],
       inr ("daemon already running (pid file: " ++ pidFile dm ++ ")"))
  | (d0, false) =>
      match acquireLock dm h d0 with
      | (d1, Some err) => (d1, [], inr ("acquire lock: " ++ err))
      | (d1, None) =>
          match writePIDFile dm h d1 with
          | (d2, Some err) =>
              (releaseLock dm h d2, [], inr ("write pid file: " ++ err))
          | (d2, None) =>
              match Session.Start marshal (sessionMgr dm) (agentName dm)
                      (workspace dm) (h_id_clock h) (h_start h) d2
                      (h_start_write h) with
              | (d3, inr err) =>
                  (releaseLock dm h (removePIDFile dm h d3), [],
                   inr ("start session: " ++ err))
              | (d3, inl sess) =>
                  (d3,
                   [mkEntry Info "session started"
                      [("session_id", VString (Session.ID sess));
                       ("agent", VString (agentName dm));
                       ("workspace", VString (workspace dm))];
                    mkEntry Info "daemon started"
                      [("session_id", VString (Session.ID sess));
                       ("agent", VString (agentName dm));
                       ("workspace", VString (workspace dm));
                       ("pid", VInt (h_pid h))]],
                   inl sess)
              end
          end
      end
  end.

(** [Start] from the moment its [select] is left: the session is ended,
    and the two deferred calls run as [Start] returns. *)
Definition shutdown (dm : Daemon) (h : Host) (sess : Session.Session)
    (reason : StopReason) (d : Disk)
    : Disk * list Entry * Session.Session :=
  let '(sess', d1, err) :=
    Session.End marshal (sessionMgr dm) sess (h_end h) d (h_end_write h) in
  let ended :=
    match err with
    | Some e =>
        mkEntry Error "failed to end session" [("error", VString e)]
    | None =>
        mkEntry Info "session ended"
          [("session_id", VString (Session.ID sess'));
           ("duration", VDuration (h_elapsed h));
           ("commands",
            VInt (Z.of_nat (length (Session.Commands sess'))));
           ("violations", VInt (Session.Violations sess'));
           ("risk_score", VInt (Session.RiskScore sess'))]
    end in
  (releaseLock dm h (removePIDFile dm h d1),
   [stoppingLog reason; ended;
    mkEntry Info "daemon stopped"
      [("session_id", VString (Session.ID sess'));
       ("commands", VInt (Z.of_nat (length (Session.Commands sess'))));
       ("violations", VInt (Session.Violations sess'))]],
   sess').

(** [Start].  While it waits in its [select], the other processes of the
    machine change the disk by [during]. *)
Definition Start (dm : Daemon) (h : Host) (reason : StopReason)
    (during : Disk -> Disk) (d : Disk) : Run :=
  match startup dm h d with
  | (d1, logs, inr err) => mkRun d1 logs None None (Some err)
  | (d1, logs, inl sess) =>
      let '(d2, logs', sess') := shutdown dm h sess reason (during d1) in
      mkRun d2 (logs ++ logs')%list (Some sess')
            (Some (Session.ID sess)) None
  end.

End WithCodecs.

End Lifecycle.
(* ===================================================================== *)
(** ** Concrete inputs used in the examples below *)
(* ===================================================================== *)

Module Samples.

Import OS.

Definition manager : Session.Manager :=
Session.mkManager "/w/.vectra-guard/sessions".

Definition emptyDisk : Disk := mkDisk ∅ [].

(** A stand-in for [json.MarshalIndent] where a concrete encoder is
    needed: the identifier, the agent, the number of commands and the two
    counters. *)
Definition sampleMarshal (s : Session.Session) : string + string :=
inl ("{id: " ++ Session.ID s
     ++ ", agent: " ++ Session.AgentName s
     ++ ", commands: "
     ++ Strconv.FormatInt (Z.of_nat (length (Session.Commands s)))
     ++ ", risk_score: " ++ Strconv.FormatInt (Session.RiskScore s)
     ++ ", violations: " ++ Strconv.FormatInt (Session.Violations s)
     ++ "}").


Definition freshSession : Session.Session :=
Session.mkSession "session-1700000000000000000" "agent" "/w"
  1700000000000000000 None [] [] 0 0 ∅.

Definition commandOfRisk (risk : string) : Session.Command :=
Session.mkCommand 1700000000000000001 "rm" ["-r"; "/*"] 0 "" "" 5000000
  risk false "" ["DANGEROUS_DELETE_ROOT"] ∅.

Definition deniedWrite : Session.FileOperation :=
Session.mkFileOperation 1700000000000000002 "modify" "/etc/passwd" 0
  "high" false "protected path".

(** A disk on which [freshSession] has been persisted before. *)
Definition persistedDisk : Disk :=
mkDisk {[ Session.sessionPath manager (Session.ID freshSession)
          := "{previously persisted}" ]} [].

(** An analyzer that reports the given findings for the given command
    line and nothing for any other. *)
Definition analyzerReporting (cmdString : string)
    (findings : list Analyzer.Finding)
    : string -> string -> Config.PolicyConfig -> list Analyzer.Finding :=
fun _ content _ => if String.eqb content cmdString then findings else [].

Definition deleteRoot : Analyzer.Finding :=
Analyzer.mkFinding "DANGEROUS_DELETE_ROOT" "critical"
  "recursive delete of the root directory" "do not run this command".

Definition dotenvRead : Analyzer.Finding :=
Analyzer.mkFinding "DOTENV_FILE_READ" "high"
  "read of a .env file" "use a secrets manager".


Definition sudoUse : Analyzer.Finding :=
Analyzer.mkFinding "SUDO_UNRESTRICTED" "medium"
  "sudo without restriction" "restrict the command".

Definition sandboxOn : Config.Config :=
Config.mkConfig (Config.mkPolicyConfig [] [])
  (Config.mkSandboxConfig true Config.SandboxModeAuto).

Definition sandboxOff : Config.Config :=
Config.mkConfig (Config.mkPolicyConfig [] [])
  (Config.mkSandboxConfig false Config.SandboxModeAuto).


(** A stand-in for [json.Unmarshal]: every file reads as [freshSession]. *)
Definition sampleUnmarshal (data : string) : Session.Session + string :=
inl freshSession.

(** No session bound, the user answers [answer], the child ends as [run]. *)
Definition world (answer : string) (run : Cmd.RunResult) : Cmd.World :=
Cmd.mkWorld answer run 1700000000000000001 5000000 "" "/w" true emptyDisk
  WriteOK.

(** The session of [persistedDisk] is bound by the environment, the child
    ends as [run], and the ledger's write ends as [fault]. *)
Definition trackedWorld (run : Cmd.RunResult) (fault : WriteFault)
    : Cmd.World :=
Cmd.mkWorld "" run 1700000000000000001 5000000
  "session-1700000000000000000" "/w" true persistedDisk fault.

(** A daemon with an active session, right after [Start], and two calls
    of [InterceptCommand] about to be made. *)
Definition daemon0 : Daemon.Daemon :=
Daemon.mkDaemon (Some freshSession) [] ∅ true false false
  (<[0%nat := Daemon.Called "rm" ["-rf"; "/"]]>
     (<[1%nat := Daemon.Called "ls" []]> ∅)) [].

Definition interceptedCommand : Daemon.Command :=
Daemon.mkCommand "rm" ["-rf"; "/"] 1700000000000000005 4242 4241 1000 0.

(** [daemon0] after the first call has put its command into the queue and
    waits for the reply. *)
Definition daemonWaiting : Daemon.Daemon :=
Daemon.mkDaemon (Some freshSession) [interceptedCommand]
  (<[0%nat := []]> ∅) true false false
  (<[0%nat := Daemon.Waiting interceptedCommand]>
     (<[1%nat := Daemon.Called "ls" []]> ∅)) [].

(** [daemonWaiting] after [processCommands] has dequeued the command. *)
Definition daemonReplied : Daemon.Daemon :=
Daemon.mkDaemon (Some freshSession) []
  (<[0%nat := [true]]> ∅) true false false
  (<[0%nat := Daemon.Waiting interceptedCommand]>
     (<[1%nat := Daemon.Called "ls" []]> ∅))
  [Logging.mkEntry Logging.Debug "command intercepted"
     [("command", Logging.VString "rm");
      ("args", Logging.VStrings ["-rf"; "/"]);
      ("pid", Logging.VInt 4242)]].

End Samples.

(* ===================================================================== *)
(** ** More concrete inputs *)
(* ===================================================================== *)

Module MoreSamples.

Import OS.

(** A stand-in for [json.Unmarshal] that reads every file as [s]. *)
Definition unmarshalTo (s : Session.Session) (data : string)
    : Session.Session + string :=
inl s.

(** A stand-in for [json.Unmarshal] that reads the given text as [s] and
    rejects every other. *)
Definition unmarshalOnly (text : string) (s : Session.Session)
    (data : string) : Session.Session + string :=
if String.eqb data text then inl s else inr "invalid character".

(** [Samples.freshSession] after one run of [echo hi] that ended with
    exit code 7 was recorded in it. *)
Definition recordedSession : Session.Session :=
Session.mkSession "session-1700000000000000000" "agent" "/w"
  1700000000000000000 None
  [Session.mkCommand 1700000000000000001 "echo" ["hi"] 7 "" "" 5000000
     "low" true "" [] ∅]
  [] 0 0 ∅.

(** A stand-in for [json.Unmarshal] that reads the file of
    [Samples.persistedDisk] as [Samples.freshSession], the encoding of
    [recordedSession] as [recordedSession], and rejects every other
    text. *)
Definition unmarshalRecorded (data : string) : Session.Session + string :=
if String.eqb data "{previously persisted}" then inl Samples.freshSession
else if String.eqb data
          "{id: session-1700000000000000000, agent: agent, commands: 1, risk_score: 0, violations: 0}"
then inl recordedSession
else inr "invalid character".

Definition sessionDirEntries : list Ledger.DirEntry :=
[Ledger.mkDirEntry "archive" true;
 Ledger.mkDirEntry "notes.txt" false;
 Ledger.mkDirEntry "session-1700000000000000000.json" false;
 Ledger.mkDirEntry "session-1700000000000000009.json" false].



(** A daemon after [New], before [Start] has set the session. *)
Definition daemonNew : Daemon.Daemon :=
Daemon.mkDaemon None [] ∅ true false false
  (<[0%nat := Daemon.Called "rm" ["-rf"; "/"]]> ∅) [].



(** [daemonNew] after its call of [InterceptCommand]. *)
Definition daemonNewCalled : Daemon.Daemon :=
Daemon.mkDaemon None [] ∅ true false false
  (<[0%nat := Daemon.Returned true]> ∅) [].

(** The daemon [New] makes for the workspace [/w]. *)
Definition sampleDaemon : Lifecycle.Daemon :=
Lifecycle.mkDaemon "/w" "agent" Samples.manager
  "/w/.vectra-guard/daemon/daemon.pid"
  "/w/.vectra-guard/daemon/daemon.lock".

(** A process with pid 4242 that can signal itself and nobody else, and
    for which every file operation succeeds. *)
Definition host : Lifecycle.Host :=
Lifecycle.mkHost 4242 (fun pid => pid =? 4242) 1700000000000000000
  1700000000000002641 1700000000900000000 899997359 true true true
  WriteOK WriteOK WriteOK (fun _ => true).

(** The same process when the write of the pid file fails after two
    bytes. *)
Definition hostShortWrite : Lifecycle.Host :=
Lifecycle.mkHost 4242 (fun pid => pid =? 4242) 1700000000000000000
  1700000000000002641 1700000000900000000 899997359 true true true
  (WriteFailsAfter 2) WriteOK WriteOK (fun _ => true).

(** The same process when the session file cannot be opened at the
    end. *)
Definition hostEndFails : Lifecycle.Host :=
Lifecycle.mkHost 4242 (fun pid => pid =? 4242) 1700000000000000000
  1700000000000002641 1700000000900000000 899997359 true true true
  WriteOK WriteOK OpenFails (fun _ => true).

(** Another process, with pid 4343, that can signal both. *)
Definition otherHost : Lifecycle.Host :=
Lifecycle.mkHost 4343 (fun pid => (pid =? 4242) || (pid =? 4343))
  1700000000000000050 1700000000000000060 1700000000000000150 90 true true
  true WriteOK WriteOK WriteOK (fun _ => true).

(** A stand-in for [fmt.Sscanf] that reads the text [4242] and fails on
    every other. *)
Definition sampleSscanf (data : string) : option Z :=
if String.eqb data "4242" then Some 4242 else None.

(** A disk with a lock file left behind and no pid file. *)
Definition lockedDisk : Disk :=
mkDisk {[ "/w/.vectra-guard/daemon/daemon.lock" := "" ]} [].

(** The session such a daemon starts: the identifier is made from the
    first reading of the clock, the start time is the second. *)
Definition startedSession : Session.Session :=
Session.mkSession "session-1700000000000000000" "agent" "/w"
  1700000000000002641 None [] [] 0 0 ∅.

Definition endedSession : Session.Session :=
Session.set_EndTime startedSession (Some 1700000000900000000).

(** What another process does to the disk while the daemon runs: [exec]
    runs [echo hi] in the daemon's session and records it. *)
Definition execMeanwhile (d : Disk) : Disk :=
(Cmd.runExec (Samples.analyzerReporting "echo hi" []) Samples.sandboxOn
   Samples.sampleMarshal (unmarshalTo Samples.freshSession)
   ["echo"; "hi"] false ""
   (Cmd.mkWorld "" (Cmd.RunExitError 7) 1700000000000000001 5000000
      "session-1700000000000000000" "/w" true d WriteOK)).2.

End MoreSamples.

(* ===================================================================== *)
(** * Properties *)
(* ===================================================================== *)

(** ** Arithmetic of [int] *)

Module GoIntFacts.

Import GoInt.

Lemma wrap_in_range z : in_range z -> wrap z = z.
Proof.
  unfold in_range, wrap, min_int, max_int, bits. intros H.
  rewrite Z.mod_small; lia.
Qed.


Lemma wrap_range z : in_range (wrap z).
Proof.
  unfold in_range, wrap, min_int, max_int, bits.
  pose proof (Z.mod_pos_bound (z - - 2 ^ (64 - 1)) (2 ^ 64)). lia.
Qed.


End GoIntFacts.

(** ** Decimal formatting *)

Module StrconvFacts.

Import Strconv.

Lemma digitsFrom_app fuel : forall n acc,
  digitsFrom fuel n acc = (digitsFrom fuel n [] ++ acc)%list.
Proof.
  induction fuel as [|fuel IH]; intros n acc; simpl; [reflexivity|].
  destruct (n / 10 =? 0); [reflexivity|].
  rewrite (IH (n / 10) (n mod 10 :: acc)), (IH (n / 10) [n mod 10]).
  rewrite <- app_assoc. reflexivity.
Qed.

Lemma valueOf_snoc l d : valueOf (l ++ [d]) = 10 * valueOf l + d.
Proof.
  induction l as [|x l IH]; simpl; [lia|].
  rewrite IH, length_app. simpl length.
  replace (Z.of_nat (length l + 1)) with (Z.succ (Z.of_nat (length l))) by lia.
  rewrite Z.pow_succ_r by lia. lia.
Qed.

Lemma validDigits_digitsFrom fuel : forall n acc,
  validDigits acc -> validDigits (digitsFrom fuel n acc).
Proof.
  induction fuel as [|fuel IH]; intros n acc Hacc; simpl; [exact Hacc|].
  assert (Hd : validDigits (n mod 10 :: acc)).
  { constructor; [apply Z.mod_pos_bound; lia | exact Hacc]. }
  destruct (n / 10 =? 0); [exact Hd | apply IH; exact Hd].
Qed.

Lemma digitsFrom_value fuel : forall n,
  0 <= n < 2 ^ Z.of_nat fuel -> valueOf (digitsFrom fuel n []) = n.
Proof.
  induction fuel as [|fuel IH]; intros n Hn.
  - simpl in *. lia.
  - simpl digitsFrom.
    pose proof (Z_div_mod_eq_full n 10) as Hdm.
    pose proof (Z.mod_pos_bound n 10 ltac:(lia)) as Hmod.
    destruct (n / 10 =? 0) eqn:E.
    + apply Z.eqb_eq in E. simpl. lia.
    + apply Z.eqb_neq in E.
      rewrite digitsFrom_app, valueOf_snoc, IH; [lia|].
      rewrite Nat2Z.inj_succ, Z.pow_succ_r in Hn by lia. lia.
Qed.

Lemma digitsFrom_leading fuel : forall n,
  0 < n < 2 ^ Z.of_nat fuel ->
  exists d l, digitsFrom fuel n [] = d :: l /\ 0 < d.
Proof.
  induction fuel as [|fuel IH]; intros n Hn.
  - simpl in *. lia.
  - simpl digitsFrom.
    pose proof (Z_div_mod_eq_full n 10) as Hdm.
    pose proof (Z.mod_pos_bound n 10 ltac:(lia)) as Hmod.
    destruct (n / 10 =? 0) eqn:E.
    + apply Z.eqb_eq in E. exists (n mod 10), []. split; [reflexivity|lia].
    + apply Z.eqb_neq in E.
      rewrite Nat2Z.inj_succ, Z.pow_succ_r in Hn by lia.
      destruct (IH (n / 10)) as (d & l & Hl & Hd); [lia|].
      rewrite digitsFrom_app, Hl. exists d, (l ++ [n mod 10])%list.
      split; [reflexivity|exact Hd].
Qed.

Lemma fuel_enough n : 0 <= n -> n < 2 ^ Z.of_nat (S (Z.to_nat (Z.log2 n))).
Proof.
  intros Hn. rewrite Nat2Z.inj_succ, Z2Nat.id by apply Z.log2_nonneg.
  destruct (Z.eq_dec n 0) as [->|Hz]; [reflexivity|].
  apply Z.log2_spec. lia.
Qed.

Lemma digits_value n : 0 <= n -> valueOf (digits n) = n.
Proof.
  intros Hn. apply digitsFrom_value. split; [exact Hn|apply fuel_enough; exact Hn].
Qed.

Lemma digits_valid n : validDigits (digits n).
Proof. apply validDigits_digitsFrom. constructor. Qed.

Lemma digits_nonempty n : digits n <> [].
Proof.
  unfold digits. simpl digitsFrom.
  destruct (n / 10 =? 0); [discriminate|].
  rewrite digitsFrom_app. intros H. apply app_eq_nil in H as [_ H].
  discriminate.
Qed.

Lemma digits_leading n :
  0 < n -> exists d l, digits n = d :: l /\ 0 < d.
Proof.
  intros Hn. apply digitsFrom_leading.
  split; [exact Hn|apply fuel_enough; lia].
Qed.

Lemma valueOf_bound l :
  validDigits l -> 0 <= valueOf l < 10 ^ Z.of_nat (length l).
Proof.
  induction 1 as [|d l Hd Hl IH]; simpl valueOf; simpl length; [simpl; lia|].
  rewrite Nat2Z.inj_succ, Z.pow_succ_r by lia.
  nia.
Qed.

Lemma digitChar_code d :
  0 <= d < 10 -> nat_of_ascii (digitChar d) = (48 + Z.to_nat d)%nat.
Proof.
  intros Hd. unfold digitChar. apply nat_ascii_embedding. lia.
Qed.

Lemma digitChar_inj d1 d2 :
  0 <= d1 < 10 -> 0 <= d2 < 10 -> digitChar d1 = digitChar d2 -> d1 = d2.
Proof.
  intros H1 H2 H. apply (f_equal nat_of_ascii) in H.
  rewrite !digitChar_code in H by assumption. lia.
Qed.

Lemma digitChar_compare d1 d2 :
  0 <= d1 < 10 -> 0 <= d2 < 10 ->
  Ascii.compare (digitChar d1) (digitChar d2) = (d1 ?= d2).
Proof.
  intros H1 H2. unfold Ascii.compare.
  rewrite <- (N2Nat.id (N_of_ascii (digitChar d1))).
  rewrite <- (N2Nat.id (N_of_ascii (digitChar d2))).
  change (N.to_nat (N_of_ascii (digitChar d1)))
    with (nat_of_ascii (digitChar d1)).
  change (N.to_nat (N_of_ascii (digitChar d2)))
    with (nat_of_ascii (digitChar d2)).
  rewrite !digitChar_code by assumption.
  rewrite <- Nat2N.inj_compare, <- Nat2Z.inj_compare.
  rewrite !Nat2Z.inj_add, !Z2Nat.id by lia.
  apply Z.add_compare_mono_l.
Qed.

Lemma string_of_digits_inj l1 : forall l2,
  validDigits l1 -> validDigits l2 ->
  string_of_digits l1 = string_of_digits l2 -> l1 = l2.
Proof.
  induction l1 as [|d1 l1 IH]; intros [|d2 l2] H1 H2 H; simpl in H;
    try discriminate; [reflexivity|].
  inversion H1; inversion H2; subst. injection H as Hc Hs.
  f_equal; [apply digitChar_inj; assumption|apply IH; assumption].
Qed.

Lemma string_of_digits_length l :
  String.length (string_of_digits l) = length l.
Proof. induction l; simpl; congruence. Qed.

Lemma compare_cons c1 s1 c2 s2 :
  String.compare (String c1 s1) (String c2 s2)
  = match Ascii.compare c1 c2 with
    | Eq => String.compare s1 s2
    | ne => ne
    end.
Proof. reflexivity. Qed.

(** On digit sequences of the same length, the order of the strings is
    the order of the numbers. *)
Lemma string_of_digits_compare l1 : forall l2,
  length l1 = length l2 -> validDigits l1 -> validDigits l2 ->
  String.compare (string_of_digits l1) (string_of_digits l2)
  = (valueOf l1 ?= valueOf l2).
Proof.
  induction l1 as [|d1 l1 IH]; intros [|d2 l2] Hlen H1 H2;
    simpl in Hlen; try discriminate; [reflexivity|].
  inversion H1 as [|? ? Hd1 Hl1]; inversion H2 as [|? ? Hd2 Hl2]; subst.
  injection Hlen as Hlen.
  cbn [string_of_digits fold_right]. rewrite compare_cons.
  rewrite digitChar_compare by assumption.
  pose proof (valueOf_bound l1 Hl1) as B1.
  pose proof (valueOf_bound l2 Hl2) as B2.
  simpl valueOf. rewrite <- Hlen in *.
  set (P := 10 ^ Z.of_nat (length l1)) in *.
  destruct (d1 ?= d2) eqn:E.
  - apply Z.compare_eq in E. subst d2. rewrite IH by assumption.
    destruct (valueOf l1 ?= valueOf l2) eqn:E2; symmetry.
    + apply Z.compare_eq in E2. apply Z.compare_eq_iff. lia.
    + apply Z.compare_lt_iff. rewrite Z.compare_lt_iff in E2. lia.
    + apply Z.compare_gt_iff. rewrite Z.compare_gt_iff in E2. lia.
  - symmetry. apply Z.compare_lt_iff. rewrite Z.compare_lt_iff in E. nia.
  - symmetry. apply Z.compare_gt_iff. rewrite Z.compare_gt_iff in E. nia.
Qed.

Lemma FormatInt_nonneg n : 0 <= n -> FormatInt n = string_of_digits (digits n).
Proof.
  intros Hn. unfold FormatInt. destruct (n <? 0) eqn:E; [|reflexivity].
  apply Z.ltb_lt in E. lia.
Qed.

Lemma string_of_digits_no_minus l s :
  validDigits l -> l <> [] -> string_of_digits l <> String "-"%char s.
Proof.
  intros Hl Hne H. destruct l as [|d l]; [congruence|].
  inversion Hl; subst. simpl in H. injection H as Hc _.
  apply (f_equal nat_of_ascii) in Hc.
  rewrite digitChar_code in Hc by assumption.
  change (nat_of_ascii "-"%char) with 45%nat in Hc. lia.
Qed.

Lemma FormatInt_inj a b : FormatInt a = FormatInt b -> a = b.
Proof.
  unfold FormatInt.
  destruct (a <? 0) eqn:Ea, (b <? 0) eqn:Eb;
    try apply Z.ltb_lt in Ea; try apply Z.ltb_ge in Ea;
    try apply Z.ltb_lt in Eb; try apply Z.ltb_ge in Eb; intros H.
  - injection H as H. apply string_of_digits_inj in H; try apply digits_valid.
    apply (f_equal valueOf) in H. rewrite !digits_value in H by lia. lia.
  - symmetry in H. apply string_of_digits_no_minus in H;
      [contradiction|apply digits_valid|apply digits_nonempty].
  - apply string_of_digits_no_minus in H;
      [contradiction|apply digits_valid|apply digits_nonempty].
  - apply string_of_digits_inj in H; try apply digits_valid.
    apply (f_equal valueOf) in H. rewrite !digits_value in H by lia. lia.
Qed.

(** A number between [10^(k-1)] and [10^k] has [k] digits. *)
Lemma digits_length n k :
  (0 < k)%nat -> 10 ^ (Z.of_nat k - 1) <= n < 10 ^ Z.of_nat k ->
  length (digits n) = k.
Proof.
  intros Hk Hn.
  assert (Hpos : 0 < n).
  { assert (0 < 10 ^ (Z.of_nat k - 1)) by (apply Z.pow_pos_nonneg; lia). lia. }
  destruct (digits_leading n Hpos) as (d & l & Hdl & Hd).
  pose proof (digits_valid n) as Hv.
  pose proof (digits_value n ltac:(lia)) as Hval.
  rewrite Hdl in Hv. rewrite Hdl in Hval. rewrite Hdl.
  pose proof (Forall_inv Hv) as Hd'. pose proof (Forall_inv_tail Hv) as Hl.
  simpl in Hd'.
  pose proof (valueOf_bound l Hl) as Bl.
  simpl valueOf in Hval. simpl length.
  assert (Hlow : 10 ^ Z.of_nat (length l) <= n) by nia.
  assert (Hhigh : n < 10 ^ Z.of_nat (S (length l))).
  { rewrite Nat2Z.inj_succ, Z.pow_succ_r by lia. nia. }
  destruct (Nat.lt_trichotomy (S (length l)) k) as [Hlt|[Heq|Hgt]];
    [|exact Heq|].
  - assert (10 ^ Z.of_nat (S (length l)) <= 10 ^ (Z.of_nat k - 1))
      by (apply Z.pow_le_mono_r; lia). lia.
  - assert (10 ^ Z.of_nat k <= 10 ^ Z.of_nat (length l))
      by (apply Z.pow_le_mono_r; lia). lia.
Qed.

End StrconvFacts.

(** ** The session ledger *)

Module SessionFacts.

Import OS Session.

Section WithJSON.

Variable marshal : Session -> string + string.

(** What [save] does to the disk: one [os.WriteFile] of the whole
    serialized session, straight to the session's own file. *)
Lemma save_oplog m s d fault data :
  marshal s = inl data ->
  oplog (save marshal m s d fault).1
  = (oplog d ++ [OpWriteFile (sessionPath m (ID s)) data 420])%list.
Proof.
  intros Hm. unfold save. rewrite Hm.
  destruct fault; reflexivity.
Qed.

Lemma save_ok m s d data :
  marshal s = inl data ->
  save marshal m s d WriteOK
  = (mkDisk (<[sessionPath m (ID s) := data]> (files d))
            (oplog d ++ [OpWriteFile (sessionPath m (ID s)) data 420])%list,
     None).
Proof. intros Hm. unfold save. rewrite Hm. reflexivity. Qed.

Lemma AddCommand_session m s cmd d fault :
  Commands (AddCommand marshal m s cmd d fault).1.1
  = (Commands s ++ [cmd])%list
  /\ FileOps (AddCommand marshal m s cmd d fault).1.1 = FileOps s.
Proof.
  unfold AddCommand.
  destruct (save marshal m _ d fault) as [d' err] eqn:E. simpl.
  repeat match goal with |- context [if ?b then _ else _] =>
                           destruct b end; simpl; auto.
Qed.


Lemma End_session m s now d fault :
  (End marshal m s now d fault).1.1 = set_EndTime s (Some now).
Proof.
  unfold End. destruct (save marshal m _ d fault). reflexivity.
Qed.

Lemma AddCommand_RiskScore m s cmd d fault :
  RiskScore (AddCommand marshal m s cmd d fault).1.1
  = (if String.eqb (cmd_RiskLevel cmd) "critical"
     then GoInt.add (RiskScore s) 100
     else if String.eqb (cmd_RiskLevel cmd) "high"
     then GoInt.add (RiskScore s) 50
     else if String.eqb (cmd_RiskLevel cmd) "medium"
     then GoInt.add (RiskScore s) 10
     else RiskScore s).
Proof.
  unfold AddCommand.
  destruct (save marshal m _ d fault) as [d' err]. simpl.
  repeat match goal with |- context [if ?b then _ else _] =>
                           destruct b end; reflexivity.
Qed.

Lemma AddCommand_Violations m s cmd d fault :
  Violations (AddCommand marshal m s cmd d fault).1.1
  = (if String.eqb (cmd_RiskLevel cmd) "critical"
     then GoInt.add (Violations s) 1
     else if String.eqb (cmd_RiskLevel cmd) "high"
     then GoInt.add (Violations s) 1
     else Violations s).
Proof.
  unfold AddCommand.
  destruct (save marshal m _ d fault) as [d' err]. simpl.
  repeat match goal with |- context [if ?b then _ else _] =>
                           destruct b end; reflexivity.
Qed.


End WithJSON.

End SessionFacts.

(** ** Properties of the ledger *)

Module LedgerProps.

Import OS Session SessionFacts.

Section WithJSON.

Variable marshal : Session -> string + string.



(** C8, as amended.  Every mutation persists the session by one call of
    [save] on the updated session; [save] serializes the whole session
    and hands it to a single [os.WriteFile] on the session's own file
    (mode 0644): no temporary file, no rename.  No other file is
    touched.  When the write succeeds the file holds the serialized
    session; when the file cannot be opened it is unchanged; when the
    write fails on the way the file holds the part that was written. *)
Theorem C8_save_writes_in_place
  (m : Manager) (s : Session) (u : Update) (d : Disk) (fault : WriteFault)
  (data : string) :
  let s' := (apply_update marshal m s u d fault).1.1 in
  let path := sessionPath m (ID s') in
  marshal s' = inl data ->
  ((apply_update marshal m s u d fault).1.2,
   (apply_update marshal m s u d fault).2) = save marshal m s' d fault
  /\ oplog (save marshal m s' d fault).1
     = (oplog d ++ [OpWriteFile path data 420])%list
  /\ (forall p, p <> path ->
       files (save marshal m s' d fault).1 !! p = files d !! p)
  /\ match fault with
     | WriteOK =>
         (save marshal m s' d fault).2 = None
         /\ files (save marshal m s' d fault).1 !! path = Some data
     | OpenFails =>
         (save marshal m s' d fault).2 <> None
         /\ files (save marshal m s' d fault).1 !! path = files d !! path
     | WriteFailsAfter n =>
         (save marshal m s' d fault).2 <> None
         /\ files (save marshal m s' d fault).1 !! path
            = Some (String.substring 0 n data)
     end.
Proof.
  intros s' path Hm.
  split.
  { subst s' path. destruct u as [cmd|op|now]; simpl;
      [unfold AddCommand | unfold AddFileOperation | unfold End];
      match goal with
      | |- context [save marshal m ?X d fault] => generalize X
      end;
      intros X; destruct (save marshal m X d fault) as [d' err] eqn:E;
      simpl; rewrite E; reflexivity. }
  split; [apply save_oplog; exact Hm|].
  unfold save. rewrite Hm. fold path.
  split.
  - intros p Hp. destruct fault; simpl; auto;
      rewrite lookup_insert_ne; auto.
  - destruct fault; simpl; split; try discriminate; auto;
      apply lookup_insert_eq.
Qed.

End WithJSON.





(** C8, the claim as stated fails: the session file holds an earlier
    version of the session; [AddCommand] is called and the write breaks
    off after 12 bytes.  [save] reports the error, it has issued exactly
    one [os.WriteFile] on the session file itself (no temporary file, no
    rename), and the file no longer holds what was persisted before. *)
Lemma C8_counterexample :
  let path := sessionPath Samples.manager (ID Samples.freshSession) in
  let r := AddCommand Samples.sampleMarshal Samples.manager
             Samples.freshSession (Samples.commandOfRisk "high")
             Samples.persistedDisk (WriteFailsAfter 12) in
  files Samples.persistedDisk !! path = Some "{previously persisted}"
  /\ r.2 = Some "write session: write failed"
  /\ files r.1.2 !! path = Some "{id: session"
  /\ oplog r.1.2
     = [OpWriteFile path
          "{id: session-1700000000000000000, agent: agent, commands: 1, risk_score: 50, violations: 1}"
          420].
Proof.
  intros path r. subst path r.
  split; [apply lookup_singleton_eq|].
  split; [reflexivity|].
  split; [|reflexivity].
  cbn [AddCommand save Samples.sampleMarshal WriteFile fst snd files].
  apply lookup_insert_eq.
Qed.

Lemma C8_witness :
  let marshal := Samples.sampleMarshal in
  let m := Samples.manager in
  let s := Samples.freshSession in
  let u := UAddFileOperation Samples.deniedWrite in
  let d := Samples.persistedDisk in
  let s' := (apply_update marshal m s u d OpenFails).1.1 in
  let path := sessionPath m (ID s') in
  let data :=
    "{id: session-1700000000000000000, agent: agent, commands: 0, risk_score: 25, violations: 1}" in
  ((apply_update marshal m s u d OpenFails).1.2,
   (apply_update marshal m s u d OpenFails).2) = save marshal m s' d OpenFails
  /\ oplog (save marshal m s' d OpenFails).1
     = (oplog d ++ [OpWriteFile path data 420])%list
  /\ (forall p, p <> path ->
       files (save marshal m s' d OpenFails).1 !! p = files d !! p)
  /\ (save marshal m s' d OpenFails).2 <> None
  /\ files (save marshal m s' d OpenFails).1 !! path = files d !! path.
Proof.
  intros marshal m s u d s' path data.
  exact (C8_save_writes_in_place marshal m s u d OpenFails data eq_refl).
Defined.

Lemma generateSessionID_compare a b :
  String.compare (generateSessionID a) (generateSessionID b)
  = String.compare (Strconv.FormatInt a) (Strconv.FormatInt b).
Proof. reflexivity. Qed.

Lemma generateSessionID_inj a b :
  generateSessionID a = generateSessionID b -> a = b.
Proof.
  unfold generateSessionID. simpl. intros H. injection H as H.
  apply StrconvFacts.FormatInt_inj. exact H.
Qed.

(** The order of the identifiers.  For generation times from 10^18 ns
    (September 2001) up to the largest [int64], the identifiers are
    ["session-"] followed by 19 digits, and their order as strings is the
    order of the generation times. *)
Lemma generateSessionID_order (a b : Z) :
  10 ^ 18 <= a <= GoInt.max_int ->
  10 ^ 18 <= b <= GoInt.max_int ->
  (generateSessionID a <? generateSessionID b)%string = (a <? b).
Proof.
  intros Ha Hb.
  unfold String.ltb. rewrite generateSessionID_compare.
  assert (Hmax : GoInt.max_int < 10 ^ Z.of_nat 19) by reflexivity.
  assert (Hmin : 10 ^ (Z.of_nat 19 - 1) = 10 ^ 18) by reflexivity.
  rewrite !StrconvFacts.FormatInt_nonneg by lia.
  rewrite StrconvFacts.string_of_digits_compare;
    try apply StrconvFacts.digits_valid.
  - rewrite !StrconvFacts.digits_value by lia. reflexivity.
  - rewrite (StrconvFacts.digits_length a 19), (StrconvFacts.digits_length b 19);
      try reflexivity; try lia.
Qed.

(** C9, the code at a failing input.  The comment on [generateSessionID]
    says that it creates a unique session identifier; the identifier is
    the reading of the clock and nothing else.  Two agents start a
    session in the same workspace and their calls of
    [generateSessionID] read the same nanosecond: both sessions get the
    same identifier, and the second session's file replaces the
    first's. *)
Theorem C9_session_ids_collide :
  let t := 1700000000000000000 in
  let r1 := Start Samples.sampleMarshal Samples.manager "cursor" "/w" t
              1700000000000000120 Samples.emptyDisk WriteOK in
  let r2 := Start Samples.sampleMarshal Samples.manager "copilot" "/w" t
              1700000000000000340 r1.1 WriteOK in
  let path := sessionPath Samples.manager "session-1700000000000000000" in
  (exists s1 s2,
      r1.2 = inl s1 /\ r2.2 = inl s2
      /\ AgentName s1 = "cursor" /\ AgentName s2 = "copilot"
      /\ StartTime s1 <> StartTime s2
      /\ ID s1 = "session-1700000000000000000" /\ ID s2 = ID s1)
  /\ files r1.1 !! path
     = Some "{id: session-1700000000000000000, agent: cursor, commands: 0, risk_score: 0, violations: 0}"
  /\ files r2.1 !! path
     = Some "{id: session-1700000000000000000, agent: copilot, commands: 0, risk_score: 0, violations: 0}".
Proof.
  intros t r1 r2 path. subst r1 r2 t path. unfold Start.
  rewrite SessionFacts.save_ok with (data := "{id: session-1700000000000000000, agent: cursor, commands: 0, risk_score: 0, violations: 0}")
    by reflexivity.
  rewrite SessionFacts.save_ok with (data := "{id: session-1700000000000000000, agent: copilot, commands: 0, risk_score: 0, violations: 0}")
    by reflexivity.
  cbn [fst snd files].
  split; [eexists _, _; repeat split; try reflexivity; discriminate|].
  split; apply lookup_insert_eq.
Qed.

End LedgerProps.

(** ** The exec pipeline *)

Module CmdFacts.

Import Analyzer Logging Cmd.

Lemma spawned_app a b : spawned (a ++ b) = spawned a || spawned b.
Proof. apply existsb_app. Qed.

Lemma prompted_app a b : prompted (a ++ b) = prompted a || prompted b.
Proof. apply existsb_app. Qed.

Lemma loggedError_app a b :
  loggedError (a ++ b) = loggedError a || loggedError b.
Proof. apply existsb_app. Qed.

Lemma riskLogs_quiet c fs :
  spawned (map (riskLog c) fs) = false
  /\ prompted (map (riskLog c) fs) = false
  /\ loggedError (map (riskLog c) fs) = false.
Proof. induction fs as [|f fs IH]; simpl; auto. Qed.

Lemma concernLines_quiet fs : forall i,
  spawned (concernLines i fs) = false
  /\ prompted (concernLines i fs) = false
  /\ loggedError (concernLines i fs) = false.
Proof. induction fs as [|f fs IH]; intros i; simpl; auto. Qed.

Lemma prompt_verdict r c fs tok :
  (promptForApproval r c fs tok).2 = approves tok.
Proof. reflexivity. Qed.

(** What the prompt does: it prints, ending with the question that
    offers [y] and [N], reads one answer, and starts nothing. *)
Lemma prompt_events r c fs tok :
  spawned (promptForApproval r c fs tok).1 = false
  /\ prompted (promptForApproval r c fs tok).1 = true
  /\ loggedError (promptForApproval r c fs tok).1 = false
  /\ In (EvStderr "Do you want to proceed? [y/N]: ")
        (promptForApproval r c fs tok).1.
Proof.
  unfold promptForApproval. cbn [fst].
  destruct (concernLines_quiet fs 0) as (Hs & Hp & He).
  rewrite !spawned_app, !prompted_app, !loggedError_app.
  assert (Hc : forall l : list Event,
             spawned l = false -> prompted l = false ->
             loggedError l = false ->
             spawned (if 0 <? Z.of_nat (length fs) then l else []) = false
             /\ prompted (if 0 <? Z.of_nat (length fs) then l else []) = false
             /\ loggedError (if 0 <? Z.of_nat (length fs) then l else [])
                = false).
  { intros l H1 H2 H3. destruct (0 <? Z.of_nat (length fs)); auto. }
  destruct (Hc (EvStderr ("Security concerns:" ++ NL)
                 :: concernLines 0 fs ++ [EvStderr NL])%list)
    as (Hs' & Hp' & He').
  { simpl. rewrite spawned_app, Hs. reflexivity. }
  { simpl. rewrite prompted_app, Hp. reflexivity. }
  { simpl. rewrite loggedError_app, He. reflexivity. }
  rewrite Hs', Hp', He'. repeat split; try reflexivity.
  apply in_or_app. right. apply in_or_app. right. left. reflexivity.
Qed.


(** The assessment block, case by case. *)
Lemma assess_spec interactive r c fs w :
  let a := assess interactive r c fs w in
  spawned a.1 = false
  /\ prompted a.1 = (0 <? Z.of_nat (length fs)) && interactive
  /\ loggedError a.1
     = (0 <? Z.of_nat (length fs)) && negb interactive
       && String.eqb r "critical"
  /\ a.2 = (if 0 <? Z.of_nat (length fs) then
              if interactive then
                if approves (w_stdin w) then None else Some denied
              else if String.eqb r "critical" then Some blocked else None
            else None).
Proof.
  unfold assess.
  destruct (0 <? Z.of_nat (length fs)); [|simpl; auto].
  destruct (riskLogs_quiet c fs) as (Hs & Hp & He).
  destruct interactive.
  - destruct (prompt_events r c fs (w_stdin w)) as (Hs' & Hp' & He' & _).
    pose proof (prompt_verdict r c fs (w_stdin w)) as Hv.
    destruct (promptForApproval r c fs (w_stdin w)) as [shown approved].
    simpl in Hs', Hp', He', Hv. subst approved.
    destruct (approves (w_stdin w)); cbn [negb fst snd];
      rewrite ?spawned_app, ?prompted_app, ?loggedError_app,
        Hs, Hp, He, Hs', Hp', He'; simpl; auto.
  - destruct (String.eqb r "critical"); cbn [fst snd];
      rewrite ?spawned_app, ?prompted_app, ?loggedError_app, ?Hs, ?Hp, ?He;
      simpl; auto.
Qed.


Section WithCollaborators.

Variable AnalyzeScript :
  string -> string -> Config.PolicyConfig -> list Finding.
Variable cfg : Config.Config.
Variable marshal : Session.Session -> string + string.
Variable unmarshal : string -> Session.Session + string.

Local Abbreviation run := (runExec AnalyzeScript cfg marshal unmarshal).
Local Abbreviation assessed := (assessed AnalyzeScript cfg).

(** When the assessment ends with an error, [runExec] returns it and
    nothing is started. *)
Lemma runExec_refused cmdName args interactive sessionID w e :
  (assessed (cmdName :: args) interactive w).2 = Some e ->
  run (cmdName :: args) interactive sessionID w
  = (Some e, (assessed (cmdName :: args) interactive w).1, w_disk w).
Proof.
  unfold assessed, findingsOf, runExec. intros H.
  destruct (assess _ _ _ _ w) as [before oe]. simpl in H. subst oe.
  reflexivity.
Qed.

(** When the assessment lets the command through, the command itself is
    started as a child process, and what follows is decided by how the
    child ends. *)
Lemma runExec_passed cmdName args interactive sessionID w :
  (assessed (cmdName :: args) interactive w).2 = None ->
  let before := (assessed (cmdName :: args) interactive w).1 in
  let r := run (cmdName :: args) interactive sessionID w in
  exists line,
    r.1.2 = (before ++ [EvExecCommand cmdName args; EvLog line])%list
    /\ match w_run w with
       | RunOtherError err =>
           level line = Error
           /\ r.1.1 = Some (OtherError ("execute command: " ++ err))
       | RunSuccess => level line = Info /\ r.1.1 = None
       | RunExitError c =>
           level line = Info
           /\ r.1.1 = (if negb (c =? 0) then
                         Some (ExitError
                                 ("command exited with code "
                                  ++ Strconv.FormatInt c) c)
                       else None)
       end.
Proof.
  unfold assessed, findingsOf, runExec. intros H.
  destruct (assess _ _ _ _ w) as [before oe]. simpl in H. subst oe.
  cbn [fst snd].
  destruct (w_run w) as [|c|err].
  - destruct (trackInSession _ _ _ _ _ _ _ _ _ _) as [d e].
    eexists. rewrite <- app_assoc. simpl. split; [reflexivity|]. auto.
  - destruct (trackInSession _ _ _ _ _ _ _ _ _ _) as [d e].
    eexists. destruct (negb (c =? 0)); rewrite <- app_assoc; simpl;
      (split; [reflexivity|]); auto.
  - eexists. rewrite <- app_assoc. simpl. split; [reflexivity|]. auto.
Qed.

End WithCollaborators.

End CmdFacts.

(** ** Properties of the exec pipeline *)

Module CmdProps.

Import Analyzer Logging Cmd CmdFacts.

Lemma raiseRisk_max acc f :
  validSeverity acc -> validSeverity (Severity f) ->
  raiseRisk acc f
  = (if severityRank acc <? severityRank (Severity f) then Severity f
     else acc).
Proof.
  unfold raiseRisk.
  intros [-> | [-> | [-> | ->]]] [H | [H | [H | H]]]; rewrite H; reflexivity.
Qed.

Lemma severityRank_low s : validSeverity s -> severityRank s <= 0 -> s = "low".
Proof.
  intros [-> | [-> | [-> | ->]]]; [reflexivity|..];
    unfold severityRank; simpl; lia.
Qed.

Lemma fold_raiseRisk fs : forall acc,
  validSeverity acc ->
  Forall (fun f => validSeverity (Severity f)) fs ->
  validSeverity (fold_left raiseRisk fs acc)
  /\ severityRank acc <= severityRank (fold_left raiseRisk fs acc)
  /\ (forall f, In f fs ->
        severityRank (Severity f)
        <= severityRank (fold_left raiseRisk fs acc))
  /\ (fold_left raiseRisk fs acc = acc
      \/ exists f, In f fs /\ Severity f = fold_left raiseRisk fs acc).
Proof.
  induction fs as [|f fs IH]; intros acc Hacc Hfs; simpl.
  - repeat split; auto; try lia.
  - pose proof (Forall_inv Hfs) as Hf. pose proof (Forall_inv_tail Hfs) as Ht.
    simpl in Hf.
    pose proof (raiseRisk_max acc f Hacc Hf) as Hstep.
    assert (Hv : validSeverity (raiseRisk acc f)).
    { rewrite Hstep. destruct (_ <? _); assumption. }
    destruct (IH (raiseRisk acc f) Hv Ht) as (Hr & Hle & Hall & Hatt).
    assert (Hboth : severityRank acc <= severityRank (raiseRisk acc f)
                    /\ severityRank (Severity f)
                       <= severityRank (raiseRisk acc f)).
    { rewrite Hstep.
      destruct (severityRank acc <? severityRank (Severity f)) eqn:E;
        [apply Z.ltb_lt in E|apply Z.ltb_ge in E]; lia. }
    split; [exact Hr|]. split; [lia|]. split.
    + intros g [<-|Hg]; [lia|apply Hall; exact Hg].
    + destruct Hatt as [Heq|(g & Hg & Hs)].
      * rewrite Heq, Hstep.
        destruct (severityRank acc <? severityRank (Severity f));
          [right; exists f; split; [left; reflexivity|]|left];
          congruence.
      * right. exists g. split; [right; exact Hg|exact Hs].
Qed.

(** C5.  With findings whose severities are among [low], [medium],
    [high], [critical], the risk level the pipeline computes is the
    largest severity of the findings in the order
    [low < medium < high < critical]: it is [low] without findings; it is
    one of the four severities; no finding has a severity above it; and
    with findings it is the severity of one of them. *)
Theorem C5_risk_level_is_max_severity (findings : list Finding) :
  Forall (fun f => validSeverity (Severity f)) findings ->
  (findings = [] -> riskLevelOf findings = "low")
  /\ validSeverity (riskLevelOf findings)
  /\ (forall f, In f findings ->
        severityRank (Severity f) <= severityRank (riskLevelOf findings))
  /\ (findings <> [] ->
        exists f, In f findings /\ Severity f = riskLevelOf findings).
Proof.
  intros Hv. unfold riskLevelOf.
  destruct (fold_raiseRisk findings "low" (or_introl eq_refl) Hv)
    as (Hr & _ & Hall & Hatt).
  split; [intros ->; reflexivity|]. split; [exact Hr|]. split; [exact Hall|].
  intros Hne. destruct Hatt as [Hlow|Hex]; [|exact Hex].
  destruct findings as [|f fs]; [congruence|].
  exists f. split; [left; reflexivity|].
  rewrite Hlow. apply severityRank_low.
  - exact (Forall_inv Hv).
  - pose proof (Hall f (or_introl eq_refl)) as H. rewrite Hlow in H.
    exact H.
Qed.

Lemma C5_witness :
  let findings := [Samples.sudoUse; Samples.deleteRoot; Samples.dotenvRead] in
  (findings = [] -> riskLevelOf findings = "low")
  /\ validSeverity (riskLevelOf findings)
  /\ (forall f, In f findings ->
        severityRank (Severity f) <= severityRank (riskLevelOf findings))
  /\ (findings <> [] ->
        exists f, In f findings /\ Severity f = riskLevelOf findings).
Proof.
  apply C5_risk_level_is_max_severity.
  repeat (constructor; [unfold validSeverity; simpl; tauto|]).
  constructor.
Defined.



Section WithCollaborators.

Variable AnalyzeScript :
  string -> string -> Config.PolicyConfig -> list Finding.
Variable cfg : Config.Config.
Variable marshal : Session.Session -> string + string.
Variable unmarshal : string -> Session.Session + string.

Local Abbreviation run := (runExec AnalyzeScript cfg marshal unmarshal).
Local Abbreviation found := (findingsOf AnalyzeScript cfg).
Local Abbreviation assessed := (assessed AnalyzeScript cfg).

Lemma assessed_spec cmdArgs interactive w :
  spawned (assessed cmdArgs interactive w).1 = false
  /\ prompted (assessed cmdArgs interactive w).1
     = (0 <? Z.of_nat (length (found cmdArgs))) && interactive
  /\ loggedError (assessed cmdArgs interactive w).1
     = (0 <? Z.of_nat (length (found cmdArgs))) && negb interactive
       && String.eqb (riskLevelOf (found cmdArgs)) "critical"
  /\ (assessed cmdArgs interactive w).2
     = (if 0 <? Z.of_nat (length (found cmdArgs)) then
          if interactive then
            if approves (w_stdin w) then None else Some denied
          else if String.eqb (riskLevelOf (found cmdArgs)) "critical"
               then Some blocked else None
        else None).
Proof. apply assess_spec. Qed.

(** What a run shows of itself, by the outcome of the assessment. *)
Lemma runExec_trace cmdName args interactive sessionID w :
  let a := assessed (cmdName :: args) interactive w in
  let r := run (cmdName :: args) interactive sessionID w in
  prompted r.1.2 = prompted a.1
  /\ (forall e, a.2 = Some e ->
        r.1.1 = Some e /\ r.1.2 = a.1 /\ spawned r.1.2 = false)
  /\ (a.2 = None ->
        spawned r.1.2 = true /\ In (EvExecCommand cmdName args) r.1.2
        /\ (forall c, childExitCode (w_run w) = Some c ->
              Execute r.1.1 = c /\ loggedError r.1.2 = loggedError a.1)).
Proof.
  intros a r. subst a r.
  destruct (assessed_spec (cmdName :: args) interactive w)
    as (Hs & Hp & He & Ha).
  destruct ((assessed (cmdName :: args) interactive w).2) as [e|] eqn:E.
  - rewrite (runExec_refused _ _ _ _ _ _ _ _ _ _ E). cbn [fst snd].
    split; [reflexivity|]. split; [|discriminate].
    intros e' [= <-]. auto.
  - destruct (runExec_passed _ _ marshal unmarshal _ _ _ sessionID _ E)
      as (line & Htr & Hres).
    rewrite Htr, prompted_app, spawned_app, loggedError_app, Hs.
    split; [simpl; apply orb_false_r|]. split; [discriminate|].
    intros _. split; [reflexivity|].
    split; [apply in_or_app; right; left; reflexivity|].
    intros c Hc. destruct (w_run w) as [|c'|err]; simpl in Hc;
      try discriminate; injection Hc as <-; destruct Hres as [Hl Hr];
      rewrite Hr.
    + split; [reflexivity|]. destruct line as [[] ? ?]; simpl in *;
        try discriminate; apply orb_false_r.
    + split.
      * destruct (c' =? 0) eqn:Ez; simpl; [apply Z.eqb_eq in Ez|]; auto.
      * destruct line as [[] ? ?]; simpl in *;
          try discriminate; apply orb_false_r.
Qed.

Lemma not_spawned_no_exec trace name a :
  spawned trace = false -> ~ In (EvExecCommand name a) trace.
Proof.
  intros Hs Hin. unfold spawned in Hs.
  assert (Ht : existsb isExec trace = true)
    by (apply existsb_exists; exists (EvExecCommand name a); auto).
  congruence.
Qed.

(** Whatever the analyzer and the configuration: a process [runExec]
    starts is the command it was given, with its arguments, run as a
    child of the supervisor.  There is no other way of running it. *)
Lemma runExec_starts_only_the_command
  cmdName args interactive sessionID w name a :
  In (EvExecCommand name a) (run (cmdName :: args) interactive sessionID w).1.2 ->
  name = cmdName /\ a = args.
Proof.
  intros Hin.
  destruct (assessed_spec (cmdName :: args) interactive w) as (Hs & _).
  destruct ((assessed (cmdName :: args) interactive w).2) as [e|] eqn:E.
  - rewrite (runExec_refused _ _ _ _ _ _ _ _ _ _ E) in Hin. simpl in Hin.
    exfalso. exact (not_spawned_no_exec _ _ _ Hs Hin).
  - destruct (runExec_passed _ _ marshal unmarshal _ _ _ sessionID _ E)
      as (line & Htr & _).
    rewrite Htr in Hin. apply in_app_or in Hin as [Hin|[Hin|[Hin|[]]]].
    + exfalso. exact (not_spawned_no_exec _ _ _ Hs Hin).
    + injection Hin as <- <-. auto.
    + discriminate.
Qed.


Lemma childRan_spawned w trace :
  spawned trace = true ->
  (childRan w trace = true <-> exists c, childExitCode (w_run w) = Some c).
Proof.
  intros Hs. unfold childRan. rewrite Hs.
  destruct (w_run w); simpl; split; eauto; try discriminate.
  intros [c H]. discriminate.
Qed.

Lemma childRan_not_spawned w trace :
  spawned trace = false -> childRan w trace = false.
Proof. intros Hs. unfold childRan. rewrite Hs. reflexivity. Qed.


(** The outcome and the trace of a run do not depend on how the ledger's
    write ends. *)
Lemma runExec_ignores_write cmdArgs interactive sessionID w fault :
  (run cmdArgs interactive sessionID (with_write w fault)).1
  = (run cmdArgs interactive sessionID w).1.
Proof.
  unfold runExec. destruct cmdArgs as [|cmdName args]; [reflexivity|].
  change (w_run (with_write w fault)) with (w_run w).
  change (w_disk (with_write w fault)) with (w_disk w).
  change (w_duration (with_write w fault)) with (w_duration w).
  set (fs := AnalyzeScript _ _ _).
  change (assess interactive (riskLevelOf fs)
            (Strings.Join (cmdName :: args) " ") fs (with_write w fault))
    with (assess interactive (riskLevelOf fs)
            (Strings.Join (cmdName :: args) " ") fs w).
  destruct (assess interactive _ _ fs w) as [before [e|]]; [reflexivity|].
  destruct (w_run w); try reflexivity;
    repeat match goal with
    | |- context [trackInSession ?a ?b ?c ?d ?e ?f ?g ?h ?i ?j] =>
        destruct (trackInSession a b c d e f g h i j)
    end; cbn [fst snd];
    repeat match goal with
    | |- context [if ?b then _ else _] => destruct b
    end; reflexivity.
Qed.

(** C4, as amended.  When a child ran and exited with a status [c]
    (0 to 255), the supervisor's exit status is [c].  What
    [Manager.AddCommand] returns is dropped: whether the ledger's write
    succeeds or fails, the run returns the same error and shows the same
    trace, and no error-level line is logged. *)
Theorem C4_exit_code_is_the_childs
  (cmdName : string) (args : list string) (interactive : bool)
  (sessionID : string) (w : World) (c : Z) :
  let r := run (cmdName :: args) interactive sessionID w in
  spawned r.1.2 = true ->
  childExitCode (w_run w) = Some c ->
  0 <= c <= 255 ->
  childRan w r.1.2 = true
  /\ exitStatus (Execute r.1.1) = c
  /\ loggedError r.1.2 = false
  /\ (forall fault,
        let r' := run (cmdName :: args) interactive sessionID
                    (with_write w fault) in
        r'.1.1 = r.1.1 /\ r'.1.2 = r.1.2).
Proof.
  intros r Hsp Hc Hrange. subst r.
  destruct (runExec_trace cmdName args interactive sessionID w)
    as (_ & Hrefused & Hpassed).
  destruct (assessed_spec (cmdName :: args) interactive w)
    as (_ & _ & He & Ha).
  destruct ((assessed (cmdName :: args) interactive w).2) as [e|] eqn:E.
  - destruct (Hrefused e eq_refl) as (_ & _ & Hno). congruence.
  - destruct (Hpassed eq_refl) as (_ & _ & Hcode).
    destruct (Hcode c Hc) as [Hx Hl].
    split; [apply childRan_spawned; eauto|].
    split; [rewrite Hx; unfold exitStatus; apply Z.mod_small; lia|].
    split.
    + rewrite Hl, He.
      destruct (0 <? Z.of_nat (length (found (cmdName :: args))));
        [|reflexivity].
      destruct interactive; [reflexivity|]. simpl.
      destruct (String.eqb _ "critical"); [discriminate|reflexivity].
    + intros fault r'. subst r'.
      rewrite runExec_ignores_write. split; reflexivity.
Qed.

End WithCollaborators.



(** C4, the claim as stated fails.  [echo hi] runs in a bound session and
    exits with code 7; the ledger cannot open the session file for
    writing, and [Manager.AddCommand] returns the error.  The supervisor
    exits with 7, and its trace holds no error-level line.  And a child
    that a signal terminates has [ExitCode()] -1: the supervisor calls
    [os.Exit(-1)], which is exit status 255. *)
Lemma C4_counterexample :
  let analyze := Samples.analyzerReporting "echo hi" [] in
  let w := Samples.trackedWorld (RunExitError 7) OS.OpenFails in
  let r := runExec analyze Samples.sandboxOn Samples.sampleMarshal
             Samples.sampleUnmarshal ["echo"; "hi"] false "" w in
  let w' := Samples.world "" (RunExitError (-1)) in
  let r' := runExec analyze Samples.sandboxOn Samples.sampleMarshal
              Samples.sampleUnmarshal ["echo"; "hi"] false "" w' in
  ((trackInSession Samples.sampleMarshal Samples.sampleUnmarshal
      "echo" ["hi"] false "" "low" [] 7 w).2
   = Some "write session: open failed"
   /\ childRan w r.1.2 = true
   /\ exitStatus (Execute r.1.1) = 7
   /\ loggedError r.1.2 = false)
  /\ (childExitCode (w_run w') = Some (-1)
      /\ childRan w' r'.1.2 = true
      /\ Execute r'.1.1 = -1
      /\ exitStatus (Execute r'.1.1) = 255).
Proof. vm_compute. repeat split; reflexivity. Qed.

Lemma C4_witness :
  let analyze := Samples.analyzerReporting "echo hi" [] in
  let w := Samples.trackedWorld (RunExitError 7) OS.OpenFails in
  let run := runExec analyze Samples.sandboxOn Samples.sampleMarshal
               Samples.sampleUnmarshal ["echo"; "hi"] false "" in
  childRan w (run w).1.2 = true
  /\ exitStatus (Execute (run w).1.1) = 7
  /\ loggedError (run w).1.2 = false
  /\ (forall fault,
        (run (with_write w fault)).1.1 = (run w).1.1
        /\ (run (with_write w fault)).1.2 = (run w).1.2).
Proof.
  apply (C4_exit_code_is_the_childs
           (Samples.analyzerReporting "echo hi" [])
           Samples.sandboxOn Samples.sampleMarshal Samples.sampleUnmarshal
           "echo" ["hi"] false ""
           (Samples.trackedWorld (RunExitError 7) OS.OpenFails) 7
           eq_refl eq_refl).
  lia.
Defined.

(** C1, the code at a failing input.  The analyzer reports
    [DANGEROUS_DELETE_ROOT] (critical) for [rm -r /*]; with sandboxing
    enabled and mode [auto], an interactive run answered [y] starts
    [rm -r /*] itself as a child of the supervisor, and returns [nil].
    And [cat .env], reported as [DOTENV_FILE_READ] (high), is started
    the same way by a non-interactive run, without any question. *)
Theorem C1_mandatory_code_runs_on_host :
  let analyze :=
    Samples.analyzerReporting "rm -r /*" [Samples.deleteRoot] in
  let r := runExec analyze Samples.sandboxOn Samples.sampleMarshal
             Samples.sampleUnmarshal ["rm"; "-r"; "/*"] true ""
             (Samples.world "y" RunSuccess) in
  let analyze' :=
    Samples.analyzerReporting "cat .env" [Samples.dotenvRead] in
  let r' := runExec analyze' Samples.sandboxOn Samples.sampleMarshal
              Samples.sampleUnmarshal ["cat"; ".env"] false ""
              (Samples.world "" RunSuccess) in
  (hasMandatoryCode (findingsOf analyze Samples.sandboxOn ["rm"; "-r"; "/*"])
   = true
   /\ spawnedOnHost ["rm"; "-r"; "/*"] r.1.2
   /\ r.1.1 = None)
  /\ (hasMandatoryCode (findingsOf analyze' Samples.sandboxOn ["cat"; ".env"])
      = true
      /\ spawnedOnHost ["cat"; ".env"] r'.1.2
      /\ prompted r'.1.2 = false
      /\ r'.1.1 = None).
Proof.
  vm_compute. repeat split; try reflexivity.
  - do 10 right. left. reflexivity.
  - do 1 right. left. reflexivity.
Qed.

(** C2, the code at a failing input.  Sandboxing is disabled in the
    configuration and the analyzer reports [DANGEROUS_DELETE_ROOT]
    (critical) for [rm -r /*].  An interactive run answered [y] starts
    the command, and the supervisor exits with the child's code (here 0).
    A non-interactive run is refused with exit code 3, with a message
    that does not name the finding's code. *)
Theorem C2_mandatory_code_runs_without_sandbox :
  let analyze :=
    Samples.analyzerReporting "rm -r /*" [Samples.deleteRoot] in
  let r := runExec analyze Samples.sandboxOff Samples.sampleMarshal
             Samples.sampleUnmarshal ["rm"; "-r"; "/*"] true ""
             (Samples.world "y" RunSuccess) in
  let r' := runExec analyze Samples.sandboxOff Samples.sampleMarshal
              Samples.sampleUnmarshal ["rm"; "-r"; "/*"] false ""
              (Samples.world "" RunSuccess) in
  Config.Enabled (Config.Sandbox Samples.sandboxOff) = false
  /\ hasMandatoryCode
       (findingsOf analyze Samples.sandboxOff ["rm"; "-r"; "/*"]) = true
  /\ (spawnedOnHost ["rm"; "-r"; "/*"] r.1.2 /\ Execute r.1.1 = 0)
  /\ (r'.1.1
      = Some (ExitError
                "critical command blocked (use --interactive to approve)" 3)
      /\ spawned r'.1.2 = false).
Proof.
  vm_compute. repeat split; try reflexivity.
  do 10 right. left. reflexivity.
Qed.

End CmdProps.

(** ** The daemon's approval queue *)

Module DaemonFacts.

Import Logging Daemon.

Lemma inv_initial d : initial d -> Inv d.
Proof.
  intros (Hq & Hr & _ & Hc).
  constructor; unfold queued; rewrite ?Hq, ?Hr; simpl.
  - intros i buf H. rewrite lookup_empty in H. discriminate.
  - constructor.
  - intros c [].
  - intros i c H. destruct (Hc i _ H) as (? & ? & ?). discriminate.
  - intros i cmd args _ [].
  - intros i c H. destruct (Hc i _ H) as (? & ? & ?). discriminate.
Qed.

Lemma processCommand_replies c d :
  replies d !! Approved c = Some [] ->
  replies (processCommand c d) = <[Approved c := [true]]> (replies d).
Proof. intros H. unfold processCommand. simpl. rewrite H. reflexivity. Qed.

Lemma inv_receive d c rest :
  Inv d -> interceptCh d = c :: rest ->
  Inv (processCommand c
         (mkDaemon (session d) rest (replies d) (processing d)
                   (cancelled d) (stopped d) (calls d) (logs d))).
Proof.
  intros [I1 I2 I3 I4 I5 I6] Hq. unfold queued in *. rewrite Hq in *.
  simpl in I2. apply NoDup_cons in I2 as [Hnin Hnd].
  assert (Hc : replies d !! Approved c = Some [])
    by (apply I3; left; reflexivity).
  constructor; unfold queued; try rewrite processCommand_replies by exact Hc;
    simpl.
  - intros i buf H. lookup_cases (Approved c) i H.
    + injection H as <-. repeat constructor.
    + eapply I1; eauto.
  - exact Hnd.
  - intros c' Hin. rewrite lookup_insert_ne.
    + apply I3. right. exact Hin.
    + intros Heq. apply Hnin. rewrite Heq. apply list_elem_of_In.
      apply in_map. exact Hin.
  - intros i c' H. destruct (I4 i c' H) as (Ha & Hr & Hn).
    split; [exact Ha|]. split.
    + rewrite lookup_insert_ne; [exact Hr|]. intros Heq. apply Hn.
      left. exact Heq.
    + intros Hin. apply Hn. right. exact Hin.
  - intros i cmd args H Hin. eapply I5; eauto. right. exact Hin.
  - exact I6.
Qed.

Lemma inv_step d l d' : Inv d -> step d l = Some d' -> Inv d'.
Proof.
  intros HI Hstep. pose proof HI as [I1 I2 I3 I4 I5 I6].
  destruct l as [s| | | | |i now pid ppid uid|i|i|i]; simpl in Hstep.
  - injection Hstep as <-. constructor; assumption.
  - injection Hstep as <-. constructor; assumption.
  - injection Hstep as <-. constructor; assumption.
  - destruct (processing d && (cancelled d || stopped d)); [|discriminate].
    injection Hstep as <-. constructor; assumption.
  - destruct (processing d) eqn:Hp; [|discriminate].
    destruct (interceptCh d) as [|c rest] eqn:Hq; [discriminate|].
    injection Hstep as <-. rewrite <- Hp. apply inv_receive; assumption.
  - destruct (calls d !! i) as [[cmd args| | |]|] eqn:Hi; try discriminate.
    destruct (session d) as [s|].
    + injection Hstep as <-. unfold queued in *.
      constructor; unfold queued; simpl.
      * intros j buf H. lookup_cases i j H.
        -- injection H as <-. constructor.
        -- eapply I1; eauto.
      * exact I2.
      * intros c Hin. destruct (decide (i = Approved c)) as [->|Hne].
        -- apply lookup_insert_eq.
        -- rewrite lookup_insert_ne by exact Hne. apply I3. exact Hin.
      * intros j c H. lookup_cases i j H.
        -- injection H as <-. simpl.
           split; [reflexivity|]. split; [apply lookup_insert_eq|].
           eapply I5; eauto.
        -- destruct (I4 j c H) as (Ha & Hr & Hn).
           split; [exact Ha|]. split; [|exact Hn].
           rewrite lookup_insert_ne by congruence. exact Hr.
      * intros j cmd' args' H. lookup_cases i j H; [discriminate|].
        eapply I5; eauto.
      * intros j c H. lookup_cases i j H; [discriminate|].
        eapply I6; eauto.
    + injection Hstep as <-. unfold set_call.
      constructor; unfold queued; simpl; try assumption.
      * intros j c H. lookup_cases i j H; [discriminate|]. eapply I4; eauto.
      * intros j cmd' args' H. lookup_cases i j H; [discriminate|].
        eapply I5; eauto.
      * intros j c H. lookup_cases i j H; [discriminate|]. eapply I6; eauto.
  - destruct (calls d !! i) as [[|c| |]|] eqn:Hi; try discriminate.
    destruct (Nat.ltb _ _); [|discriminate].
    injection Hstep as <-.
    destruct (I4 i c Hi) as (Ha & Hr & Hn). unfold queued in *.
    constructor; unfold queued; simpl.
    + exact I1.
    + rewrite map_app. simpl. apply NoDup_app. split; [exact I2|].
      split; [|apply NoDup_singleton].
      intros x Hx Hx'. apply list_elem_of_In in Hx, Hx'.
      destruct Hx' as [<-|[]]. rewrite Ha in Hx. contradiction.
    + intros c' Hin. apply in_app_or in Hin as [Hin|[<-|[]]].
      * apply I3. exact Hin.
      * rewrite Ha. exact Hr.
    + intros j c' H. lookup_cases i j H; [discriminate|].
      destruct (I4 j c' H) as (Ha' & Hr' & Hn').
      split; [exact Ha'|]. split; [exact Hr'|].
      rewrite map_app. intros Hin. apply in_app_or in Hin as [Hin|[Heq|[]]].
      * contradiction.
      * congruence.
    + intros j cmd' args' H. lookup_cases i j H; [discriminate|].
      rewrite map_app. intros Hin. apply in_app_or in Hin as [Hin|[Heq|[]]].
      * eapply I5; eauto.
      * congruence.
    + intros j c' H. destruct (decide (i = j)) as [<-|Hne].
      * rewrite lookup_insert_eq in H. injection H as <-. exact Ha.
      * rewrite lookup_insert_ne in H by exact Hne. eapply I6; eauto.
  - destruct (calls d !! i) as [[| |c|]|] eqn:Hi; try discriminate.
    destruct (replies d !! Approved c) as [[|result rest]|] eqn:Hr;
      try discriminate.
    injection Hstep as <-.
    pose proof (I6 i c Hi) as Ha. subst i.
    constructor; unfold queued; simpl.
    + intros j buf H. lookup_cases (Approved c) j H.
      * injection H as <-. pose proof (I1 _ _ Hr) as HF.
        exact (Forall_inv_tail HF).
      * eapply I1; eauto.
    + exact I2.
    + intros c' Hin. pose proof (I3 c' Hin) as Hc'.
      rewrite lookup_insert_ne; [exact Hc'|].
      intros Heq. rewrite <- Heq, Hr in Hc'. discriminate.
    + intros j c' H. lookup_cases (Approved c) j H; [discriminate|].
      destruct (I4 j c' H) as (Ha' & Hr' & Hn').
      split; [exact Ha'|]. split; [|exact Hn'].
      rewrite lookup_insert_ne by congruence. exact Hr'.
    + intros j cmd' args' H. lookup_cases (Approved c) j H; [discriminate|].
      eapply I5; eauto.
    + intros j c' H. lookup_cases (Approved c) j H; [discriminate|].
      eapply I6; eauto.
  - destruct (calls d !! i) as [[| |c|]|] eqn:Hi; try discriminate.
    injection Hstep as <-.
    constructor; unfold queued; simpl; try assumption.
    + intros j c' H. lookup_cases i j H; [discriminate|]. eapply I4; eauto.
    + intros j cmd' args' H. lookup_cases i j H; [discriminate|].
      eapply I5; eauto.
    + intros j c' H. lookup_cases i j H; [discriminate|]. eapply I6; eauto.
Qed.

Lemma inv_reachable d : reachable d -> Inv d.
Proof.
  induction 1 as [d Hi|d l d' _ IH Hs];
    [apply inv_initial; exact Hi|eapply inv_step; eauto].
Qed.

Lemma reachable_steps ls : forall d d',
  reachable d -> steps d ls = Some d' -> reachable d'.
Proof.
  induction ls as [|l ls IH]; intros d d' Hr Hs; simpl in Hs.
  - injection Hs as <-. exact Hr.
  - destruct (step d l) as [d1|] eqn:E; [|discriminate].
    eapply IH; [|exact Hs]. eapply reachable_step; eauto.
Qed.

(** A call that has returned [false] did so through its timeout. *)
Lemma returned_false_by_timeout d l d' i :
  Inv d -> step d l = Some d' ->
  calls d' !! i = Some (Returned false) ->
  calls d !! i = Some (Returned false) \/ l = LTimeout i.
Proof.
  intros [I1 I2 I3 I4 I5 I6] Hstep Hret.
  destruct l as [s| | | | |j now pid ppid uid|j|j|j]; simpl in Hstep.
  - injection Hstep as <-. left. exact Hret.
  - injection Hstep as <-. left. exact Hret.
  - injection Hstep as <-. left. exact Hret.
  - destruct (processing d && (cancelled d || stopped d)); [|discriminate].
    injection Hstep as <-. left. exact Hret.
  - destruct (processing d); [|discriminate].
    destruct (interceptCh d) as [|c rest]; [discriminate|].
    injection Hstep as <-. left. exact Hret.
  - destruct (calls d !! j) as [[cmd args| | |]|] eqn:Hj; try discriminate.
    destruct (session d); injection Hstep as <-; simpl in Hret;
      lookup_cases j i Hret; try discriminate; left; exact Hret.
  - destruct (calls d !! j) as [[|c| |]|] eqn:Hj; try discriminate.
    destruct (Nat.ltb _ _); [|discriminate].
    injection Hstep as <-. simpl in Hret.
    lookup_cases j i Hret; [discriminate|]. left. exact Hret.
  - destruct (calls d !! j) as [[| |c|]|] eqn:Hj; try discriminate.
    destruct (replies d !! Approved c) as [[|result rest]|] eqn:Hr;
      try discriminate.
    injection Hstep as <-. simpl in Hret.
    lookup_cases j i Hret; [|left; exact Hret].
    pose proof (Forall_inv (I1 _ _ Hr)) as Ht. simpl in Ht.
    congruence.
  - destruct (calls d !! j) as [[| |c|]|] eqn:Hj; try discriminate.
    injection Hstep as <-. simpl in Hret.
    destruct (decide (j = i)) as [->|Hne]; [right; reflexivity|].
    rewrite lookup_insert_ne in Hret by exact Hne. left. exact Hret.
Qed.

(** C10.  In every state the daemon can reach: when [processCommands]
    dequeues a command, it puts [true] on that command's reply channel,
    whatever the command is; every value on a reply channel is [true];
    and a call of [InterceptCommand] that returns [false] does so in its
    timeout case.  (Without an active session the call returns [true]
    at once.) *)
Theorem C10_daemon_approves_every_dequeued_command
  (d : Daemon) (l : Label) (d' : Daemon) :
  reachable d ->
  step d l = Some d' ->
  (forall c rest,
      l = LProcReceive -> interceptCh d = c :: rest ->
      replies d' !! Approved c = Some [true])
  /\ (forall i buf, replies d' !! i = Some buf -> Forall (eq true) buf)
  /\ (forall i,
        calls d' !! i = Some (Returned false) ->
        calls d !! i = Some (Returned false) \/ l = LTimeout i)
  /\ (forall i now pid ppid uid,
        l = LCall i now pid ppid uid -> session d = None ->
        calls d' !! i = Some (Returned true)).
Proof.
  intros Hr Hstep. pose proof (inv_reachable d Hr) as HI.
  pose proof (inv_step d l d' HI Hstep) as HI'.
  split; [|split; [|split]].
  - intros c rest -> Hq. simpl in Hstep. rewrite Hq in Hstep.
    destruct (processing d); [|discriminate]. injection Hstep as <-.
    rewrite processCommand_replies.
    + apply lookup_insert_eq.
    + simpl. apply (inv_queue_empty d HI). rewrite Hq. left. reflexivity.
  - exact (inv_replies_true d' HI').
  - intros i. apply returned_false_by_timeout; assumption.
  - intros i now pid ppid uid -> Hs. simpl in Hstep.
    destruct (calls d !! i) as [[cmd args| | |]|]; try discriminate.
    rewrite Hs in Hstep. injection Hstep as <-. simpl.
    apply lookup_insert_eq.
Qed.

Lemma daemon0_initial : initial Samples.daemon0.
Proof.
  repeat split. intros i c H. unfold Samples.daemon0 in H. simpl in H.
  destruct (decide (0%nat = i)) as [<-|H0].
  - rewrite lookup_insert_eq in H. injection H as <-. eauto.
  - rewrite lookup_insert_ne in H by exact H0.
    destruct (decide (1%nat = i)) as [<-|H1].
    + rewrite lookup_insert_eq in H. injection H as <-. eauto.
    + rewrite lookup_insert_ne in H by exact H1.
      rewrite lookup_empty in H. discriminate.
Qed.

Lemma daemonWaiting_reachable : reachable Samples.daemonWaiting.
Proof.
  apply (reachable_steps
           [LCall 0 1700000000000000005 4242 4241 1000; LSend 0]
           Samples.daemon0).
  - apply reachable_initial. exact daemon0_initial.
  - vm_compute. reflexivity.
Qed.

Lemma daemonWaiting_receive :
  step Samples.daemonWaiting LProcReceive = Some Samples.daemonReplied.
Proof. vm_compute. reflexivity. Qed.

Lemma C10_witness :
  let d := Samples.daemonWaiting in
  let d' := Samples.daemonReplied in
  let l := LProcReceive in
  (forall c rest,
      l = LProcReceive -> interceptCh d = c :: rest ->
      replies d' !! Approved c = Some [true])
  /\ (forall i buf, replies d' !! i = Some buf -> Forall (eq true) buf)
  /\ (forall i,
        calls d' !! i = Some (Returned false) ->
        calls d !! i = Some (Returned false) \/ l = LTimeout i)
  /\ (forall i now pid ppid uid,
        l = LCall i now pid ppid uid -> session d = None ->
        calls d' !! i = Some (Returned true)).
Proof.
  exact (C10_daemon_approves_every_dequeued_command
           Samples.daemonWaiting LProcReceive Samples.daemonReplied
           daemonWaiting_reachable daemonWaiting_receive).
Defined.

End DaemonFacts.

(* ===================================================================== *)
(** * Further properties *)
(* ===================================================================== *)

(** ** The ledger: reading back, sequences of updates, failed writes *)

Module LedgerLaws.

Import OS Session Ledger SessionFacts.

Lemma add_wrap x y : GoInt.add (GoInt.wrap x) y = GoInt.wrap (x + y).
Proof.
  unfold GoInt.add, GoInt.wrap.
  replace ((x - GoInt.min_int) mod 2 ^ GoInt.bits + GoInt.min_int + y
           - GoInt.min_int)
    with ((x - GoInt.min_int) mod 2 ^ GoInt.bits + y) by lia.
  rewrite Z.add_mod_idemp_l by (unfold GoInt.bits; lia).
  f_equal. f_equal. lia.
Qed.

Lemma extLoop_suffix before after c r :
  extLoop before after = String c r ->
  exists pre,
    (rev before ++ after)%list
    = (pre ++ list_ascii_of_string (String c r))%list.
Proof.
  revert after. induction before as [|b before IH]; intros after H.
  - discriminate.
  - simpl in H. destruct (Ascii.eqb b "/"); [discriminate|].
    destruct (Ascii.eqb b ".").
    + exists (rev before). rewrite <- H. simpl.
      rewrite list_ascii_of_string_of_list_ascii, <- app_assoc. reflexivity.
    + destruct (IH _ H) as [pre Hpre]. exists pre.
      simpl. rewrite <- app_assoc. exact Hpre.
Qed.

Lemma append_cons c (a b : string) :
  (String c a ++ b)%string = String c (a ++ b).
Proof. reflexivity. Qed.

Lemma length_append (a b : string) :
  String.length (a ++ b) = (String.length a + String.length b)%nat.
Proof.
  induction a as [|c a IH]; [reflexivity|].
  rewrite append_cons. cbn [String.length]. rewrite IH. reflexivity.
Qed.

Lemma substring_prefix (a b : string) :
  String.substring 0 (String.length (a ++ b) - String.length b) (a ++ b) = a.
Proof.
  rewrite length_append, Nat.add_sub.
  induction a as [|c a IH].
  - destruct b; reflexivity.
  - rewrite append_cons. cbn [String.length substring]. rewrite IH.
    reflexivity.
Qed.

(** An entry that [List] goes on to load is named by the identifier
    [List] computes for it, followed by [.json]. *)
Lemma sessionIDOf_name e :
  Ext (Name e) = ".json" -> (sessionIDOf e ++ ".json")%string = Name e.
Proof.
  unfold Ext, sessionIDOf. intros H.
  destruct (extLoop_suffix _ _ _ _ H) as [pre Hpre].
  rewrite rev_involutive, app_nil_r in Hpre.
  assert (Hn : Name e = (string_of_list_ascii pre ++ ".json")%string).
  { rewrite <- (string_of_list_ascii_of_string (Name e)), Hpre.
    clear. induction pre as [|c pre IH]; [reflexivity|].
    cbn [app string_of_list_ascii]. rewrite append_cons, IH.
    reflexivity. }
  rewrite Hn.
  change 5%nat with (String.length ".json").
  rewrite substring_prefix. reflexivity.
Qed.

Section WithJSON.

Variable marshal : Session -> string + string.
Variable unmarshal : string -> Session + string.

Lemma ReadFile_files d path : files (ReadFile d path).1 = files d.
Proof. unfold ReadFile. destruct (files d !! path); reflexivity. Qed.

Lemma Load_files m id d : files (Load unmarshal m id d).1 = files d.
Proof.
  unfold Load. pose proof (ReadFile_files d (sessionPath m id)) as H.
  destruct (ReadFile d (sessionPath m id)) as [d' [data|err]]; simpl in *;
    [destruct (unmarshal data)|]; exact H.
Qed.

Lemma Load_inl_iff m id d s :
  (Load unmarshal m id d).2 = inl s
  <-> exists data, files d !! sessionPath m id = Some data
                   /\ unmarshal data = inl s.
Proof.
  unfold Load, ReadFile.
  destruct (files d !! sessionPath m id) as [data|]; simpl.
  - destruct (unmarshal data) as [s'|err] eqn:E; simpl; split.
    + intros [= ->]. eauto.
    + intros (data' & [= <-] & H). congruence.
    + discriminate.
    + intros (data' & [= <-] & H). congruence.
  - split; [discriminate|]. intros (data & H & _). discriminate.
Qed.

Lemma apply_update_ID m s u d fault :
  ID (apply_update marshal m s u d fault).1.1 = ID s.
Proof.
  destruct u as [cmd|op|now]; simpl.
  - unfold AddCommand. destruct (save marshal m _ d fault) as [d' err].
    simpl. repeat match goal with |- context [if ?b then _ else _] =>
                                    destruct b end; reflexivity.
  - unfold AddFileOperation. destruct (save marshal m _ d fault) as [d' err].
    simpl. destruct (op_Allowed op); reflexivity.
  - rewrite End_session. reflexivity.
Qed.

Lemma apply_update_save m s u d fault :
  ((apply_update marshal m s u d fault).1.2,
   (apply_update marshal m s u d fault).2)
  = save marshal m (apply_update marshal m s u d fault).1.1 d fault.
Proof.
  destruct u as [cmd|op|now]; simpl;
    [unfold AddCommand | unfold AddFileOperation | unfold End];
    match goal with
    | |- context [save marshal m ?X d fault] => generalize X
    end;
    intros X; destruct (save marshal m X d fault) as [d' err] eqn:E;
    simpl; rewrite E; reflexivity.
Qed.

Lemma save_no_error m s d fault :
  (save marshal m s d fault).2 = None ->
  exists data, marshal s = inl data /\ fault = WriteOK
               /\ files (save marshal m s d fault).1
                  = <[sessionPath m (ID s) := data]> (files d).
Proof.
  unfold save. destruct (marshal s) as [data|err]; [|discriminate].
  destruct fault; simpl; try discriminate. eauto.
Qed.

Lemma update_Load m s u d fault :
  (apply_update marshal m s u d fault).2 = None ->
  (forall data,
      marshal (apply_update marshal m s u d fault).1.1 = inl data ->
      unmarshal data = inl (apply_update marshal m s u d fault).1.1) ->
  exists data,
    marshal (apply_update marshal m s u d fault).1.1 = inl data
    /\ files (apply_update marshal m s u d fault).1.2
       = <[sessionPath m (ID s) := data]> (files d)
    /\ (Load unmarshal m (ID s) (apply_update marshal m s u d fault).1.2).2
       = inl (apply_update marshal m s u d fault).1.1.
Proof.
  intros Herr Hcodec.
  pose proof (apply_update_save m s u d fault) as Hs.
  pose proof (apply_update_ID m s u d fault) as Hid.
  set (s' := (apply_update marshal m s u d fault).1.1) in *.
  assert (He : (save marshal m s' d fault).2 = None)
    by (rewrite <- Hs; exact Herr).
  destruct (save_no_error m s' d fault He) as (data & Hm & _ & Hf).
  replace ((apply_update marshal m s u d fault).1.2)
    with ((save marshal m s' d fault).1) by (rewrite <- Hs; reflexivity).
  rewrite Hid in Hf.
  exists data. split; [exact Hm|]. split; [exact Hf|].
  apply Load_inl_iff. exists data. split; [|apply Hcodec; exact Hm].
  rewrite Hf. apply lookup_insert_eq.
Qed.

(** X2.  Round trip through the disk: when an update ([AddCommand],
    [AddFileOperation], [End]) returns no error, the session's file holds
    the encoded updated session, and loading the session by its
    identifier from the disk the update leaves gives back the updated
    session, provided the JSON decoder reads back what the encoder wrote
    for it. *)
Theorem update_then_Load
  (m : Manager) (s : Session) (u : Update) (d : Disk) (fault : WriteFault) :
  let r := apply_update marshal m s u d fault in
  r.2 = None ->
  (forall data, marshal r.1.1 = inl data -> unmarshal data = inl r.1.1) ->
  (exists data, marshal r.1.1 = inl data
                /\ files r.1.2 !! sessionPath m (ID s) = Some data)
  /\ (Load unmarshal m (ID s) r.1.2).2 = inl r.1.1.
Proof.
  intros r Herr Hcodec. subst r.
  destruct (update_Load m s u d fault Herr Hcodec) as (data & Hm & Hf & Hl).
  split; [|exact Hl].
  exists data. split; [exact Hm|]. rewrite Hf. apply lookup_insert_eq.
Qed.

(** X3.  A session that [Start] returns is a new one: its identifier is
    ["session-"] followed by the reading of the clock that
    [generateSessionID] took, in nanoseconds; its start time is the
    reading of the clock taken after that; it has no commands, no file
    operations, score and violations 0, and is not ended.  Its file
    then holds the encoded session, and loading the identifier gives the
    session back when the decoder reads back the encoder. *)
Theorem Start_gives_a_fresh_persisted_session
  (m : Manager) (agentName workspace : string) (idNow now : Z) (d : Disk)
  (fault : WriteFault) (s : Session) :
  (Start marshal m agentName workspace idNow now d fault).2 = inl s ->
  (forall data, marshal s = inl data -> unmarshal data = inl s) ->
  s = mkSession ("session-" ++ Strconv.FormatInt idNow) agentName workspace
                now None [] [] 0 0 ∅
  /\ (exists data,
        marshal s = inl data
        /\ files (Start marshal m agentName workspace idNow now d fault).1
             !! sessionPath m (ID s) = Some data)
  /\ (Load unmarshal m (ID s)
        (Start marshal m agentName workspace idNow now d fault).1).2
     = inl s.
Proof.
  unfold Start. intros H Hcodec.
  change ("session-" ++ Strconv.FormatInt idNow)%string
    with (generateSessionID idNow).
  set (s0 := mkSession (generateSessionID idNow) agentName workspace now
                       None [] [] 0 0 ∅) in *.
  destruct (save marshal m s0 d fault) as [d' [err|]] eqn:E;
    [discriminate|].
  simpl in H. injection H as <-. split; [reflexivity|].
  assert (He : (save marshal m s0 d fault).2 = None) by (rewrite E; reflexivity).
  destruct (save_no_error m s0 d fault He) as (data & Hm & _ & Hf).
  rewrite E in Hf. simpl in Hf.
  assert (Hl : files d' !! sessionPath m (ID s0) = Some data)
    by (rewrite Hf; apply lookup_insert_eq).
  split; [exists data; auto|].
  apply Load_inl_iff.
  exists data. auto.
Qed.

Lemma AddCommand_counters m s cmd d fault :
  RiskScore (AddCommand marshal m s cmd d fault).1.1
  = GoInt.add (RiskScore s) (scoreOf (cmd_RiskLevel cmd))
    \/ (scoreOf (cmd_RiskLevel cmd) = 0
        /\ RiskScore (AddCommand marshal m s cmd d fault).1.1 = RiskScore s).
Proof.
  rewrite AddCommand_RiskScore. unfold scoreOf.
  repeat match goal with |- context [if ?b then _ else _] =>
                           destruct b end; auto.
Qed.

Lemma AddCommand_violations m s cmd d fault :
  Violations (AddCommand marshal m s cmd d fault).1.1
  = GoInt.add (Violations s) (violationOf (cmd_RiskLevel cmd))
    \/ (violationOf (cmd_RiskLevel cmd) = 0
        /\ Violations (AddCommand marshal m s cmd d fault).1.1
           = Violations s).
Proof.
  rewrite AddCommand_Violations. unfold violationOf.
  repeat match goal with |- context [if ?b then _ else _] =>
                           destruct b end; auto.
Qed.

Lemma AddCommands_spec m cmds : forall s d a v,
  RiskScore s = GoInt.wrap a -> Violations s = GoInt.wrap v ->
  let s' := (AddCommands marshal m s cmds d).1 in
  Commands s' = (Commands s ++ map fst cmds)%list
  /\ FileOps s' = FileOps s
  /\ RiskScore s'
     = GoInt.wrap (a + sumZ (map (fun c => scoreOf (cmd_RiskLevel c.1)) cmds))
  /\ Violations s'
     = GoInt.wrap
         (v + sumZ (map (fun c => violationOf (cmd_RiskLevel c.1)) cmds)).
Proof.
  induction cmds as [|[cmd fault] rest IH]; intros s d a v Ha Hv; simpl.
  - rewrite app_nil_r, !Z.add_0_r. auto.
  - pose proof (AddCommand_session marshal m s cmd d fault) as [Hc Hf].
    pose proof (AddCommand_counters m s cmd d fault) as Hr.
    pose proof (AddCommand_violations m s cmd d fault) as Hvi.
    destruct (AddCommand marshal m s cmd d fault) as [[s1 d1] e1].
    simpl in Hc, Hf, Hr, Hvi.
    destruct (IH s1 d1 (a + scoreOf (cmd_RiskLevel cmd))
                 (v + violationOf (cmd_RiskLevel cmd)))
      as (Hc' & Hf' & Hr' & Hv').
    + destruct Hr as [Hr|[Hz Hr]]; rewrite Hr, Ha.
      * apply add_wrap.
      * rewrite Hz, Z.add_0_r. reflexivity.
    + destruct Hvi as [Hvi|[Hz Hvi]]; rewrite Hvi, Hv.
      * apply add_wrap.
      * rewrite Hz, Z.add_0_r. reflexivity.
    + rewrite Hc', Hf', Hr', Hv', Hc, Hf, <- app_assoc, !Z.add_assoc.
      auto.
Qed.

(** X4.  A run of [AddCommand] calls on a session appends the commands
    in the order of the calls and leaves the file operations alone; the
    score ends as the old score plus 100 for every critical, 50 for every
    high and 10 for every medium command, and the violations as the old
    count plus the number of critical and high commands (both reduced
    to the range of [int]), whether the writes succeed or fail. *)
Theorem AddCommands_accumulate
  (m : Manager) (s : Session) (cmds : list (Command * WriteFault))
  (d : Disk) :
  GoInt.in_range (RiskScore s) ->
  GoInt.in_range (Violations s) ->
  let s' := (AddCommands marshal m s cmds d).1 in
  Commands s' = (Commands s ++ map fst cmds)%list
  /\ FileOps s' = FileOps s
  /\ RiskScore s'
     = GoInt.wrap (RiskScore s
                   + sumZ (map (fun c => scoreOf (cmd_RiskLevel c.1)) cmds))
  /\ Violations s'
     = GoInt.wrap
         (Violations s
          + sumZ (map (fun c => violationOf (cmd_RiskLevel c.1)) cmds)).
Proof.
  intros Hr Hv. apply AddCommands_spec;
    symmetry; apply GoIntFacts.wrap_in_range; assumption.
Qed.

Lemma AddCommand_session_indep m s cmd d1 d2 f1 f2 :
  (AddCommand marshal m s cmd d1 f1).1.1
  = (AddCommand marshal m s cmd d2 f2).1.1.
Proof.
  unfold AddCommand.
  destruct (save marshal m _ d1 f1) as [? ?].
  destruct (save marshal m _ d2 f2) as [? ?]. reflexivity.
Qed.

(** X5.  [AddCommand] changes the session it is given before it writes:
    the session that results is the same for every fate of the write,
    and the call reports an error exactly when the session cannot be
    encoded or the write does not succeed.  So a caller that repeats a
    call that failed on the write ends with the command twice in the
    session. *)
Theorem AddCommand_updates_before_it_writes
  (m : Manager) (s : Session) (cmd : Command) (d d' : Disk)
  (fault fault' : WriteFault) :
  (AddCommand marshal m s cmd d fault).1.1
  = (AddCommand marshal m s cmd d' fault').1.1
  /\ ((AddCommand marshal m s cmd d fault).2 = None
      <-> (exists data,
              marshal (AddCommand marshal m s cmd d fault).1.1 = inl data)
          /\ fault = WriteOK)
  /\ (fault <> WriteOK ->
      (AddCommand marshal m s cmd d fault).2 <> None
      /\ Commands (AddCommand marshal m
                     (AddCommand marshal m s cmd d fault).1.1 cmd
                     (AddCommand marshal m s cmd d fault).1.2 WriteOK).1.1
         = (Commands s ++ [cmd; cmd])%list).
Proof.
  assert (Hsame : forall d1 f1 d2 f2,
             (AddCommand marshal m s cmd d1 f1).1.1
             = (AddCommand marshal m s cmd d2 f2).1.1).
  { intros d1 f1 d2 f2. unfold AddCommand.
    destruct (save marshal m _ d1 f1) as [? ?].
    destruct (save marshal m _ d2 f2) as [? ?]. reflexivity. }
  assert (Herr : (AddCommand marshal m s cmd d fault).2 = None
                 <-> (exists data,
                         marshal (AddCommand marshal m s cmd d fault).1.1
                         = inl data)
                     /\ fault = WriteOK).
  { pose proof (apply_update_save m s (UAddCommand cmd) d fault) as Hs.
    simpl in Hs.
    set (s' := (AddCommand marshal m s cmd d fault).1.1) in *.
    assert (He : (AddCommand marshal m s cmd d fault).2
                 = (save marshal m s' d fault).2)
      by (rewrite <- Hs; reflexivity).
    rewrite He. unfold save.
    destruct (marshal s') as [data|err]; simpl.
    - destruct fault; simpl; split; try discriminate;
        try (intros [_ ?]; discriminate); eauto.
    - split; [discriminate|]. intros [[data H] _]. discriminate. }
  split; [apply Hsame|]. split; [exact Herr|].
  intros Hf. split.
  - intros H. apply Herr in H as [_ H]. contradiction.
  - destruct (AddCommand_session marshal m
                (AddCommand marshal m s cmd d fault).1.1 cmd
                (AddCommand marshal m s cmd d fault).1.2 WriteOK) as [-> _].
    destruct (AddCommand_session marshal m s cmd d fault) as [-> _].
    rewrite <- app_assoc. reflexivity.
Qed.

(** X6.  [End] sets the end time and nothing else.  It does not close
    the session for the ledger: a command added afterwards is appended
    and counted as before, the end time stays, and a second [End]
    replaces the end time. *)
Theorem End_marks_but_does_not_close
  (m : Manager) (s : Session) (cmd : Command) (now now' : Z)
  (d : Disk) (fault : WriteFault) :
  let s1 := (End marshal m s now d fault).1.1 in
  let s2 := (AddCommand marshal m s1 cmd d fault).1.1 in
  let s3 := (End marshal m s2 now' d fault).1.1 in
  s1 = set_EndTime s (Some now)
  /\ EndTime s2 = Some now
  /\ Commands s2 = (Commands s ++ [cmd])%list
  /\ RiskScore s2 = RiskScore (AddCommand marshal m s cmd d fault).1.1
  /\ Violations s2 = Violations (AddCommand marshal m s cmd d fault).1.1
  /\ EndTime s3 = Some now'.
Proof.
  intros s1 s2 s3. subst s3 s2 s1. rewrite !End_session.
  split; [reflexivity|].
  assert (Het : forall t, EndTime (AddCommand marshal m t cmd d fault).1.1
                          = EndTime t).
  { intros t. unfold AddCommand.
    destruct (save marshal m _ d fault) as [? ?]. simpl.
    repeat match goal with |- context [if ?b then _ else _] =>
                             destruct b end; reflexivity. }
  rewrite Het.
  destruct (AddCommand_session marshal m (set_EndTime s (Some now)) cmd d fault)
    as [-> _].
  rewrite !AddCommand_RiskScore, !AddCommand_Violations.
  repeat split; reflexivity.
Qed.

Lemma listLoop_spec m fs entries :
  forall d, files d = fs ->
  let r := listLoop unmarshal m entries d in
  files r.1.1 = fs
  /\ r.2 = omap (fun e =>
             if isSessionFile e then
               match fs !! OS.Join (sessionDir m) (Name e) with
               | Some data =>
                   match unmarshal data with
                   | inl s => Some s
                   | inr _ => None
                   end
               | None => None
               end
             else None) entries
  /\ (length r.1.2 + length r.2 = length (filter isSessionFile entries))%nat
  /\ Forall (fun w => Logging.level w = Logging.Warn
                      /\ Logging.message w = "failed to load session")
       r.1.2.
Proof.
  induction entries as [|e entries IH]; intros d Hd; cbv zeta.
  - simpl. repeat match goal with |- _ /\ _ => split end; auto.
  - cbn [listLoop omap list_omap]. rewrite filter_cons.
    assert (Hs : IsDir e || negb (String.eqb (Ext (Name e)) ".json")
                 = negb (isSessionFile e))
      by (unfold isSessionFile; rewrite negb_involutive; reflexivity).
    rewrite Hs. pose proof (eq_refl (isSessionFile e)) as E.
    unfold isSessionFile at 2 in E.
    destruct (isSessionFile e); cbn [negb].
    + rewrite decide_True by exact I.
      symmetry in E.
      apply negb_true_iff, orb_false_elim in E. destruct E as [_ E].
      apply negb_false_iff, String.eqb_eq in E.
      pose proof (Load_files m (sessionIDOf e) d) as Hf.
      pose proof (Load_inl_iff m (sessionIDOf e) d) as Hl.
      unfold sessionPath in Hl. rewrite (sessionIDOf_name e E), Hd in Hl.
      destruct (Load unmarshal m (sessionIDOf e) d) as [d' [s|err]];
        simpl in Hf, Hl.
      * destruct (proj1 (Hl s) eq_refl) as (data & -> & ->).
        specialize (IH d' (eq_trans Hf Hd)). cbv zeta in IH.
        destruct (listLoop unmarshal m entries d') as [[d'' warns] sessions].
        simpl in *. destruct IH as (H1 & H2 & H3 & H4).
        repeat match goal with |- _ /\ _ => split end; auto.
        -- rewrite H2. reflexivity.
        -- lia.
      * assert (Hnone :
                  match fs !! OS.Join (sessionDir m) (Name e) with
                  | Some data =>
                      match unmarshal data with
                      | inl s => Some s
                      | inr _ => None
                      end
                  | None => None
                  end = None).
        { destruct (fs !! OS.Join (sessionDir m) (Name e)) as [data|] eqn:Ef;
            [|reflexivity].
          destruct (unmarshal data) as [s|] eqn:Eu; [|reflexivity].
          assert (H : @inr Session string err = inl s)
            by (apply Hl; eauto). discriminate. }
        rewrite Hnone.
        specialize (IH d' (eq_trans Hf Hd)). cbv zeta in IH.
        destruct (listLoop unmarshal m entries d') as [[d'' warns] sessions].
        simpl in *. destruct IH as (H1 & H2 & H3 & H4).
        repeat match goal with |- _ /\ _ => split end; auto; lia.
    + rewrite decide_False by (intros []). apply IH, Hd.
Qed.

(** X15.  [List] returns, in the order of the directory, the sessions of
    the entries that are not directories, have the extension [.json],
    and whose own file exists and parses; the file read for an entry is
    the entry itself.  An entry that fails to load does not fail the
    listing: it is skipped with one warning.  [List] changes no file.
    Only a failure to read the directory is returned as an error, and
    then nothing is read. *)
Theorem List_loads_the_json_entries
  (m : Manager) (entries : list DirEntry) (d : Disk) :
  let r := List unmarshal m (inl entries) d in
  r.2 = inl (omap (fun e =>
               if isSessionFile e then
                 match files d !! OS.Join (sessionDir m) (Name e) with
                 | Some data =>
                     match unmarshal data with
                     | inl s => Some s
                     | inr _ => None
                     end
                 | None => None
                 end
               else None) entries)
  /\ files r.1.1 = files d
  /\ (exists sessions,
        r.2 = inl sessions
        /\ (length r.1.2 + length sessions
            = length (filter isSessionFile entries))%nat)
  /\ Forall (fun w => Logging.level w = Logging.Warn
                      /\ Logging.message w = "failed to load session")
       r.1.2
  /\ (forall err,
        List unmarshal m (inr err) d
        = (d, [], inr ("read session directory: " ++ err))).
Proof.
  cbv zeta. unfold List.
  pose proof (listLoop_spec m (files d) entries d eq_refl) as H.
  cbv zeta in H.
  destruct (listLoop unmarshal m entries d) as [[d' warns] sessions].
  simpl in *. destruct H as (H1 & H2 & H3 & H4).
  repeat match goal with |- _ /\ _ => split end; auto.
  - rewrite H2. reflexivity.
  - eauto.
Qed.

End WithJSON.

Lemma update_then_Load_witness :
  let marshal := Samples.sampleMarshal in
  let s' := (AddCommand marshal Samples.manager Samples.freshSession
               (Samples.commandOfRisk "high") Samples.persistedDisk
               WriteOK).1.1 in
  let r := apply_update marshal Samples.manager Samples.freshSession
             (UAddCommand (Samples.commandOfRisk "high"))
             Samples.persistedDisk WriteOK in
  (exists data,
      marshal r.1.1 = inl data
      /\ files r.1.2 !! sessionPath Samples.manager (ID Samples.freshSession)
         = Some data)
  /\ (Load (MoreSamples.unmarshalTo s') Samples.manager
        (ID Samples.freshSession) r.1.2).2 = inl r.1.1.
Proof.
  intros marshal s' r.
  apply (update_then_Load marshal (MoreSamples.unmarshalTo s')
           Samples.manager Samples.freshSession
           (UAddCommand (Samples.commandOfRisk "high"))
           Samples.persistedDisk WriteOK).
  - reflexivity.
  - intros data _. reflexivity.
Defined.

Lemma Start_witness :
  let marshal := Samples.sampleMarshal in
  let s := mkSession "session-1700000000000000000" "cursor" "/w"
             1700000000000002641 None [] [] 0 0 ∅ in
  let r := Start marshal Samples.manager "cursor" "/w" 1700000000000000000
             1700000000000002641 Samples.emptyDisk WriteOK in
  s = mkSession ("session-" ++ Strconv.FormatInt 1700000000000000000)
        "cursor" "/w" 1700000000000002641 None [] [] 0 0 ∅
  /\ (exists data,
        marshal s = inl data
        /\ files r.1 !! sessionPath Samples.manager (ID s) = Some data)
  /\ (Load (MoreSamples.unmarshalTo s) Samples.manager (ID s) r.1).2 = inl s.
Proof.
  intros marshal s r.
  apply (Start_gives_a_fresh_persisted_session marshal
           (MoreSamples.unmarshalTo s) Samples.manager "cursor" "/w"
           1700000000000000000 1700000000000002641 Samples.emptyDisk
           WriteOK s).
  - reflexivity.
  - intros data _. reflexivity.
Defined.

Lemma AddCommands_witness :
  let s' := (AddCommands Samples.sampleMarshal Samples.manager
               Samples.freshSession
               [(Samples.commandOfRisk "critical", WriteOK);
                (Samples.commandOfRisk "low", OpenFails);
                (Samples.commandOfRisk "medium", WriteOK)]
               Samples.emptyDisk).1 in
  Commands s'
  = (Commands Samples.freshSession
     ++ [Samples.commandOfRisk "critical"; Samples.commandOfRisk "low";
         Samples.commandOfRisk "medium"])%list
  /\ FileOps s' = FileOps Samples.freshSession
  /\ RiskScore s' = GoInt.wrap (0 + (100 + (0 + (10 + 0))))
  /\ Violations s' = GoInt.wrap (0 + (1 + (0 + (0 + 0)))).
Proof.
  apply (AddCommands_accumulate Samples.sampleMarshal Samples.manager
           Samples.freshSession
           [(Samples.commandOfRisk "critical", WriteOK);
            (Samples.commandOfRisk "low", OpenFails);
            (Samples.commandOfRisk "medium", WriteOK)]
           Samples.emptyDisk);
    unfold GoInt.in_range, GoInt.min_int, GoInt.max_int, GoInt.bits;
    simpl; lia.
Defined.

End LedgerLaws.

(** ** The exec pipeline: risk level, trace, exit codes, the record *)

Module PipelineLaws.

Import Analyzer Logging Cmd CmdFacts Pipeline.

Lemma severityRank_cases s :
  severityRank s = 0 \/ severityRank s = 1 \/ severityRank s = 2
  \/ severityRank s = 3.
Proof.
  unfold severityRank.
  repeat match goal with |- context [if ?b then _ else _] =>
                           destruct b end; auto.
Qed.

Lemma severityRank_critical s : severityRank s = 3 <-> s = "critical".
Proof.
  unfold severityRank. destruct (String.eqb_spec s "critical") as [->|Hn].
  - tauto.
  - repeat match goal with |- context [if ?b then _ else _] =>
                             destruct b end; split; intros H;
      try discriminate; contradiction.
Qed.

Lemma levelOfRank_valid r : validSeverity (levelOfRank r).
Proof.
  unfold levelOfRank, validSeverity.
  repeat match goal with |- context [if ?b then _ else _] =>
                           destruct b end; auto.
Qed.

Lemma raiseRisk_rank acc f :
  validSeverity acc ->
  raiseRisk acc f
  = levelOfRank (Z.max (severityRank acc) (severityRank (Severity f))).
Proof.
  unfold raiseRisk, severityRank.
  intros [-> | [-> | [-> | ->]]];
    destruct (String.eqb (Severity f) "critical"),
             (String.eqb (Severity f) "high"),
             (String.eqb (Severity f) "medium"); reflexivity.
Qed.

Lemma maxRank_cases fs :
  maxRank fs = 0 \/ maxRank fs = 1 \/ maxRank fs = 2 \/ maxRank fs = 3.
Proof.
  induction fs as [|f fs IH]; simpl; [auto|].
  destruct (severityRank_cases (Severity f)) as [H|[H|[H|H]]];
    destruct IH as [H'|[H'|[H'|H']]]; rewrite H, H'; simpl; auto.
Qed.

Lemma fold_raiseRisk_rank fs : forall acc,
  validSeverity acc ->
  fold_left raiseRisk fs acc
  = levelOfRank (Z.max (severityRank acc) (maxRank fs)).
Proof.
  induction fs as [|f fs IH]; intros acc Hacc; simpl.
  - destruct Hacc as [-> | [-> | [-> | ->]]]; reflexivity.
  - rewrite IH, raiseRisk_rank by
      (try rewrite raiseRisk_rank by exact Hacc;
       try apply levelOfRank_valid; exact Hacc).
    destruct (severityRank_cases acc) as [Ha|[Ha|[Ha|Ha]]];
      destruct (severityRank_cases (Severity f)) as [Hf|[Hf|[Hf|Hf]]];
      destruct (maxRank_cases fs) as [Hm|[Hm|[Hm|Hm]]];
      rewrite Ha, Hf, Hm; reflexivity.
Qed.

Lemma riskLevelOf_closed fs : riskLevelOf fs = levelOfRank (maxRank fs).
Proof.
  unfold riskLevelOf. rewrite fold_raiseRisk_rank by (left; reflexivity).
  destruct (maxRank_cases fs) as [Hm|[Hm|[Hm|Hm]]]; rewrite Hm; reflexivity.
Qed.

Lemma maxRank_perm fs fs' : Permutation fs fs' -> maxRank fs = maxRank fs'.
Proof.
  induction 1; simpl; lia.
Qed.

Lemma maxRank_three fs :
  maxRank fs = 3 <-> exists f, In f fs /\ Severity f = "critical".
Proof.
  induction fs as [|f fs IH]; simpl.
  - split; [discriminate|]. intros (f & [] & _).
  - split.
    + intros H.
      destruct (Z.eq_dec (severityRank (Severity f)) 3) as [E|E].
      * exists f. split; [left; reflexivity|].
        apply severityRank_critical. exact E.
      * destruct (proj1 IH) as (g & Hg & Hs).
        { destruct (severityRank_cases (Severity f)) as [Hf|[Hf|[Hf|Hf]]];
            lia. }
        exists g. auto.
    + intros (g & [<-|Hg] & Hs).
      * apply severityRank_critical in Hs. rewrite Hs.
        destruct (maxRank_cases fs) as [Hm|[Hm|[Hm|Hm]]]; rewrite Hm;
          reflexivity.
      * assert (Hm : maxRank fs = 3) by (apply IH; eauto).
        rewrite Hm.
        destruct (severityRank_cases (Severity f)) as [Hf|[Hf|[Hf|Hf]]];
          rewrite Hf; reflexivity.
Qed.

(** X7.  Whatever strings the findings carry as severities, the risk
    level of [runExec] is one of [low], [medium], [high], [critical]: the
    highest of the severities [medium], [high], [critical] that occur,
    and [low] when none does (any other severity string counts for
    nothing).  It does not depend on the order of the findings, and it is
    [critical] exactly when some finding is. *)
Theorem risk_level_by_highest_known_severity (findings : list Finding) :
  riskLevelOf findings = levelOfRank (maxRank findings)
  /\ validSeverity (riskLevelOf findings)
  /\ (forall findings',
        Permutation findings findings' ->
        riskLevelOf findings' = riskLevelOf findings)
  /\ (riskLevelOf findings = "critical"
      <-> exists f, In f findings /\ Severity f = "critical").
Proof.
  split; [apply riskLevelOf_closed|].
  split; [rewrite riskLevelOf_closed; apply levelOfRank_valid|].
  split.
  - intros fs' Hp. rewrite !riskLevelOf_closed.
    rewrite (maxRank_perm _ _ Hp). reflexivity.
  - rewrite riskLevelOf_closed, <- maxRank_three.
    destruct (maxRank_cases findings) as [Hm|[Hm|[Hm|Hm]]]; rewrite Hm;
      split; intros H; try discriminate; reflexivity.
Qed.

Lemma concernLines_lists fs : forall k i f,
  fs !! i = Some f ->
  In (EvStderr (Strconv.FormatInt (k + Z.of_nat i + 1) ++ ". [" ++ Code f
                ++ "] " ++ Description f ++ NL))
     (concernLines k fs)
  /\ In (EvStderr ("   Recommendation: " ++ Recommendation f ++ NL))
        (concernLines k fs).
Proof.
  induction fs as [|g fs IH]; intros k i f Hi; [discriminate|].
  destruct i as [|i]; simpl in Hi.
  - injection Hi as ->. simpl. rewrite Z.add_0_r. auto.
  - destruct (IH (k + 1) i f Hi) as [H1 H2]. simpl concernLines.
    replace (k + Z.of_nat (S i) + 1) with (k + 1 + Z.of_nat i + 1) by lia.
    split; right; right; assumption.
Qed.

Lemma prompt_lists r c fs tok i f :
  fs !! i = Some f ->
  In (EvStderr (Strconv.FormatInt (Z.of_nat i + 1) ++ ". [" ++ Code f
                ++ "] " ++ Description f ++ NL))
     (promptForApproval r c fs tok).1
  /\ In (EvStderr ("   Recommendation: " ++ Recommendation f ++ NL))
        (promptForApproval r c fs tok).1
  /\ In (EvStderr ("Command: " ++ c ++ NL)) (promptForApproval r c fs tok).1
  /\ In (EvStderr ("Risk Level: " ++ Strings.ToUpper r ++ NL ++ NL))
        (promptForApproval r c fs tok).1.
Proof.
  intros Hi. unfold promptForApproval. cbn [fst].
  destruct (concernLines_lists fs 0 i f Hi) as [H1 H2].
  rewrite Z.add_0_l in H1.
  assert (Hne : (0 <? Z.of_nat (length fs)) = true).
  { destruct fs; [discriminate|reflexivity]. }
  rewrite Hne.
  split; [|split; [|split]].
  - apply in_or_app. right. apply in_or_app. left. right.
    apply in_or_app. left. exact H1.
  - apply in_or_app. right. apply in_or_app. left. right.
    apply in_or_app. left. exact H2.
  - right. left. reflexivity.
  - right. right. left. reflexivity.
Qed.

Lemma assess_starts_with_warnings interactive r c fs w :
  exists rest, (assess interactive r c fs w).1
               = (map (riskLog c) fs ++ rest)%list.
Proof.
  unfold assess. destruct fs as [|f fs]; [exists []; reflexivity|].
  change (0 <? Z.of_nat (length (f :: fs))) with true. cbv iota.
  destruct interactive.
  - destruct (promptForApproval r c (f :: fs) (w_stdin w)) as [shown ok].
    destruct (negb ok); cbn [fst]; eauto.
  - destruct (String.eqb r "critical"); cbn [fst]; eauto.
    exists []. rewrite app_nil_r. reflexivity.
Qed.

Lemma assess_prompt_events interactive r c fs w :
  prompted (assess interactive r c fs w).1 = true ->
  forall e, In e (promptForApproval r c fs (w_stdin w)).1 ->
            In e (assess interactive r c fs w).1.
Proof.
  destruct (assess_spec interactive r c fs w) as (_ & Hp & _ & _).
  rewrite Hp. clear Hp. unfold assess.
  destruct (0 <? Z.of_nat (length fs)); [|discriminate].
  destruct interactive; [|discriminate]. intros _ e Hin.
  destruct (promptForApproval r c fs (w_stdin w)) as [shown approved].
  simpl in Hin.
  destruct (negb approved); cbn [fst];
    apply in_or_app; right; [apply in_or_app; left|]; exact Hin.
Qed.

Section WithCollaborators.

Variable AnalyzeScript :
  string -> string -> Config.PolicyConfig -> list Finding.
Variable cfg : Config.Config.
Variable marshal : Session.Session -> string + string.
Variable unmarshal : string -> Session.Session + string.

Local Abbreviation run := (runExec AnalyzeScript cfg marshal unmarshal).
Local Abbreviation found := (findingsOf AnalyzeScript cfg).
Local Abbreviation assessed := (assessed AnalyzeScript cfg).

Lemma trace_extends_assessment cmdName args interactive sessionID w :
  exists rest,
    (run (cmdName :: args) interactive sessionID w).1.2
    = ((assessed (cmdName :: args) interactive w).1 ++ rest)%list.
Proof.
  destruct ((assessed (cmdName :: args) interactive w).2) as [e|] eqn:E.
  - rewrite (runExec_refused _ _ _ _ _ _ _ _ _ _ E). exists [].
    simpl. rewrite app_nil_r. reflexivity.
  - destruct (runExec_passed _ _ marshal unmarshal _ _ _ sessionID _ E)
      as (line & -> & _). eauto.
Qed.

(** X8.  Every finding is logged as a warning, once and in the order
    the analyzer returned them, before anything else happens: the trace
    of a run begins with these warnings, whether the command is then
    run, refused or declined. *)
Theorem findings_are_logged_first
  (cmdName : string) (args : list string) (interactive : bool)
  (sessionID : string) (w : World) :
  map (riskLog (Strings.Join (cmdName :: args) " "))
      (found (cmdName :: args))
  `prefix_of` (run (cmdName :: args) interactive sessionID w).1.2.
Proof.
  destruct (trace_extends_assessment cmdName args interactive sessionID w)
    as (rest & ->).
  unfold Cmd.assessed.
  destruct (assess_starts_with_warnings interactive
              (riskLevelOf (found (cmdName :: args)))
              (Strings.Join (cmdName :: args) " ")
              (found (cmdName :: args)) w) as (rest' & ->).
  rewrite <- app_assoc. apply prefix_app_r. reflexivity.
Qed.

(** X9.  When the approval prompt is shown, it has shown the command
    line, the risk level in capitals, and for every finding, numbered
    from 1 in the analyzer's order, a line with its code and description
    and a line with its recommendation. *)
Theorem prompt_shows_every_finding
  (cmdName : string) (args : list string) (interactive : bool)
  (sessionID : string) (w : World) (i : nat) (f : Finding) :
  let trace := (run (cmdName :: args) interactive sessionID w).1.2 in
  prompted trace = true ->
  found (cmdName :: args) !! i = Some f ->
  In (EvStderr (Strconv.FormatInt (Z.of_nat i + 1) ++ ". [" ++ Code f
                ++ "] " ++ Description f ++ NL)) trace
  /\ In (EvStderr ("   Recommendation: " ++ Recommendation f ++ NL)) trace
  /\ In (EvStderr ("Command: " ++ Strings.Join (cmdName :: args) " " ++ NL))
        trace
  /\ In (EvStderr ("Risk Level: "
                   ++ Strings.ToUpper (riskLevelOf (found (cmdName :: args)))
                   ++ NL ++ NL)) trace.
Proof.
  intros trace Hp Hi. subst trace.
  destruct (CmdProps.runExec_trace AnalyzeScript cfg marshal unmarshal
              cmdName args interactive sessionID w) as (Hpr & _ & _).
  rewrite Hpr in Hp.
  destruct (trace_extends_assessment cmdName args interactive sessionID w)
    as (rest & ->).
  pose proof (assess_prompt_events interactive _ _ _ w Hp) as Hin.
  destruct (prompt_lists (riskLevelOf (found (cmdName :: args)))
              (Strings.Join (cmdName :: args) " ") _ (w_stdin w) i f Hi)
    as (H1 & H2 & H3 & H4).
  repeat split; apply in_or_app; left; apply Hin; assumption.
Qed.

Lemma track_unbound cmdName args interactive sessionID r codes c w :
  boundSession sessionID w = None ->
  trackInSession marshal unmarshal cmdName args interactive sessionID r
    codes c w = (w_disk w, None).
Proof.
  unfold boundSession, trackInSession.
  destruct (negb (String.eqb sessionID "")),
           (negb (String.eqb (w_env_session w) "")); simpl;
    try discriminate; reflexivity.
Qed.

Lemma track_bound cmdName args interactive sessionID r codes c w id :
  boundSession sessionID w = Some id ->
  trackInSession marshal unmarshal cmdName args interactive sessionID r
    codes c w
  = match Session.NewManager (w_cwd w) (w_disk w) (w_mkdir_ok w) with
    | (d1, inr _) => (d1, None)
    | (d1, inl mgr) =>
        match Session.Load unmarshal mgr id d1 with
        | (d2, inr _) => (d2, None)
        | (d2, inl sess) =>
            let r3 :=
              Session.AddCommand marshal mgr sess
                (Session.mkCommand (w_start w) cmdName args c "" ""
                   (w_duration w) r (interactive || String.eqb r "low") ""
                   codes ∅) d2 (w_write w) in
            (r3.1.2, r3.2)
        end
    end.
Proof.
  unfold boundSession, trackInSession.
  destruct (String.eqb sessionID "") eqn:E; simpl.
  - destruct (negb (String.eqb (w_env_session w) "")); [|discriminate].
    intros [= <-].
    destruct (Session.NewManager _ _ _) as [d1 [mgr|e1]]; [|reflexivity].
    destruct (Session.Load _ _ _ _) as [d2 [sess|e2]]; [|reflexivity].
    destruct (Session.AddCommand _ _ _ _ _ _) as [[s3 d3] e3]. reflexivity.
  - intros [= <-].
    destruct (Session.NewManager _ _ _) as [d1 [mgr|e1]]; [|reflexivity].
    destruct (Session.Load _ _ _ _) as [d2 [sess|e2]]; [|reflexivity].
    destruct (Session.AddCommand _ _ _ _ _ _) as [[s3 d3] e3]. reflexivity.
Qed.

(** The disk a run leaves, by what happened. *)
Lemma runExec_disk cmdName args interactive sessionID w :
  let r := run (cmdName :: args) interactive sessionID w in
  let fs := found (cmdName :: args) in
  ((assessed (cmdName :: args) interactive w).2 <> None -> r.2 = w_disk w)
  /\ (childExitCode (w_run w) = None -> r.2 = w_disk w)
  /\ (forall c,
        (assessed (cmdName :: args) interactive w).2 = None ->
        childExitCode (w_run w) = Some c ->
        r.2 = (trackInSession marshal unmarshal cmdName args interactive
                 sessionID (riskLevelOf fs) (findingCodesOf fs) c w).1).
Proof.
  unfold Cmd.assessed, findingsOf, runExec. cbv zeta.
  destruct (assess _ _ _ _ w) as [before [e|]]; cbn [fst snd].
  - split; [reflexivity|]. split; [reflexivity|]. discriminate.
  - split; [congruence|].
    destruct (w_run w) as [|c'|err]; simpl.
    + split; [discriminate|]. intros c _ [= <-].
      destruct (trackInSession _ _ _ _ _ _ _ _ _ _) as [d e]. reflexivity.
    + split; [discriminate|]. intros c _ [= <-].
      destruct (trackInSession _ _ _ _ _ _ _ _ _ _) as [d e].
      destruct (negb (c' =? 0)); reflexivity.
    + split; [reflexivity|]. discriminate.
Qed.

Lemma refusal_is_exit_3 cmdArgs interactive w e :
  (assessed cmdArgs interactive w).2 = Some e -> Execute (Some e) = 3.
Proof.
  destruct (CmdProps.assessed_spec AnalyzeScript cfg cmdArgs interactive w)
    as (_ & _ & _ & ->).
  repeat match goal with |- context [if ?b then _ else _] =>
                           destruct b end; intros [= <-]; reflexivity.
Qed.

(** X10.  Exit code 0 is earned: when the supervisor ends with exit code
    0, the command was started and its process ended with exit code 0.  A
    refusal, a declined prompt, a missing command and a command that
    could not be started all end with another code. *)
Theorem exit_code_0_means_the_command_succeeded
  (cmdArgs : list string) (interactive : bool) (sessionID : string)
  (w : World) :
  Execute (run cmdArgs interactive sessionID w).1.1 = 0 ->
  spawnedOnHost cmdArgs (run cmdArgs interactive sessionID w).1.2
  /\ childExitCode (w_run w) = Some 0.
Proof.
  destruct cmdArgs as [|cmdName args]; [discriminate|].
  destruct (CmdProps.runExec_trace AnalyzeScript cfg marshal unmarshal
              cmdName args interactive sessionID w) as (_ & Href & Hpass).
  destruct ((assessed (cmdName :: args) interactive w).2) as [e|] eqn:E.
  - destruct (Href e eq_refl) as (-> & _ & _).
    rewrite (refusal_is_exit_3 _ _ _ _ E). discriminate.
  - destruct (Hpass eq_refl) as (_ & Hin & _).
    destruct (runExec_passed _ _ marshal unmarshal _ _ _ sessionID _ E)
      as (line & _ & Hres).
    intros Hx. split; [exact Hin|].
    destruct (w_run w) as [|c|err]; [reflexivity| |].
    + destruct Hres as [_ Hr]. rewrite Hr in Hx.
      destruct (c =? 0) eqn:Ez; simpl in Hx.
      * apply Z.eqb_eq in Ez. subst c. reflexivity.
      * apply Z.eqb_neq in Ez. contradiction.
    + destruct Hres as [_ Hr]. rewrite Hr in Hx. discriminate.
Qed.

Lemma exited_is_not_blocked c :
  ExitError ("command exited with code " ++ Strconv.FormatInt c) c
  <> blocked.
Proof. unfold blocked. intros H. injection H as H _. discriminate. Qed.

(** X11.  A non-interactive run decides by the findings alone: it
    returns the refusal [critical command blocked] exactly when some
    finding has severity [critical], however dangerous the other
    findings are.  No question is asked.  A refusal is logged at error
    level and ends with exit code 3; [cmd.Run()] is not called, no child
    runs, and the disk is left as it was.  Without a refusal [cmd.Run()]
    is called for the command itself, and a child runs unless the
    command cannot be started. *)
Theorem non_interactive_run_refuses_exactly_critical
  (cmdName : string) (args : list string) (sessionID : string) (w : World) :
  let r := run (cmdName :: args) false sessionID w in
  (r.1.1 = Some blocked
   <-> exists f, In f (found (cmdName :: args)) /\ Severity f = "critical")
  /\ prompted r.1.2 = false
  /\ (r.1.1 = Some blocked ->
      exitStatus (Execute r.1.1) = 3 /\ loggedError r.1.2 = true
      /\ spawned r.1.2 = false /\ childRan w r.1.2 = false
      /\ r.2 = w_disk w)
  /\ (r.1.1 <> Some blocked ->
      In (EvExecCommand cmdName args) r.1.2
      /\ (childRan w r.1.2 = true
          <-> exists c, childExitCode (w_run w) = Some c)).
Proof.
  intros r. subst r.
  destruct (CmdProps.runExec_trace AnalyzeScript cfg marshal unmarshal
              cmdName args false sessionID w) as (Hpr & Href & Hpass).
  destruct (CmdProps.assessed_spec AnalyzeScript cfg (cmdName :: args)
              false w) as (_ & Hp & He & Ha).
  destruct (runExec_disk cmdName args false sessionID w) as (Hd & _ & _).
  rewrite andb_false_r in Hp. rewrite Hpr, Hp.
  assert (Hcrit : String.eqb (riskLevelOf (found (cmdName :: args)))
                    "critical" = true
                  <-> exists f, In f (found (cmdName :: args))
                                /\ Severity f = "critical").
  { rewrite String.eqb_eq, riskLevelOf_closed, <- maxRank_three.
    destruct (maxRank_cases (found (cmdName :: args)))
      as [Hm|[Hm|[Hm|Hm]]]; rewrite Hm; split; intros H;
      try discriminate; reflexivity. }
  destruct ((assessed (cmdName :: args) false w).2) as [e|] eqn:E.
  - destruct (Href e eq_refl) as (Hr1 & Hr2 & Hs).
    assert (Hc : String.eqb (riskLevelOf (found (cmdName :: args)))
                   "critical" = true /\ e = blocked).
    { destruct (0 <? Z.of_nat (length (found (cmdName :: args))));
        [|discriminate].
      destruct (String.eqb _ "critical"); [|discriminate].
      injection Ha as ->. auto. }
    destruct Hc as [Hc ->].
    split; [split; [intros _; apply Hcrit; exact Hc|intros _; exact Hr1]|].
    split; [reflexivity|]. split.
    + intros _. rewrite Hr1, Hr2, He, Hc.
      repeat match goal with |- _ /\ _ => split end.
      * reflexivity.
      * destruct (0 <? Z.of_nat (length (found (cmdName :: args))));
          [reflexivity|discriminate].
      * rewrite <- Hr2. exact Hs.
      * apply CmdProps.childRan_not_spawned. rewrite <- Hr2. exact Hs.
      * apply Hd. discriminate.
    + intros Hne. contradiction.
  - destruct (Hpass eq_refl) as (Hs & Hin & _).
    assert (Hnb : (run (cmdName :: args) false sessionID w).1.1
                  <> Some blocked).
    { destruct (runExec_passed _ _ marshal unmarshal _ _ _ sessionID _ E)
        as (line & _ & Hres).
      destruct (w_run w) as [|c|err]; destruct Hres as [_ ->];
        try discriminate.
      destruct (negb (c =? 0)); [|discriminate].
      intros H. apply (exited_is_not_blocked c). congruence. }
    split; [split; [intros H; contradiction|]|].
    { intros Hex. apply Hcrit in Hex. rewrite Hex in Ha.
      destruct (0 <? Z.of_nat (length (found (cmdName :: args)))) eqn:En;
        [discriminate|].
      destruct (found (cmdName :: args)); [|discriminate].
      discriminate. }
    split; [reflexivity|]. split; [intros H; contradiction|].
    intros _. split; [exact Hin|].
    apply CmdProps.childRan_spawned. exact Hs.
Qed.

(** X12.  The ledger is written only for a command that ran in a bound
    session: a run that starts nothing (no command, refused, declined),
    a run whose command could not be started, and a run with neither a
    [--session] flag nor [VECTRAGUARD_SESSION_ID] leave the disk as it
    was: no file is changed and no file operation is issued. *)
Theorem unrecorded_runs_leave_the_disk_alone
  (cmdArgs : list string) (interactive : bool) (sessionID : string)
  (w : World) :
  spawned (run cmdArgs interactive sessionID w).1.2 = false
  \/ childExitCode (w_run w) = None
  \/ boundSession sessionID w = None ->
  (run cmdArgs interactive sessionID w).2 = w_disk w.
Proof.
  destruct cmdArgs as [|cmdName args]; [reflexivity|].
  destruct (CmdProps.runExec_trace AnalyzeScript cfg marshal unmarshal
              cmdName args interactive sessionID w) as (_ & Href & Hpass).
  destruct (runExec_disk cmdName args interactive sessionID w)
    as (Hd1 & Hd2 & Hd3).
  destruct ((assessed (cmdName :: args) interactive w).2) as [e|] eqn:E;
    [intros _; apply Hd1; discriminate|].
  destruct (Hpass eq_refl) as (Hs & _).
  intros [H|[H|H]]; [congruence|apply Hd2; exact H|].
  destruct (childExitCode (w_run w)) as [c|] eqn:Ec; [|apply Hd2; reflexivity].
  rewrite (Hd3 c eq_refl eq_refl), track_unbound by exact H. reflexivity.
Qed.

(** X13.  The [--session] flag wins over the environment: with the flag
    given, the whole run (error, trace and disk) is the same for every
    value of [VECTRAGUARD_SESSION_ID]. *)
Theorem session_flag_overrides_environment
  (cmdArgs : list string) (interactive : bool) (sessionID env : string)
  (w : World) :
  sessionID <> "" ->
  run cmdArgs interactive sessionID (with_env w env)
  = run cmdArgs interactive sessionID w.
Proof.
  intros Hne. apply String.eqb_neq in Hne.
  unfold runExec. destruct cmdArgs as [|cmdName args]; [reflexivity|].
  change (w_run (with_env w env)) with (w_run w).
  change (w_disk (with_env w env)) with (w_disk w).
  change (w_duration (with_env w env)) with (w_duration w).
  set (fs := AnalyzeScript _ _ _).
  change (assess interactive (riskLevelOf fs)
            (Strings.Join (cmdName :: args) " ") fs (with_env w env))
    with (assess interactive (riskLevelOf fs)
            (Strings.Join (cmdName :: args) " ") fs w).
  assert (Ht : forall c,
             trackInSession marshal unmarshal cmdName args interactive
               sessionID (riskLevelOf fs) (findingCodesOf fs) c
               (with_env w env)
             = trackInSession marshal unmarshal cmdName args interactive
                 sessionID (riskLevelOf fs) (findingCodesOf fs) c w).
  { intros c. unfold trackInSession. rewrite Hne. reflexivity. }
  destruct (assess interactive _ _ fs w) as [before [e|]]; [reflexivity|].
  destruct (w_run w); rewrite ?Ht; reflexivity.
Qed.

(** X14.  What a run leaves in the ledger.  The command was let through
    and its process ended with exit code [c]; a session is bound, its
    directory and file are there, the file parses to [sess], and the
    write succeeds.  Then the file named by the identifier inside [sess]
    holds the encoding of [sess] with exactly one command appended: the command's name and
    arguments, [c], the risk level of the findings, their codes, and
    [approved] set when the run was interactive or the risk level is
    [low].  Loading the session gives this session back when the decoder
    reads back the encoder. *)
Theorem a_run_is_recorded_in_the_bound_session
  (cmdName : string) (args : list string) (interactive : bool)
  (sessionID : string) (w : World) (c : Z) (id data0 : string)
  (sess : Session.Session) :
  let r := run (cmdName :: args) interactive sessionID w in
  let record :=
    recordOf cmdName args interactive (found (cmdName :: args)) c w in
  let sess' :=
    (Session.AddCommand marshal (managerOf w) sess record (w_disk w)
       OS.WriteOK).1.1 in
  spawned r.1.2 = true ->
  childExitCode (w_run w) = Some c ->
  boundSession sessionID w = Some id ->
  w_mkdir_ok w = true ->
  OS.files (w_disk w) !! Session.sessionPath (managerOf w) id = Some data0 ->
  unmarshal data0 = inl sess ->
  w_write w = OS.WriteOK ->
  (exists data, marshal sess' = inl data) ->
  (forall data, marshal sess' = inl data -> unmarshal data = inl sess') ->
  Session.Commands sess' = (Session.Commands sess ++ [record])%list
  /\ (exists data,
        marshal sess' = inl data
        /\ OS.files r.2
           = <[Session.sessionPath (managerOf w) (Session.ID sess) := data]>
               (OS.files (w_disk w)))
  /\ (Session.Load unmarshal (managerOf w) (Session.ID sess) r.2).2
     = inl sess'.
Proof.
  intros r record sess' Hsp Hc Hb Hmk Hfile Hun Hw [data Hm] Hcodec.
  subst r.
  destruct (CmdProps.runExec_trace AnalyzeScript cfg marshal unmarshal
              cmdName args interactive sessionID w) as (_ & Href & _).
  destruct (runExec_disk cmdName args interactive sessionID w)
    as (_ & _ & Hd3).
  destruct ((assessed (cmdName :: args) interactive w).2) as [e|] eqn:E.
  { destruct (Href e eq_refl) as (_ & _ & Hno). congruence. }
  rewrite (Hd3 c eq_refl Hc), (track_bound _ _ _ _ _ _ _ _ _ Hb).
  unfold Session.NewManager, OS.MkdirAll. rewrite Hmk. cbn [fst snd].
  set (d1 := OS.mkDisk _ _).
  assert (Hl : Session.Load unmarshal (managerOf w) id d1
               = ((Session.Load unmarshal (managerOf w) id d1).1, inl sess)).
  { pose proof (proj2 (LedgerLaws.Load_inl_iff unmarshal (managerOf w) id d1
                         sess)) as H.
    destruct (Session.Load unmarshal (managerOf w) id d1) as [d2 res].
    simpl in *. f_equal. apply H. exists data0. auto. }
  change (Session.mkManager
            (OS.Join (OS.Join (w_cwd w) ".vectra-guard") "sessions"))
    with (managerOf w).
  rewrite Hl. cbv zeta. cbn [fst snd]. rewrite Hw.
  set (d2 := (Session.Load unmarshal (managerOf w) id d1).1).
  assert (Hf2 : OS.files d2 = OS.files (w_disk w)).
  { subst d2. rewrite LedgerLaws.Load_files. reflexivity. }
  change (Session.mkCommand (w_start w) cmdName args c "" "" (w_duration w)
            (riskLevelOf (found (cmdName :: args)))
            (interactive
             || String.eqb (riskLevelOf (found (cmdName :: args))) "low")
            "" (findingCodesOf (found (cmdName :: args))) ∅)
    with record.
  assert (Hs' : (Session.AddCommand marshal (managerOf w) sess record d2
                   OS.WriteOK).1.1 = sess').
  { apply LedgerLaws.AddCommand_session_indep. }
  pose proof (LedgerLaws.update_Load marshal unmarshal (managerOf w) sess
                (Session.UAddCommand record) d2 OS.WriteOK) as Hu.
  simpl Session.apply_update in Hu. rewrite Hs' in Hu.
  destruct Hu as (data' & Hm' & Hf & Hld).
  - pose proof (LedgerLaws.apply_update_save marshal (managerOf w) sess
                  (Session.UAddCommand record) d2 OS.WriteOK) as Hsv.
    simpl Session.apply_update in Hsv. rewrite Hs' in Hsv.
    apply (f_equal snd) in Hsv. simpl in Hsv. rewrite Hsv.
    unfold Session.save. rewrite Hm. reflexivity.
  - exact Hcodec.
  - split.
    + subst sess'.
      destruct (SessionFacts.AddCommand_session marshal (managerOf w) sess
                  record (w_disk w) OS.WriteOK) as [-> _]. reflexivity.
    + split; [|exact Hld].
      exists data'. split; [exact Hm'|]. rewrite Hf, Hf2. reflexivity.
Qed.

End WithCollaborators.

Lemma prompt_witness :
  let analyze :=
    Samples.analyzerReporting "rm -r /*" [Samples.deleteRoot] in
  let trace :=
    (runExec analyze Samples.sandboxOn Samples.sampleMarshal
       Samples.sampleUnmarshal ["rm"; "-r"; "/*"] true ""
       (Samples.world "n" RunSuccess)).1.2 in
  In (EvStderr ("1. [DANGEROUS_DELETE_ROOT] "
                ++ "recursive delete of the root directory" ++ NL)) trace
  /\ In (EvStderr ("   Recommendation: do not run this command" ++ NL))
        trace
  /\ In (EvStderr ("Command: rm -r /*" ++ NL)) trace
  /\ In (EvStderr ("Risk Level: CRITICAL" ++ NL ++ NL)) trace.
Proof.
  exact (prompt_shows_every_finding
           (Samples.analyzerReporting "rm -r /*" [Samples.deleteRoot])
           Samples.sandboxOn Samples.sampleMarshal Samples.sampleUnmarshal
           "rm" ["-r"; "/*"] true "" (Samples.world "n" RunSuccess)
           0%nat Samples.deleteRoot eq_refl eq_refl).
Defined.

Lemma exit_code_0_witness :
  let w := Samples.world "" RunSuccess in
  let trace :=
    (runExec (Samples.analyzerReporting "echo hi" []) Samples.sandboxOn
       Samples.sampleMarshal Samples.sampleUnmarshal ["echo"; "hi"] false
       "" w).1.2 in
  spawnedOnHost ["echo"; "hi"] trace /\ childExitCode (w_run w) = Some 0.
Proof.
  exact (exit_code_0_means_the_command_succeeded
           (Samples.analyzerReporting "echo hi" [])
           Samples.sandboxOn Samples.sampleMarshal Samples.sampleUnmarshal
           ["echo"; "hi"] false "" (Samples.world "" RunSuccess) eq_refl).
Defined.

Lemma unrecorded_witness :
  (runExec (Samples.analyzerReporting "rm -r /*" [Samples.deleteRoot])
     Samples.sandboxOn Samples.sampleMarshal Samples.sampleUnmarshal
     ["rm"; "-r"; "/*"] false ""
     (Samples.trackedWorld RunSuccess OS.WriteOK)).2
  = Samples.persistedDisk.
Proof.
  exact (unrecorded_runs_leave_the_disk_alone
           (Samples.analyzerReporting "rm -r /*" [Samples.deleteRoot])
           Samples.sandboxOn Samples.sampleMarshal Samples.sampleUnmarshal
           ["rm"; "-r"; "/*"] false ""
           (Samples.trackedWorld RunSuccess OS.WriteOK)
           (or_introl eq_refl)).
Defined.

Lemma session_flag_witness :
  let run :=
    runExec (Samples.analyzerReporting "echo hi" []) Samples.sandboxOn
      Samples.sampleMarshal Samples.sampleUnmarshal ["echo"; "hi"] false
      "session-1700000000000000000" in
  run (with_env (Samples.world "" RunSuccess) "session-1")
  = run (Samples.world "" RunSuccess).
Proof.
  apply (session_flag_overrides_environment
           (Samples.analyzerReporting "echo hi" [])
           Samples.sandboxOn Samples.sampleMarshal Samples.sampleUnmarshal
           ["echo"; "hi"] false "session-1700000000000000000" "session-1"
           (Samples.world "" RunSuccess)).
  discriminate.
Defined.

Lemma recorded_witness :
  let w := Samples.trackedWorld (RunExitError 7) OS.WriteOK in
  let r :=
    runExec (Samples.analyzerReporting "echo hi" []) Samples.sandboxOn
      Samples.sampleMarshal MoreSamples.unmarshalRecorded ["echo"; "hi"]
      false "" w in
  let sess' :=
    (Session.AddCommand Samples.sampleMarshal (managerOf w)
       Samples.freshSession
       (recordOf "echo" ["hi"] false [] 7 w) (w_disk w) OS.WriteOK).1.1 in
  Session.Commands sess' = [recordOf "echo" ["hi"] false [] 7 w]
  /\ (exists data,
        Samples.sampleMarshal sess' = inl data
        /\ OS.files r.2
           = <[Session.sessionPath (managerOf w)
                 (Session.ID Samples.freshSession) := data]>
               (OS.files (w_disk w)))
  /\ (Session.Load MoreSamples.unmarshalRecorded (managerOf w)
        (Session.ID Samples.freshSession) r.2).2
     = inl sess'.
Proof.
  apply (a_run_is_recorded_in_the_bound_session
           (Samples.analyzerReporting "echo hi" [])
           Samples.sandboxOn Samples.sampleMarshal
           MoreSamples.unmarshalRecorded "echo" ["hi"] false ""
           (Samples.trackedWorld (RunExitError 7) OS.WriteOK) 7
           "session-1700000000000000000" "{previously persisted}"
           Samples.freshSession);
    try reflexivity.
  - eexists. reflexivity.
  - intros data H. vm_compute in H. injection H as <-. reflexivity.
Defined.

End PipelineLaws.

(* ===================================================================== *)
(** ** The daemon's queue when nobody serves it *)
(* ===================================================================== *)

Module QueueLaws.

Import Logging Daemon Queue.





Lemma idle_step d l d' :
  idle d -> (forall s, l <> LStart s) -> step d l = Some d' -> idle d'.
Proof.
  intros (Hs & Hq & Hl & Hc) Hl' H. unfold idle.
  destruct l; simpl in H.
  - destruct (Hl' s eq_refl).
  - injection H as <-. simpl. auto.
  - injection H as <-. simpl. auto.
  - destruct (processing d && _); [|discriminate].
    injection H as <-. simpl. auto.
  - rewrite Hq in H. destruct (processing d); discriminate.
  - destruct (calls d !! i) as [[cmd args| | |]|] eqn:Ec; try discriminate.
    rewrite Hs in H. injection H as <-. simpl.
    repeat match goal with |- _ /\ _ => split end; auto.
    intros j c Hj. destruct (decide (i = j)) as [->|Hne].
    + rewrite lookup_insert_eq in Hj. injection Hj as <-. auto.
    + rewrite lookup_insert_ne in Hj by exact Hne. eauto.
  - destruct (calls d !! i) as [c|] eqn:Ec; [|discriminate].
    destruct (Hc i c Ec) as [(cmd & args & ->)| ->]; discriminate.
  - destruct (calls d !! i) as [c|] eqn:Ec; [|discriminate].
    destruct (Hc i c Ec) as [(cmd & args & ->)| ->]; discriminate.
  - destruct (calls d !! i) as [c|] eqn:Ec; [|discriminate].
    destruct (Hc i c Ec) as [(cmd & args & ->)| ->]; discriminate.
Qed.

(** X18.  A daemon whose [Start] has not set the session allows
    everything: every call of [InterceptCommand] that returns returns
    [true], and it does so without queueing the command and without
    logging anything. *)
Theorem without_a_session_every_call_is_allowed
  (d d' : Daemon) (ls : list Label) :
  initial d ->
  session d = None ->
  (forall s, ~ In (LStart s) ls) ->
  steps d ls = Some d' ->
  session d' = None /\ interceptCh d' = [] /\ logs d' = []
  /\ (forall i result, calls d' !! i = Some (Returned result) ->
        result = true)
  /\ (forall i cmd args now pid ppid uid,
        calls d' !! i = Some (Called cmd args) ->
        exists d'', step d' (LCall i now pid ppid uid) = Some d''
                    /\ calls d'' !! i = Some (Returned true)
                    /\ interceptCh d'' = [] /\ logs d'' = []).
Proof.
  intros (Hq & _ & Hl & Hc) Hs Hno Hsteps.
  assert (Hi : idle d) by (unfold idle; eauto 10).
  clear Hq Hl Hc Hs.
  assert (Hi' : idle d').
  { revert d Hi Hsteps. induction ls as [|l ls IH]; intros d Hi Hsteps.
    - injection Hsteps as <-. exact Hi.
    - simpl in Hsteps. destruct (step d l) as [d1|] eqn:E; [|discriminate].
      apply (IH (fun s H => Hno s (or_intror H)) d1); [|exact Hsteps].
      apply (idle_step d l d1 Hi); [|exact E].
      intros s ->. apply (Hno s). left. reflexivity. }
  destruct Hi' as (Hs & Hq & Hl & Hc).
  repeat match goal with |- _ /\ _ => split end; auto.
  - intros i result Hr.
    destruct (Hc _ _ Hr) as [(cmd & args & H)|H]; congruence.
  - intros i cmd args now pid ppid uid Hcall. simpl.
    rewrite Hcall, Hs. eexists. split; [reflexivity|]. simpl.
    rewrite lookup_insert_eq. auto.
Qed.



Lemma no_session_witness :
  let d' := MoreSamples.daemonNewCalled in
  session d' = None /\ interceptCh d' = [] /\ logs d' = []
  /\ (forall i result, calls d' !! i = Some (Returned result) ->
        result = true)
  /\ (forall i cmd args now pid ppid uid,
        calls d' !! i = Some (Called cmd args) ->
        exists d'', step d' (LCall i now pid ppid uid) = Some d''
                    /\ calls d'' !! i = Some (Returned true)
                    /\ interceptCh d'' = [] /\ logs d'' = []).
Proof.
  apply (without_a_session_every_call_is_allowed MoreSamples.daemonNew
           MoreSamples.daemonNewCalled [LCall 0%nat 0 0 0 0]).
  - repeat split. intros i c H.
    destruct (decide (i = 0%nat)) as [->|Hne].
    + injection H as <-. eauto.
    + unfold MoreSamples.daemonNew in H. simpl in H.
      rewrite lookup_insert_ne, lookup_empty in H by congruence.
      discriminate.
  - reflexivity.
  - intros s [H|[]]. discriminate.
  - reflexivity.
Defined.

End QueueLaws.

(* ===================================================================== *)
(** ** The daemon's files *)
(* ===================================================================== *)

Module LifecycleLaws.

Import OS Logging Lifecycle.

Lemma append_assoc (a b c : string) :
  ((a ++ b) ++ c)%string = (a ++ (b ++ c))%string.
Proof.
  induction a as [|x a IH]; [reflexivity|].
  rewrite !LedgerLaws.append_cons, IH. reflexivity.
Qed.

Lemma Join_nonempty dir name :
  dir <> "" -> name <> "" -> Join dir name = (dir ++ "/" ++ name)%string.
Proof.
  intros Hd Hn. unfold Join.
  apply String.eqb_neq in Hd. apply String.eqb_neq in Hn.
  rewrite Hd, Hn. reflexivity.
Qed.

Lemma Join_name_nonempty dir name : name <> "" -> Join dir name <> "".
Proof.
  intros Hn. unfold Join.
  destruct (String.eqb dir "") eqn:Ed; [exact Hn|].
  apply String.eqb_neq in Hn. rewrite Hn.
  apply String.eqb_neq in Ed. destruct dir; [congruence|discriminate].
Qed.

Lemma append_nonempty (a b : string) : b <> "" -> (a ++ b)%string <> "".
Proof. destruct a; [auto|discriminate]. Qed.

(** The files below [.vectra-guard]: [dot] is the directory itself. *)
Lemma daemon_file_path workspace name :
  name <> "" ->
  Join (Join (Join workspace ".vectra-guard") "daemon") name
  = (Join workspace ".vectra-guard" ++ "/daemon/" ++ name)%string.
Proof.
  intros Hn.
  assert (Hb : Join workspace ".vectra-guard" <> "")
    by (apply Join_name_nonempty; discriminate).
  rewrite (Join_nonempty _ name);
    [|apply Join_name_nonempty; discriminate|exact Hn].
  rewrite (Join_nonempty _ "daemon"); [|exact Hb|discriminate].
  rewrite append_assoc. reflexivity.
Qed.

Lemma session_file_path workspace id :
  Session.sessionPath
    (Session.mkManager (Join (Join workspace ".vectra-guard") "sessions"))
    id
  = (Join workspace ".vectra-guard" ++ "/sessions/" ++ id ++ ".json")%string.
Proof.
  unfold Session.sessionPath. simpl Session.sessionDir.
  assert (Hb : Join workspace ".vectra-guard" <> "")
    by (apply Join_name_nonempty; discriminate).
  rewrite (Join_nonempty _ (id ++ ".json"));
    [|apply Join_name_nonempty; discriminate
     |apply append_nonempty; discriminate].
  rewrite (Join_nonempty _ "sessions"); [|exact Hb|discriminate].
  rewrite append_assoc. reflexivity.
Qed.

Lemma New_inl workspace agentName h d dm :
  (New workspace agentName h d).2 = inl dm ->
  dm = mkDaemon workspace agentName
         (Session.mkManager
            (Join (Join workspace ".vectra-guard") "sessions"))
         (Join (Join (Join workspace ".vectra-guard") "daemon") "daemon.pid")
         (Join (Join (Join workspace ".vectra-guard") "daemon")
               "daemon.lock").
Proof.
  unfold New, Session.NewManager, MkdirAll. simpl.
  destruct (h_mkdir_sessions h); simpl; [|discriminate].
  destruct (h_mkdir_daemon h); simpl; [|discriminate].
  intros [= <-]. reflexivity.
Qed.

(** A daemon made by [New] keeps its three files apart. *)
Lemma New_paths workspace agentName h d dm :
  (New workspace agentName h d).2 = inl dm ->
  pidFile dm <> lockFile dm
  /\ (forall id, Session.sessionPath (sessionMgr dm) id <> pidFile dm)
  /\ (forall id, Session.sessionPath (sessionMgr dm) id <> lockFile dm)
  /\ (forall id,
        Join (Join (Join (Lifecycle.workspace dm) ".vectra-guard") "sessions")
             (id ++ ".json")
        = Session.sessionPath (sessionMgr dm) id)
  /\ pidFile dm
     = Join (Join (Join workspace ".vectra-guard") "daemon") "daemon.pid".
Proof.
  intros H. rewrite (New_inl _ _ _ _ _ H). simpl.
  rewrite !daemon_file_path by discriminate.
  repeat match goal with |- _ /\ _ => split end.
  - intros E. apply (inj (String.append _)) in E. discriminate.
  - intros id E. rewrite session_file_path in E.
    apply (inj (String.append _)) in E. discriminate.
  - intros id E. rewrite session_file_path in E.
    apply (inj (String.append _)) in E. discriminate.
  - reflexivity.
  - reflexivity.
Qed.

Section WithCodecs.

Variable marshal : Session.Session -> string + string.
Variable unmarshal : string -> Session.Session + string.
Variable Sscanf : string -> option Z.

Local Abbreviation isRunning := (isRunning Sscanf).
Local Abbreviation startup := (startup marshal Sscanf).
Local Abbreviation shutdown := (shutdown marshal).
Local Abbreviation Start := (Start marshal Sscanf).
Local Abbreviation GetRunningDaemon := (GetRunningDaemon Sscanf).

(** The session [Manager.Start] makes for the daemon. *)
Local Abbreviation fresh dm h :=
  (Session.mkSession (Session.generateSessionID (h_id_clock h))
     (agentName dm) (workspace dm) (h_start h) None [] [] 0 0 ∅).

Lemma isRunning_disk dm h d :
  files (isRunning dm h d).1 = files d.
Proof.
  unfold Lifecycle.isRunning, ReadFile.
  destruct (files d !! pidFile dm) as [data|]; [|reflexivity].
  destruct (Sscanf data); reflexivity.
Qed.

Lemma isRunning_true dm h d :
  (isRunning dm h d).2 = true
  <-> exists data pid, files d !! pidFile dm = Some data
                       /\ Sscanf data = Some pid
                       /\ h_signal_ok h pid = true.
Proof.
  unfold Lifecycle.isRunning, ReadFile.
  destruct (files d !! pidFile dm) as [data|]; simpl.
  - destruct (Sscanf data) as [pid|] eqn:E; simpl; split.
    + eauto.
    + intros (data' & pid' & [= <-] & H1 & H2). congruence.
    + discriminate.
    + intros (data' & pid' & [= <-] & H1 & H2). congruence.
  - split; [discriminate|]. intros (data & pid & H & _). discriminate.
Qed.

(** A refused [Start]: nothing but the read of the pid file happened. *)
Lemma Start_locked dm h reason during d :
  (isRunning dm h d).2 = true \/ files d !! lockFile dm <> None ->
  let r := Start dm h reason during d in
  files (r_disk r) = files d /\ r_logs r = [] /\ r_session r = None
  /\ r_env r = None
  /\ r_err r
     = Some (if (isRunning dm h d).2
             then "daemon already running (pid file: " ++ pidFile dm ++ ")"
             else "acquire lock: failed to acquire lock: file exists").
Proof.
  intros H. cbv zeta. unfold Lifecycle.Start, Lifecycle.startup.
  pose proof (isRunning_disk dm h d) as Hf.
  destruct (isRunning dm h d) as [d0 b]. simpl in *.
  destruct b; [simpl; auto|].
  destruct H as [H|H]; [discriminate|].
  unfold acquireLock, OpenExcl. rewrite Hf.
  destruct (files d !! lockFile dm); [simpl; auto|congruence].
Qed.

(** What a [startup] that succeeds has found and done. *)
Lemma startup_inl dm h d sess :
  (startup dm h d).2 = inl sess ->
  (isRunning dm h d).2 = false
  /\ files d !! lockFile dm = None
  /\ sess = fresh dm h
  /\ (startup dm h d).1.2
     = [mkEntry Info "session started"
          [("session_id", VString (Session.ID sess));
           ("agent", VString (agentName dm));
           ("workspace", VString (workspace dm))];
        mkEntry Info "daemon started"
          [("session_id", VString (Session.ID sess));
           ("agent", VString (agentName dm));
           ("workspace", VString (workspace dm));
           ("pid", VInt (h_pid h))]]
  /\ exists data,
       marshal sess = inl data
       /\ files (startup dm h d).1.1
          = <[Session.sessionPath (sessionMgr dm) (Session.ID sess) := data]>
              (<[pidFile dm := Strconv.FormatInt (h_pid h)]>
                 (<[lockFile dm := ""]> (files d))).
Proof.
  unfold Lifecycle.startup.
  pose proof (isRunning_disk dm h d) as Hf.
  destruct (isRunning dm h d) as [d0 b]. simpl in Hf.
  destruct b; [discriminate|].
  unfold acquireLock, OpenExcl. rewrite Hf.
  destruct (files d !! lockFile dm); [discriminate|].
  destruct (h_lock_ok h); [|discriminate].
  unfold writePIDFile, WriteFile.
  destruct (h_pid_write h); try discriminate.
  unfold Session.Start, Session.save.
  destruct (marshal (fresh dm h)) as [data|err] eqn:Em; [|discriminate].
  unfold WriteFile. destruct (h_start_write h); try discriminate.
  cbn [fst snd files]. intros [= <-].
  repeat match goal with |- _ /\ _ => split end; try reflexivity.
  exists data. auto.
Qed.

Lemma Remove_lookup d path ok q :
  files (Remove d path ok) !! q
  = if ok && bool_decide (q = path) then None else files d !! q.
Proof.
  unfold Remove. destruct ok; [|reflexivity]. simpl.
  destruct (bool_decide_reflect (q = path)) as [->|Hne].
  - apply lookup_delete_eq.
  - apply lookup_delete_ne. congruence.
Qed.

Lemma shutdown_spec dm h sess reason d :
  let r := shutdown dm h sess reason d in
  let sess' := Session.set_EndTime sess (Some (h_end h)) in
  r.2 = sess'
  /\ (forall q, q <> pidFile dm -> q <> lockFile dm ->
        files r.1.1 !! q
        = files (Session.save marshal (sessionMgr dm) sess' d
                   (h_end_write h)).1 !! q)
  /\ (h_remove_ok h (lockFile dm) = true ->
      files r.1.1 !! lockFile dm = None)
  /\ (h_remove_ok h (pidFile dm) = true ->
      files r.1.1 !! pidFile dm = None)
  /\ last r.1.2
     = Some (mkEntry Info "daemon stopped"
               [("session_id", VString (Session.ID sess));
                ("commands",
                 VInt (Z.of_nat (length (Session.Commands sess))));
                ("violations", VInt (Session.Violations sess))]).
Proof.
  cbv zeta. unfold Lifecycle.shutdown, Session.End.
  destruct (Session.save marshal (sessionMgr dm) _ d (h_end_write h))
    as [d1 err]. cbn [fst snd].
  unfold releaseLock, removePIDFile.
  repeat match goal with |- _ /\ _ => split end.
  - reflexivity.
  - intros q Hp Hl. rewrite !Remove_lookup.
    rewrite (bool_decide_eq_false_2 _ Hp), (bool_decide_eq_false_2 _ Hl).
    rewrite !andb_false_r. reflexivity.
  - intros Hok. rewrite Remove_lookup, Hok.
    rewrite bool_decide_eq_true_2 by reflexivity. reflexivity.
  - intros Hok. rewrite !Remove_lookup, Hok.
    rewrite (bool_decide_eq_true_2 (pidFile dm = pidFile dm))
      by reflexivity.
    destruct (_ && _); reflexivity.
  - reflexivity.
Qed.

(** X19.  [Start] refuses while the pid file names a live process or
    the lock file exists, and a refused [Start] takes no part of the
    disk with it: no file is made, changed or removed (the lock file
    that made it refuse included, so that a lock left behind refuses
    every later [Start] too), no session is started and nothing is
    logged. *)
Theorem Start_refuses_while_locked
  (dm : Daemon) (h : Host) (reason : StopReason) (during : Disk -> Disk)
  (d : Disk) :
  (isRunning dm h d).2 = true \/ files d !! lockFile dm <> None ->
  let r := Start dm h reason during d in
  files (r_disk r) = files d
  /\ r_logs r = [] /\ r_session r = None /\ r_env r = None
  /\ r_err r
     = Some (if (isRunning dm h d).2
             then "daemon already running (pid file: " ++ pidFile dm ++ ")"
             else "acquire lock: failed to acquire lock: file exists").
Proof. apply Start_locked. Qed.

Lemma New_disk workspace agentName h d :
  files (New workspace agentName h d).1 = files d.
Proof.
  unfold New, Session.NewManager, MkdirAll. simpl.
  destruct (h_mkdir_sessions h); simpl; [|reflexivity].
  destruct (h_mkdir_daemon h); reflexivity.
Qed.

(** The three files right after a [startup] that succeeded. *)
Lemma startup_files workspace agentName h0 d0 dm h d sess :
  (New workspace agentName h0 d0).2 = inl dm ->
  (startup dm h d).2 = inl sess ->
  files (startup dm h d).1.1 !! lockFile dm = Some ""
  /\ files (startup dm h d).1.1 !! pidFile dm
     = Some (Strconv.FormatInt (h_pid h))
  /\ exists data,
       marshal sess = inl data
       /\ files (startup dm h d).1.1
            !! Session.sessionPath (sessionMgr dm) (Session.ID sess)
          = Some data.
Proof.
  intros Hnew Hs.
  destruct (New_paths _ _ _ _ _ Hnew) as (Hpl & Hsp & Hsl & _).
  destruct (startup_inl dm h d sess Hs)
    as (_ & _ & _ & _ & data & Hm & Hf).
  rewrite Hf. split; [|split].
  - rewrite lookup_insert_ne by apply Hsl.
    rewrite lookup_insert_ne by exact Hpl. apply lookup_insert_eq.
  - rewrite lookup_insert_ne by apply Hsp. apply lookup_insert_eq.
  - exists data. split; [exact Hm|apply lookup_insert_eq].
Qed.

(** X20.  [Start] does not leave its lock behind: once it has made the
    lock file, it removes it before it returns, on every path: when
    the pid file cannot be written, when the session cannot be started,
    and when the daemon has run and stopped (the removals themselves
    succeeding).  The pid file is removed as well when it was written in
    full; a pid file whose write failed part-way stays behind with the
    part that was written. *)
Theorem Start_removes_its_lock
  (workspace agentName : string) (h0 : Host) (d0 : Disk) (dm : Daemon)
  (h : Host) (reason : StopReason) (during : Disk -> Disk) (d : Disk) :
  (New workspace agentName h0 d0).2 = inl dm ->
  (isRunning dm h d).2 = false ->
  files d !! lockFile dm = None ->
  h_lock_ok h = true ->
  h_remove_ok h (lockFile dm) = true ->
  let r := Start dm h reason during d in
  files (r_disk r) !! lockFile dm = None
  /\ (h_pid_write h = WriteOK -> h_remove_ok h (pidFile dm) = true ->
      files (r_disk r) !! pidFile dm = None)
  /\ (forall n, h_pid_write h = WriteFailsAfter n ->
        r_err r = Some "write pid file: write failed"
        /\ files (r_disk r) !! pidFile dm
           = Some (String.substring 0 n (Strconv.FormatInt (h_pid h)))).
Proof.
  intros Hnew Hrun Hno Hok Hrm. cbv zeta.
  destruct (New_paths _ _ _ _ _ Hnew) as (Hpl & _).
  unfold Lifecycle.Start, Lifecycle.startup.
  pose proof (isRunning_disk dm h d) as Hf.
  destruct (isRunning dm h d) as [d0' b]. simpl in Hf, Hrun. subst b.
  unfold acquireLock, OpenExcl. rewrite Hf, Hno, Hok.
  unfold writePIDFile, WriteFile.
  destruct (h_pid_write h) as [| |n] eqn:Ew.
  - destruct (Session.Start marshal _ _ _ _ _ _) as [d3 [sess|err]].
    + pose proof (shutdown_spec dm h sess reason (during d3)) as Hsd.
      cbv zeta in Hsd.
      destruct (shutdown dm h sess reason (during d3)) as [[d4 logs] s'].
      simpl in *. destruct Hsd as (_ & _ & Hl & Hp & _).
      split; [auto|]. split; [auto|]. discriminate.
    + simpl. unfold releaseLock, removePIDFile.
      split; [|split; [|discriminate]].
      * rewrite Remove_lookup, Hrm.
        rewrite bool_decide_eq_true_2 by reflexivity. reflexivity.
      * intros _ Hrp. rewrite !Remove_lookup, Hrp.
        rewrite (bool_decide_eq_true_2 (pidFile dm = pidFile dm))
          by reflexivity.
        destruct (_ && _); reflexivity.
  - simpl. unfold releaseLock.
    split; [|split; [discriminate|discriminate]].
    rewrite Remove_lookup, Hrm.
    rewrite bool_decide_eq_true_2 by reflexivity. reflexivity.
  - simpl. unfold releaseLock.
    split; [|split; [discriminate|]].
    + rewrite Remove_lookup, Hrm.
      rewrite bool_decide_eq_true_2 by reflexivity. reflexivity.
    + intros n' [= <-]. split; [reflexivity|].
      rewrite Remove_lookup, (bool_decide_eq_false_2 _ Hpl), andb_false_r.
      simpl. apply lookup_insert_eq.
Qed.

(** X21.  The daemon ends the session it holds in memory, and nothing
    was ever added to that one: when [Start] returns after a run, the
    session's file holds the session as it was started, with the end
    time set and without any command, whatever the other processes
    wrote to the disk while the daemon ran (the commands [exec] recorded
    in that file included); and the last line logged reports 0 commands
    and 0 violations. *)
Theorem shutdown_overwrites_the_session_file
  (workspace agentName : string) (h0 : Host) (d0 : Disk) (dm : Daemon)
  (h : Host) (reason : StopReason) (during : Disk -> Disk) (d : Disk)
  (sess : Session.Session) (data' : string) :
  (New workspace agentName h0 d0).2 = inl dm ->
  (startup dm h d).2 = inl sess ->
  h_end_write h = WriteOK ->
  marshal (Session.set_EndTime sess (Some (h_end h))) = inl data' ->
  unmarshal data' = inl (Session.set_EndTime sess (Some (h_end h))) ->
  let r := Start dm h reason during d in
  r_err r = None
  /\ r_session r = Some (Session.set_EndTime sess (Some (h_end h)))
  /\ r_env r = Some (Session.ID sess)
  /\ files (r_disk r)
       !! Session.sessionPath (sessionMgr dm) (Session.ID sess)
     = Some data'
  /\ (Session.Load unmarshal (sessionMgr dm) (Session.ID sess)
        (r_disk r)).2
     = inl (Session.set_EndTime sess (Some (h_end h)))
  /\ Session.Commands (Session.set_EndTime sess (Some (h_end h))) = []
  /\ last (r_logs r)
     = Some (mkEntry Info "daemon stopped"
               [("session_id", VString (Session.ID sess));
                ("commands", VInt 0); ("violations", VInt 0)]).
Proof.
  intros Hnew Hs Hw Hm Hun. cbv zeta.
  destruct (New_paths _ _ _ _ _ Hnew) as (_ & Hsp & Hsl & _).
  destruct (startup_inl dm h d sess Hs) as (_ & _ & Hfresh & _).
  unfold Lifecycle.Start.
  destruct (startup dm h d) as [[d1 logs] res]. simpl in Hs. subst res.
  pose proof (shutdown_spec dm h sess reason (during d1)) as Hsd.
  cbv zeta in Hsd.
  destruct (shutdown dm h sess reason (during d1)) as [[d2 logs'] s'].
  simpl in *. destruct Hsd as (-> & Hq & _ & _ & Hlast).
  assert (Hfile : files d2
                    !! Session.sessionPath (sessionMgr dm) (Session.ID sess)
                  = Some data').
  { rewrite Hq by (apply Hsp || apply Hsl).
    unfold Session.save. simpl Session.ID. rewrite Hm.
    unfold WriteFile. rewrite Hw. simpl.
    replace (Session.ID (Session.set_EndTime sess (Some (h_end h))))
      with (Session.ID sess) by (destruct sess; reflexivity).
    apply lookup_insert_eq. }
  repeat match goal with |- _ /\ _ => split end; auto.
  - apply LedgerLaws.Load_inl_iff. eauto.
  - rewrite Hfresh. reflexivity.
  - rewrite last_app, Hlast. rewrite Hfresh. reflexivity.
Qed.

(** X22.  While a daemon runs, no second one starts in its workspace:
    on the disk a successful start-up leaves, a daemon made by [New]
    for the same workspace is refused by [Start], whatever its process
    can find out about the first one, and the refusal leaves the first
    daemon's lock file, pid file and session file as they are. *)
Theorem a_running_daemon_keeps_others_out
  (workspace agentName : string) (h0 : Host) (d0 : Disk) (dm : Daemon)
  (h : Host) (d : Disk) (sess : Session.Session)
  (agentName2 : string) (h2 : Host) (dm2 : Daemon)
  (reason : StopReason) (during : Disk -> Disk) :
  (New workspace agentName h0 d0).2 = inl dm ->
  (startup dm h d).2 = inl sess ->
  let d1 := (startup dm h d).1.1 in
  (New workspace agentName2 h2 d1).2 = inl dm2 ->
  let r := Start dm2 h2 reason during (New workspace agentName2 h2 d1).1 in
  (r_err r
   = Some ("daemon already running (pid file: " ++ pidFile dm ++ ")")
   \/ r_err r = Some "acquire lock: failed to acquire lock: file exists")
  /\ r_session r = None
  /\ r_logs r = []
  /\ files (r_disk r) = files d1.
Proof.
  intros Hnew Hs d1 Hnew2 r.
  destruct (startup_files _ _ _ _ _ _ _ _ Hnew Hs) as (Hlock & _).
  fold d1 in Hlock.
  assert (Hl2 : lockFile dm2 = lockFile dm /\ pidFile dm2 = pidFile dm).
  { rewrite (New_inl _ _ _ _ _ Hnew), (New_inl _ _ _ _ _ Hnew2). auto. }
  destruct Hl2 as [Hl2 Hp2].
  destruct (Start_locked dm2 h2 reason during
              (New workspace agentName2 h2 d1).1)
    as (Hf & Hlg & Hse & _ & Herr).
  { right. rewrite New_disk, Hl2, Hlock. discriminate. }
  fold r in Hf, Hlg, Hse, Herr. rewrite New_disk in Hf.
  repeat match goal with |- _ /\ _ => split end; auto.
  rewrite Herr, Hp2. destruct (isRunning dm2 h2 _).2; auto.
Qed.

Lemma checkIntegrity_None dm h sess d :
  (checkIntegrity dm h sess d).2 = None
  <-> files d !! Join (Join (Join (workspace dm) ".vectra-guard") "sessions")
                      (Session.ID sess ++ ".json") <> None
      /\ files d !! pidFile dm = Some (Strconv.FormatInt (h_pid h)).
Proof.
  unfold checkIntegrity, notExist, ReadFile.
  destruct (files d !! Join _ (Session.ID sess ++ ".json")) as [x|]; simpl.
  - destruct (files d !! pidFile dm) as [data|]; simpl.
    + destruct (String.eqb_spec data (Strconv.FormatInt (h_pid h)))
        as [->|Hne]; simpl; split; auto.
      * discriminate.
      * intros [_ [= E]]. contradiction.
    + split; [discriminate|]. intros [_ H]. discriminate.
  - split; [discriminate|]. intros [H _]. contradiction.
Qed.

(** X23.  The integrity check looks at two things only: that the
    session's file exists, whatever it holds, and that the pid file
    holds the daemon's pid in decimal.  It passes on the disk a
    successful start-up leaves, and it fails on the disk [Start] leaves
    when it returns, for [Start] has removed the pid file by then (the
    removal succeeding). *)
Theorem integrity_check_follows_the_two_files
  (workspace agentName : string) (h0 : Host) (d0 : Disk) (dm : Daemon)
  (h : Host) (d : Disk) (sess : Session.Session) :
  (New workspace agentName h0 d0).2 = inl dm ->
  (startup dm h d).2 = inl sess ->
  (checkIntegrity dm h sess (startup dm h d).1.1).2 = None
  /\ (tick dm h sess (startup dm h d).1.1).2 = []
  /\ (forall d',
        (checkIntegrity dm h sess d').2 = None
        <-> files d' !! Session.sessionPath (sessionMgr dm) (Session.ID sess)
            <> None
            /\ files d' !! pidFile dm
               = Some (Strconv.FormatInt (h_pid h)))
  /\ (forall reason during,
        h_remove_ok h (pidFile dm) = true ->
        (checkIntegrity dm h sess
           (r_disk (Start dm h reason during d))).2 <> None).
Proof.
  intros Hnew Hs.
  destruct (New_paths _ _ _ _ _ Hnew) as (_ & _ & _ & Hpath & _).
  destruct (startup_files _ _ _ _ _ _ _ _ Hnew Hs)
    as (_ & Hpid & data & _ & Hfile).
  assert (Hiff : forall d',
             (checkIntegrity dm h sess d').2 = None
             <-> files d'
                   !! Session.sessionPath (sessionMgr dm) (Session.ID sess)
                 <> None
                 /\ files d' !! pidFile dm
                    = Some (Strconv.FormatInt (h_pid h))).
  { intros d'. rewrite checkIntegrity_None, Hpath. reflexivity. }
  assert (Hpass : (checkIntegrity dm h sess (startup dm h d).1.1).2 = None).
  { apply Hiff. rewrite Hfile. split; [discriminate|exact Hpid]. }
  repeat match goal with |- _ /\ _ => split end; auto.
  - unfold tick.
    destruct (checkIntegrity dm h sess (startup dm h d).1.1) as [d' e].
    simpl in Hpass. subst e. reflexivity.
  - intros reason during Hrm Hc. apply Hiff in Hc. destruct Hc as [_ Hc].
    unfold Lifecycle.Start in Hc.
    destruct (startup dm h d) as [[d1 logs] res]. simpl in Hs. subst res.
    pose proof (shutdown_spec dm h sess reason (during d1)) as Hsd.
    cbv zeta in Hsd.
    destruct (shutdown dm h sess reason (during d1)) as [[d2 logs'] s'].
    simpl in *. destruct Hsd as (_ & _ & _ & Hp & _).
    rewrite (Hp Hrm) in Hc. discriminate.
Qed.

(** X24.  The pid file is read back as it was written.  If [Sscanf]
    reads the decimal form of the daemon's pid as that pid, then on the
    disk a successful start-up leaves [GetRunningDaemon] returns the
    daemon's pid to every process that can signal it and 0 to the
    others, [isRunning] agrees with it, and once [Start] has returned
    and removed the pid file [GetRunningDaemon] returns 0. *)
Theorem GetRunningDaemon_finds_the_started_daemon
  (workspace agentName : string) (h0 : Host) (d0 : Disk) (dm : Daemon)
  (h : Host) (d : Disk) (sess : Session.Session) :
  (New workspace agentName h0 d0).2 = inl dm ->
  (startup dm h d).2 = inl sess ->
  Sscanf (Strconv.FormatInt (h_pid h)) = Some (h_pid h) ->
  (forall h',
      (GetRunningDaemon workspace h' (startup dm h d).1.1).2
      = if h_signal_ok h' (h_pid h) then h_pid h else 0)
  /\ (forall h',
        (isRunning dm h' (startup dm h d).1.1).2 = h_signal_ok h' (h_pid h))
  /\ (forall h' reason during,
        h_remove_ok h (pidFile dm) = true ->
        (GetRunningDaemon workspace h'
           (r_disk (Start dm h reason during d))).2 = 0).
Proof.
  intros Hnew Hs Hscan.
  destruct (New_paths _ _ _ _ _ Hnew) as (_ & _ & _ & _ & Hpf).
  destruct (startup_files _ _ _ _ _ _ _ _ Hnew Hs) as (_ & Hpid & _).
  repeat match goal with |- _ /\ _ => split end.
  - intros h'. unfold Lifecycle.GetRunningDaemon, ReadFile.
    rewrite <- Hpf, Hpid. simpl. rewrite Hscan. reflexivity.
  - intros h'. unfold Lifecycle.isRunning, ReadFile.
    rewrite Hpid. simpl. rewrite Hscan. reflexivity.
  - intros h' reason during Hrm.
    unfold Lifecycle.GetRunningDaemon, ReadFile. rewrite <- Hpf.
    unfold Lifecycle.Start.
    destruct (startup dm h d) as [[d1 logs] res]. simpl in Hs. subst res.
    pose proof (shutdown_spec dm h sess reason (during d1)) as Hsd.
    cbv zeta in Hsd.
    destruct (shutdown dm h sess reason (during d1)) as [[d2 logs'] s'].
    simpl in *. destruct Hsd as (_ & _ & _ & Hp & _).
    rewrite (Hp Hrm). reflexivity.
Qed.

(** X25.  A session that cannot be ended does not make [Start] fail.
    When the daemon has run and the write of the ended session fails,
    [Start] still returns [nil]: the failure is logged at error level,
    no [session ended] line is logged, the session in memory carries the
    end time, and when the file could not even be opened it is left as
    the other processes left it, without an end time written. *)
Theorem Start_swallows_a_failed_End
  (workspace agentName : string) (h0 : Host) (d0 : Disk) (dm : Daemon)
  (h : Host) (reason : StopReason) (during : Disk -> Disk) (d : Disk)
  (sess : Session.Session) (e : string) :
  (New workspace agentName h0 d0).2 = inl dm ->
  (startup dm h d).2 = inl sess ->
  let d1 := during (startup dm h d).1.1 in
  let sess' := Session.set_EndTime sess (Some (h_end h)) in
  (Session.save marshal (sessionMgr dm) sess' d1 (h_end_write h)).2
  = Some e ->
  let r := Start dm h reason during d in
  r_err r = None
  /\ r_session r = Some sess'
  /\ In (mkEntry Error "failed to end session" [("error", VString e)])
        (r_logs r)
  /\ Forall (fun l => message l <> "session ended") (r_logs r)
  /\ (h_end_write h = OpenFails ->
      files (r_disk r)
        !! Session.sessionPath (sessionMgr dm) (Session.ID sess)
      = files d1 !! Session.sessionPath (sessionMgr dm) (Session.ID sess)).
Proof.
  intros Hnew Hs d1 sess' Hsave. cbv zeta.
  destruct (New_paths _ _ _ _ _ Hnew) as (_ & Hsp & Hsl & _).
  destruct (startup_inl dm h d sess Hs) as (_ & _ & _ & Hlogs & _).
  pose proof (shutdown_spec dm h sess reason d1) as Hsd. cbv zeta in Hsd.
  destruct Hsd as (_ & Hq & _).
  unfold Lifecycle.Start. subst d1.
  destruct (startup dm h d) as [[d1 logs] res]. simpl in Hs, Hlogs.
  subst res logs. cbn [fst snd] in *.
  unfold Lifecycle.shutdown, Session.End in *. fold sess' in Hq |- *.
  destruct (Session.save marshal (sessionMgr dm) sess' (during d1)
              (h_end_write h)) as [d2 err] eqn:Esave.
  simpl in Hsave. subst err. cbn [fst snd r_err r_session r_logs r_disk] in *.
  repeat match goal with |- _ /\ _ => split end.
  - reflexivity.
  - reflexivity.
  - simpl. auto.
  - repeat constructor; simpl; try discriminate.
    destruct reason; discriminate.
  - intros Hw. rewrite Hq by (apply Hsp || apply Hsl).
    unfold Session.save in Esave. rewrite Hw in Esave.
    destruct (marshal sess'); unfold WriteFile in Esave;
      injection Esave as <- _; reflexivity.
Qed.

End WithCodecs.

Lemma failed_End_witness :
  let r :=
    Start Samples.sampleMarshal MoreSamples.sampleSscanf
      MoreSamples.sampleDaemon MoreSamples.hostEndFails StopRequested
      MoreSamples.execMeanwhile Samples.emptyDisk in
  let d1 :=
    MoreSamples.execMeanwhile
      (startup Samples.sampleMarshal MoreSamples.sampleSscanf
         MoreSamples.sampleDaemon MoreSamples.hostEndFails
         Samples.emptyDisk).1.1 in
  r_err r = None
  /\ r_session r = Some MoreSamples.endedSession
  /\ In (mkEntry Error "failed to end session"
           [("error", VString "write session: open failed")])
        (r_logs r)
  /\ Forall (fun l => message l <> "session ended") (r_logs r)
  /\ (h_end_write MoreSamples.hostEndFails = OpenFails ->
      files (r_disk r)
        !! Session.sessionPath Samples.manager "session-1700000000000000000"
      = files d1
          !! Session.sessionPath Samples.manager
               "session-1700000000000000000").
Proof.
  apply (Start_swallows_a_failed_End Samples.sampleMarshal
           MoreSamples.sampleSscanf "/w" "agent" MoreSamples.host
           Samples.emptyDisk MoreSamples.sampleDaemon
           MoreSamples.hostEndFails StopRequested
           MoreSamples.execMeanwhile Samples.emptyDisk
           MoreSamples.startedSession);
    reflexivity.
Defined.

Lemma refused_witness :
  let r :=
    Start Samples.sampleMarshal MoreSamples.sampleSscanf
      MoreSamples.sampleDaemon MoreSamples.host StopRequested
      MoreSamples.execMeanwhile MoreSamples.lockedDisk in
  files (r_disk r) = files MoreSamples.lockedDisk
  /\ r_logs r = [] /\ r_session r = None /\ r_env r = None
  /\ r_err r = Some "acquire lock: failed to acquire lock: file exists".
Proof.
  apply (Start_refuses_while_locked Samples.sampleMarshal
           MoreSamples.sampleSscanf MoreSamples.sampleDaemon
           MoreSamples.host StopRequested MoreSamples.execMeanwhile
           MoreSamples.lockedDisk).
  right. discriminate.
Defined.

Lemma lock_removed_witness :
  let r :=
    Start Samples.sampleMarshal MoreSamples.sampleSscanf
      MoreSamples.sampleDaemon MoreSamples.hostShortWrite StopRequested
      MoreSamples.execMeanwhile Samples.emptyDisk in
  files (r_disk r) !! lockFile MoreSamples.sampleDaemon = None
  /\ (h_pid_write MoreSamples.hostShortWrite = WriteOK ->
      h_remove_ok MoreSamples.hostShortWrite
        (pidFile MoreSamples.sampleDaemon) = true ->
      files (r_disk r) !! pidFile MoreSamples.sampleDaemon = None)
  /\ (forall n,
        h_pid_write MoreSamples.hostShortWrite = WriteFailsAfter n ->
        r_err r = Some "write pid file: write failed"
        /\ files (r_disk r) !! pidFile MoreSamples.sampleDaemon
           = Some (String.substring 0 n (Strconv.FormatInt 4242))).
Proof.
  apply (Start_removes_its_lock Samples.sampleMarshal
           MoreSamples.sampleSscanf "/w" "agent" MoreSamples.host
           Samples.emptyDisk MoreSamples.sampleDaemon
           MoreSamples.hostShortWrite StopRequested
           MoreSamples.execMeanwhile Samples.emptyDisk);
    reflexivity.
Defined.

Lemma lost_update_witness :
  let r :=
    Start Samples.sampleMarshal MoreSamples.sampleSscanf
      MoreSamples.sampleDaemon MoreSamples.host StopRequested
      MoreSamples.execMeanwhile Samples.emptyDisk in
  r_err r = None
  /\ r_session r = Some MoreSamples.endedSession
  /\ r_env r = Some "session-1700000000000000000"
  /\ files (r_disk r)
       !! Session.sessionPath Samples.manager "session-1700000000000000000"
     = Some "{id: session-1700000000000000000, agent: agent, commands: 0, risk_score: 0, violations: 0}"
  /\ (Session.Load (MoreSamples.unmarshalTo MoreSamples.endedSession)
        Samples.manager "session-1700000000000000000" (r_disk r)).2
     = inl MoreSamples.endedSession
  /\ Session.Commands MoreSamples.endedSession = []
  /\ last (r_logs r)
     = Some (mkEntry Info "daemon stopped"
               [("session_id", VString "session-1700000000000000000");
                ("commands", VInt 0); ("violations", VInt 0)]).
Proof.
  apply (shutdown_overwrites_the_session_file Samples.sampleMarshal
           (MoreSamples.unmarshalTo MoreSamples.endedSession)
           MoreSamples.sampleSscanf "/w" "agent" MoreSamples.host
           Samples.emptyDisk MoreSamples.sampleDaemon MoreSamples.host
           StopRequested MoreSamples.execMeanwhile Samples.emptyDisk
           MoreSamples.startedSession);
    reflexivity.
Defined.

Lemma second_daemon_witness :
  let d1 :=
    (startup Samples.sampleMarshal MoreSamples.sampleSscanf
       MoreSamples.sampleDaemon MoreSamples.host Samples.emptyDisk).1.1 in
  let r :=
    Start Samples.sampleMarshal MoreSamples.sampleSscanf
      MoreSamples.sampleDaemon MoreSamples.otherHost ContextCancelled
      MoreSamples.execMeanwhile
      (New "/w" "agent" MoreSamples.otherHost d1).1 in
  (r_err r
   = Some ("daemon already running (pid file: "
           ++ pidFile MoreSamples.sampleDaemon ++ ")")
   \/ r_err r = Some "acquire lock: failed to acquire lock: file exists")
  /\ r_session r = None
  /\ r_logs r = []
  /\ files (r_disk r) = files d1.
Proof.
  apply (a_running_daemon_keeps_others_out Samples.sampleMarshal
           MoreSamples.sampleSscanf "/w" "agent" MoreSamples.host
           Samples.emptyDisk MoreSamples.sampleDaemon MoreSamples.host
           Samples.emptyDisk MoreSamples.startedSession "agent"
           MoreSamples.otherHost MoreSamples.sampleDaemon ContextCancelled
           MoreSamples.execMeanwhile);
    reflexivity.
Defined.

Lemma integrity_witness :
  let d1 :=
    (startup Samples.sampleMarshal MoreSamples.sampleSscanf
       MoreSamples.sampleDaemon MoreSamples.host Samples.emptyDisk).1.1 in
  (checkIntegrity MoreSamples.sampleDaemon MoreSamples.host
     MoreSamples.startedSession d1).2 = None
  /\ (tick MoreSamples.sampleDaemon MoreSamples.host
        MoreSamples.startedSession d1).2 = []
  /\ (forall d',
        (checkIntegrity MoreSamples.sampleDaemon MoreSamples.host
           MoreSamples.startedSession d').2 = None
        <-> files d'
              !! Session.sessionPath Samples.manager
                   "session-1700000000000000000"
            <> None
            /\ files d' !! pidFile MoreSamples.sampleDaemon = Some "4242")
  /\ (forall reason during,
        h_remove_ok MoreSamples.host (pidFile MoreSamples.sampleDaemon)
        = true ->
        (checkIntegrity MoreSamples.sampleDaemon MoreSamples.host
           MoreSamples.startedSession
           (r_disk
              (Start Samples.sampleMarshal MoreSamples.sampleSscanf
                 MoreSamples.sampleDaemon MoreSamples.host reason during
                 Samples.emptyDisk))).2 <> None).
Proof.
  apply (integrity_check_follows_the_two_files Samples.sampleMarshal
           MoreSamples.sampleSscanf "/w" "agent" MoreSamples.host
           Samples.emptyDisk MoreSamples.sampleDaemon MoreSamples.host
           Samples.emptyDisk MoreSamples.startedSession);
    reflexivity.
Defined.

Lemma running_daemon_witness :
  let d1 :=
    (startup Samples.sampleMarshal MoreSamples.sampleSscanf
       MoreSamples.sampleDaemon MoreSamples.host Samples.emptyDisk).1.1 in
  (forall h',
      (GetRunningDaemon MoreSamples.sampleSscanf "/w" h' d1).2
      = if h_signal_ok h' 4242 then 4242 else 0)
  /\ (forall h',
        (isRunning MoreSamples.sampleSscanf MoreSamples.sampleDaemon h'
           d1).2 = h_signal_ok h' 4242)
  /\ (forall h' reason during,
        h_remove_ok MoreSamples.host (pidFile MoreSamples.sampleDaemon)
        = true ->
        (GetRunningDaemon MoreSamples.sampleSscanf "/w" h'
           (r_disk
              (Start Samples.sampleMarshal MoreSamples.sampleSscanf
                 MoreSamples.sampleDaemon MoreSamples.host reason during
                 Samples.emptyDisk))).2 = 0).
Proof.
  apply (GetRunningDaemon_finds_the_started_daemon Samples.sampleMarshal
           MoreSamples.sampleSscanf "/w" "agent" MoreSamples.host
           Samples.emptyDisk MoreSamples.sampleDaemon MoreSamples.host
           Samples.emptyDisk MoreSamples.startedSession);
    reflexivity.
Defined.

End LifecycleLaws.
